(** * PaPaNalyze: the MSR parser ([msr_parser.py])

    A shallow embedding of [parse_msr_files] and machine-checked statements
    of its specification.

    Conventions of the model.
    - A Python scalar is a [pyval]: [str], [int], [float] or [bool].  These are
      the types a cell of a pandas row can hold after [read_csv] (an empty cell
      is the float NaN).  Text is a [string] with one [ascii] per character.
    - A Python [float] is a binary64 primitive float; [int] is [Z].
    - An exception is a value [Raise e] of the [result] type; it propagates
      through [bind] exactly like an uncaught Python exception.
    - A [dict] is an association list in insertion order without duplicate
      keys: assigning to an existing key keeps the key's position.
    - [glob.glob], [pd.read_csv] and [requests.get] are the environment: the
      discovered files arrive as a list of paths with their rows, and the
      exchange-rate service is an oracle indexed by the number of calls made
      before, so that its answers may change over time.
    - The two data frames that are returned are the two dictionaries they
      are built from.
    - Text written by [print] is not modelled; the exceptions that building
      the printed line can raise are. *)

From Stdlib Require Import ZArith String Ascii List Bool Lia.
From Stdlib Require Import Permutation Sorted.
From Stdlib Require Import PrimFloat SpecFloat FloatOps.
From Stdlib Require Import DecimalString DecimalZ.
Import ListNotations.
Open Scope Z_scope.

Set Implicit Arguments.

(** ** Exceptions *)

Inductive exn : Type :=
| TypeError
| ValueError
| KeyError
| ZeroDivisionError
| OverflowError
| RequestException.

Inductive result (A : Type) : Type :=
| Ok (a : A)
| Raise (e : exn).

Arguments Ok {A} a.
Arguments Raise {A} e.

Definition bind {A B : Type} (c : result A) (k : A -> result B) : result B :=
  match c with
  | Ok a => k a
  | Raise e => Raise e
  end.

Notation "x <- c ;; k" := (bind c (fun x => k))
  (at level 61, c at next level, right associativity).
Notation "' pat <- c ;; k" := (bind c (fun x => match x with pat => k end))
  (at level 61, pat pattern, c at next level, right associativity).

Definition succeeds {A : Type} (c : result A) : Prop := exists a, c = Ok a.
Definition raises {A : Type} (c : result A) : Prop := exists e, c = Raise e.

(** ** Python scalars *)

Inductive pyval : Type :=
| VStr (s : string)
| VInt (z : Z)
| VFloat (f : float)
| VBool (b : bool).

(** The numeric view of a value: [bool] is a subclass of [int]. *)
Inductive num : Type :=
| NInt (z : Z)
| NFloat (f : float).

Definition as_num (v : pyval) : option num :=
  match v with
  | VStr _ => None
  | VInt z => Some (NInt z)
  | VFloat f => Some (NFloat f)
  | VBool b => Some (NInt (Z.b2z b))
  end.

(** [float(z)] for an [int]: round to nearest even, [OverflowError] when the
    rounded value is out of range. *)
Definition float_of_Z (z : Z) : float :=
  SF2Prim (binary_normalize prec emax z 0 false).

Definition float_of_int (z : Z) : result float :=
  let f := float_of_Z z in
  if PrimFloat.is_infinity f then Raise OverflowError else Ok f.

(** [z == f] between an [int] and a [float] compares the exact values. *)
Definition int_float_eqb (z : Z) (f : float) : bool :=
  match Prim2SF f with
  | S754_zero _ => z =? 0
  | S754_finite s m e =>
      let v := if s then Z.neg m else Z.pos m in
      if 0 <=? e then z =? v * 2 ^ e else z * 2 ^ (- e) =? v
  | _ => false
  end.

Definition num_eqb (a b : num) : bool :=
  match a, b with
  | NInt x, NInt y => x =? y
  | NFloat x, NFloat y => PrimFloat.eqb x y
  | NInt x, NFloat y => int_float_eqb x y
  | NFloat x, NInt y => int_float_eqb y x
  end.

(** Python [==] and [!=] on scalars. *)
Definition py_eq (a b : pyval) : bool :=
  match a, b with
  | VStr x, VStr y => String.eqb x y
  | _, _ =>
      match as_num a, as_num b with
      | Some x, Some y => num_eqb x y
      | _, _ => false
      end
  end.

Definition py_ne (a b : pyval) : bool := negb (py_eq a b).

Definition num_float (a : num) : result float :=
  match a with
  | NInt z => float_of_int z
  | NFloat f => Ok f
  end.

(** Python [+]: concatenation of two strings, exact on two ints, binary64
    otherwise; a string and a number do not add. *)
Definition py_add (a b : pyval) : result pyval :=
  match a, b with
  | VStr x, VStr y => Ok (VStr (x ++ y))
  | _, _ =>
      match as_num a, as_num b with
      | Some (NInt x), Some (NInt y) => Ok (VInt (x + y))
      | Some x, Some y =>
          fx <- num_float x ;;
          fy <- num_float y ;;
          Ok (VFloat (PrimFloat.add fx fy))
      | _, _ => Raise TypeError
      end
  end.

(** Division of two floats: Python raises on a zero divisor. *)
Definition float_div (x d : float) : result float :=
  if PrimFloat.eqb d PrimFloat.zero then Raise ZeroDivisionError
  else Ok (PrimFloat.div x d).

(** [a / d] for a float divisor [d]. *)
Definition py_truediv_float (a : pyval) (d : float) : result pyval :=
  match as_num a with
  | Some x =>
      fx <- num_float x ;;
      q <- float_div fx d ;;
      Ok (VFloat q)
  | None => Raise TypeError
  end.

(** [str(z)] for an [int]. *)
Definition py_str_int (z : Z) : string :=
  NilZero.string_of_int (Z.to_int z).

(** The right operand of [+] when the left one is a string: anything but a
    string raises. *)
Definition as_str (v : pyval) : result string :=
  match v with
  | VStr t => Ok t
  | _ => Raise TypeError
  end.

(** [s.replace(',', '')] *)
Fixpoint remove_commas (s : string) : string :=
  match s with
  | EmptyString => EmptyString
  | String c s' =>
      if Ascii.eqb c ","%char then remove_commas s'
      else String c (remove_commas s')
  end.

(** [s[a:b]] with Python's treatment of negative and out-of-range bounds. *)
Definition slice_bound (n i : Z) : Z :=
  if i <? 0 then Z.max (i + n) 0 else Z.min i n.

Definition py_slice (s : string) (a b : Z) : string :=
  let n := Z.of_nat (String.length s) in
  let lo := slice_bound n a in
  let hi := slice_bound n b in
  if lo <? hi then substring (Z.to_nat lo) (Z.to_nat (hi - lo)) s
  else EmptyString.

(** ** Dates: [re.match] and [datetime.strptime] *)

Record date : Type := mkDate { year : Z; month : Z; day : Z }.

Definition in_range (lo hi c : ascii) : bool :=
  (nat_of_ascii lo <=? nat_of_ascii c)%nat && (nat_of_ascii c <=? nat_of_ascii hi)%nat.

Definition is_digit : ascii -> bool := in_range "0" "9".

(** A piece of a regular expression: one literal character, or between [lo]
    and [hi] characters of a class, as many as possible first. *)
Inductive re_item : Type :=
| RChar (c : ascii)
| RClass (p : ascii -> bool) (lo hi : nat).

(** Between [lo] and [hi] characters of class [p], then the continuation [k]
    on what is left. *)
Fixpoint re_rep (p : ascii -> bool) (k : string -> bool) (lo hi : nat)
    (s : string) : bool :=
  match hi with
  | O => match lo with O => k s | S _ => false end
  | S hi' =>
      match s with
      | String c s' => if p c then re_rep p k (Nat.pred lo) hi' s' else false
      | EmptyString => false
      end
      || match lo with O => k s | S _ => false end
  end.

(** [bool(re.match(pattern, s))]: the pattern matches a prefix of [s]. *)
Fixpoint re_match (pattern : list re_item) (s : string) : bool :=
  match pattern with
  | [] => true
  | RChar c :: rest =>
      match s with
      | String c' s' => Ascii.eqb c c' && re_match rest s'
      | EmptyString => false
      end
  | RClass p lo hi :: rest => re_rep p (re_match rest) lo hi s
  end.

(** [[0-9]{1,2}<sep>[0-9]{1,2}<sep>[0-9]{4}] *)
Definition date_pattern (sep : ascii) : list re_item :=
  [RClass is_digit 1 2; RChar sep; RClass is_digit 1 2; RChar sep;
   RClass is_digit 4 4].

(** The directives of a [strptime] format. *)
Inductive directive : Type :=
| Dm
| Dd
| DY
| DLit (c : ascii).

(** The regular expression [strptime] compiles a directive to, as the list of
    its alternatives in order, each a sequence of character classes:
    [%m] is [1[0-2]|0[1-9]|[1-9]], [%d] is
    [3[01]|[12]\d|0[1-9]|[1-9]| [1-9]] and [%Y] is [\d\d\d\d]. *)
Definition alternatives (d : directive) : list (list (ascii -> bool)) :=
  match d with
  | Dm => [[in_range "1" "1"; in_range "0" "2"];
           [in_range "0" "0"; in_range "1" "9"];
           [in_range "1" "9"]]
  | Dd => [[in_range "3" "3"; in_range "0" "1"];
           [in_range "1" "2"; is_digit];
           [in_range "0" "0"; in_range "1" "9"];
           [in_range "1" "9"];
           [in_range " " " "; in_range "1" "9"]]
  | DY => [[is_digit; is_digit; is_digit; is_digit]]
  | DLit c => [[in_range c c]]
  end.

(** One alternative against the start of [s]: the text it takes and the rest. *)
Fixpoint take_classes (cs : list (ascii -> bool)) (s : string)
    : option (string * string) :=
  match cs with
  | [] => Some (EmptyString, s)
  | p :: cs' =>
      match s with
      | String c s' =>
          if p c then
            match take_classes cs' s' with
            | Some (t, r) => Some (String c t, r)
            | None => None
            end
          else None
      | EmptyString => None
      end
  end.

(** The groups found so far (the text of [%Y], [%m] and [%d]). *)
Record groups : Type := mkGroups { gY : option string; gm : option string; gd : option string }.

Definition no_groups : groups := mkGroups None None None.

Definition set_group (d : directive) (t : string) (g : groups) : groups :=
  match d with
  | DY => mkGroups (Some t) (gm g) (gd g)
  | Dm => mkGroups (gY g) (Some t) (gd g)
  | Dd => mkGroups (gY g) (gm g) (Some t)
  | DLit _ => g
  end.

(** The alternatives in order: the first one after which the continuation
    [k] matches is the one the backtracking matcher settles on. *)
Fixpoint first_alternative {R : Type} (k : string -> string -> option R)
    (alts : list (list (ascii -> bool))) (s : string) : option R :=
  match alts with
  | [] => None
  | cs :: alts' =>
      match take_classes cs s with
      | Some (t, r) =>
          match k t r with
          | Some x => Some x
          | None => first_alternative k alts' s
          end
      | None => first_alternative k alts' s
      end
  end.

(** The compiled format against the start of [s]: the groups and the rest
    of the text ([found.end()]). *)
Fixpoint format_match (fmt : list directive) (g : groups) (s : string)
    : option (groups * string) :=
  match fmt with
  | [] => Some (g, s)
  | d :: fmt' =>
      first_alternative (fun t r => format_match fmt' (set_group d t g) r)
        (alternatives d) s
  end.

(** [int(t)] on the text of a group: decimal digits after optional blanks. *)
Fixpoint int_of_digits (acc : Z) (t : string) : Z :=
  match t with
  | EmptyString => acc
  | String c t' =>
      if is_digit c
      then int_of_digits (10 * acc + Z.of_nat (nat_of_ascii c - 48)) t'
      else int_of_digits acc t'
  end.

Definition group_value (default : Z) (t : option string) : Z :=
  match t with
  | Some t => int_of_digits 0 t
  | None => default
  end.

Definition is_leap (y : Z) : bool :=
  (y mod 4 =? 0) && (negb (y mod 100 =? 0) || (y mod 400 =? 0)).

Definition days_in_month (y m : Z) : Z :=
  if m =? 2 then (if is_leap y then 29 else 28)
  else if (m =? 4) || (m =? 6) || (m =? 9) || (m =? 11) then 30
  else 31.

(** [datetime.date(y, m, d)] *)
Definition make_date (y m d : Z) : result date :=
  if (1 <=? y) && (y <=? 9999) && (1 <=? m) && (m <=? 12)
     && (1 <=? d) && (d <=? days_in_month y m)
  then Ok (mkDate y m d)
  else Raise ValueError.

(** [datetime.datetime.strptime(s, fmt).date()] for a format made of [%Y],
    [%m], [%d] and literal characters.  A group the format does not have
    takes [strptime]'s default (1900, 1, 1); the three formats of
    [parse_msr_files] have all three groups. *)
Definition strptime (s : string) (fmt : list directive) : result date :=
  match format_match fmt no_groups s with
  | None => Raise ValueError
  | Some (g, rest) =>
      match rest with
      | EmptyString =>
          make_date (group_value 1900 (gY g)) (group_value 1 (gm g))
            (group_value 1 (gd g))
      | String _ _ => Raise ValueError
      end
  end.

Definition fmt_mdY (sep : ascii) : list directive :=
  [Dm; DLit sep; Dd; DLit sep; DY].

Definition fmt_Ymd : list directive :=
  [DY; DLit "-"; Dm; DLit "-"; Dd].

(** The date of a row (lines 112-118 of [msr_parser.py]): [re.match] raises
    [TypeError] on anything but a string. *)
Definition parse_date (v : pyval) : result date :=
  match v with
  | VStr s =>
      if re_match (date_pattern "/") s then strptime s (fmt_mdY "/")
      else if re_match (date_pattern "-") s then strptime s (fmt_mdY "-")
      else strptime s fmt_Ymd
  | _ => Raise TypeError
  end.

(** ** Dictionaries in insertion order *)

Definition dict (V : Type) : Type := list (string * V).

Fixpoint dict_get {V : Type} (k : string) (d : dict V) : option V :=
  match d with
  | [] => None
  | (k', v) :: d' => if String.eqb k k' then Some v else dict_get k d'
  end.

(** [k in d] *)
Definition dict_mem {V : Type} (k : string) (d : dict V) : bool :=
  match dict_get k d with Some _ => true | None => false end.

(** [d[k] = v]: an existing key keeps its place, a new one goes last. *)
Fixpoint dict_set {V : Type} (k : string) (v : V) (d : dict V) : dict V :=
  match d with
  | [] => [(k, v)]
  | (k', v') :: d' =>
      if String.eqb k k' then (k', v) :: d' else (k', v') :: dict_set k v d'
  end.

(** [d[k]] *)
Definition dict_item {V : Type} (k : string) (d : dict V) : result V :=
  match dict_get k d with Some v => Ok v | None => Raise KeyError end.

Definition keys {V : Type} (d : dict V) : list string := map fst d.

(** The value at position [i] of the iteration order replaced by [v]. *)
Fixpoint replace_at {V : Type} (i : nat) (v : V) (d : dict V) : dict V :=
  match d, i with
  | [], _ => []
  | (k, _) :: d', O => (k, v) :: d'
  | kv :: d', S i' => kv :: replace_at i' v d'
  end.

(** ** The tables *)

Inductive status : Type := active | tentative | canceled.

Definition status_eqb (a b : status) : bool :=
  match a, b with
  | active, active | tentative, tentative | canceled, canceled => true
  | _, _ => false
  end.

(** One subscription: the inner dictionary built at lines 158-170. *)
Record subscription : Type := mkSubscription {
  s_id : string;
  s_name : pyval;
  s_email : pyval;
  s_start : date;
  s_end : date;
  s_length : Z;
  s_currency : pyval;
  s_gross : pyval;
  s_original_currency : pyval;
  s_original_gross : pyval;
  s_status : status
}.

(** One month: the inner dictionary built at lines 209-220. *)
Record month_summary : Type := mkMonth {
  m_id : string;
  m_year : string;
  m_month : string;
  m_active_subscriptions : Z;
  m_new_subscriptions : Z;
  m_canceled_subscription : Z;
  m_growth : pyval;
  m_churn : pyval;
  m_revenue : pyval;
  m_currency : pyval
}.

(** The columns of a row of an MSR file that the parser reads. *)
Record row : Type := mkRow {
  Description : pyval;
  Date : pyval;
  Gross : pyval;
  Currency : pyval;
  From_Email_Address : pyval;
  Name : pyval;
  Reference_Txn_ID : pyval
}.

(** A discovered file: its path and the rows [pd.read_csv] yields. *)
Record file : Type := mkFile { path : string; data : list row }.

(** ** The environment *)

(** What the parser reads of an answer of the exchange-rate service:
    [status_code] and the value of [json()['rates']]. *)
Record response : Type := mkResponse {
  status_code : Z;
  json_rates : result (dict pyval)
}.

(** [float_of_str] is the built-in [float] on text.  [requests_get n d base
    symbol] is the answer to the [n]-th request, which asks for the rates of
    day [d] with base currency [base] for [symbol]. *)
Record env : Type := mkEnv {
  float_of_str : string -> result float;
  requests_get : nat -> date -> string -> string -> result response
}.

(** ** Status sweeps (lines 84-88 and 186-190) *)

Definition set_status (st : status) (s : subscription) : subscription :=
  mkSubscription (s_id s) (s_name s) (s_email s) (s_start s) (s_end s)
    (s_length s) (s_currency s) (s_gross s) (s_original_currency s)
    (s_original_gross s) st.

(** Every subscription of status [from] gets status [to]. *)
Definition sweep (from to : status) (subs : dict subscription)
    : dict subscription :=
  map (fun kv => if status_eqb (s_status (snd kv)) from
                 then (fst kv, set_status to (snd kv)) else kv) subs.

(** The number of subscriptions of status [st], the counter of the sweep. *)
Fixpoint count_status (st : status) (subs : dict subscription) : Z :=
  match subs with
  | [] => 0
  | (_, s) :: subs' =>
      (if status_eqb (s_status s) st then 1 else 0) + count_status st subs'
  end.

(** ** Matching a row (lines 136-145) *)

(** The two tests made on one prior subscription, in the order of the code. *)
Definition ref_matches (r : row) (prior : subscription) : bool :=
  match Reference_Txn_ID r with
  | VStr ref => String.eqb ref (s_id prior)
  | _ => false
  end.

Definition email_matches (r : row) (prior : subscription) : bool :=
  py_eq (From_Email_Address r) (s_email prior).

(** The position, in iteration order, of the subscription the loop breaks
    on; [None] when the loop runs to its end. *)
Fixpoint match_subscription (r : row) (subs : dict subscription)
    : option nat :=
  match subs with
  | [] => None
  | (_, prior) :: rest =>
      if negb (status_eqb (s_status prior) tentative)
      then option_map S (match_subscription r rest)
      else if ref_matches r prior then Some O
      else if email_matches r prior then Some O
      else option_map S (match_subscription r rest)
  end.

(** ** A new subscription (lines 148-172) *)

Definition has_id_shape (ref : string) : bool :=
  (3 <? String.length ref)%nat
  && match String.get 1 ref with
     | Some c => Ascii.eqb c "-"
     | None => false
     end.

Definition synthesized_id (email : string) (n : Z) : string :=
  (email ++ "_" ++ py_str_int n)%string.

(** The [while] loop of line 155 with [fuel] iterations allowed. *)
Fixpoint fresh_suffix (subs : dict subscription) (email : string)
    (fuel : nat) (n : Z) : Z :=
  match fuel with
  | O => n
  | S fuel' =>
      if dict_mem (synthesized_id email n) subs
      then fresh_suffix subs email fuel' (n + 1)
      else n
  end.

(** The identifier of the new subscription.  The loop gets as many
    iterations as there are subscriptions; it never needs more (see
    [fresh_suffix_unused]). *)
Definition new_subscription_id (r : row) (subs : dict subscription)
    : result string :=
  let synthesize :=
    match From_Email_Address r with
    | VStr email =>
        Ok (synthesized_id email (fresh_suffix subs email (List.length subs) 1))
    | _ => Raise TypeError
    end in
  match Reference_Txn_ID r with
  | VStr ref => if has_id_shape ref then Ok ref else synthesize
  | _ => synthesize
  end.

(** ** One row *)

(** What the loop over the rows of a file reads and writes. *)
Record state : Type := mkState {
  subscriptions : dict subscription;
  reporting_currency : pyval;
  calls : nat;
  active_subscriptions : Z;
  new_subscriptions : Z;
  monthly_revenue : pyval
}.

Section Parser.

Variable E : env.

(** [float(v)] *)
Definition py_float (v : pyval) : result float :=
  match v with
  | VStr s => float_of_str E s
  | VInt z => float_of_int z
  | VFloat f => Ok f
  | VBool b => float_of_int (Z.b2z b)
  end.

(** Lines 119-121. *)
Definition parse_gross (v : pyval) : result pyval :=
  match v with
  | VStr s => f <- float_of_str E (remove_commas s) ;; Ok (VFloat f)
  | _ => Ok v
  end.

(** Lines 123-133: the reporting currency, the number of requests made and
    the gross after the row's currency has been looked at.  The address of
    the request is built by [+] from the date, [reporting_currency] and
    [currency], which raises unless both are strings. *)
Definition convert_currency (rc : pyval) (n : nat) (d : date)
    (gross currency : pyval) : result (pyval * nat * pyval) :=
  if py_eq rc (VBool false) then Ok (currency, n, gross)
  else if py_ne currency rc then
    base <- as_str rc ;;
    symbol <- as_str currency ;;
    resp <- requests_get E n d base symbol ;;
    if status_code resp =? 200 then
      rates <- json_rates resp ;;
      xchange_rate <- dict_item symbol rates ;;
      rate <- py_float xchange_rate ;;
      converted <- py_truediv_float gross rate ;;
      Ok (rc, S n, converted)
    else Ok (rc, S n, gross)
  else Ok (rc, n, gross).

(** Lines 158-171. *)
Definition new_subscription (id : string) (r : row) (d : date)
    (rc gross : pyval) : subscription :=
  mkSubscription id (Name r) (From_Email_Address r) d d 1 rc gross
    (Currency r) (Gross r) active.

(** Lines 176-180. *)
Definition renew (d : date) (gross : pyval) (s : subscription)
    : result subscription :=
  total <- py_add (s_gross s) gross ;;
  Ok (mkSubscription (s_id s) (s_name s) (s_email s) (s_start s) d
        (s_length s + 1) (s_currency s) total (s_original_currency s)
        (s_original_gross s) active).

(** Lines 136-184: the row, with its date and its gross in the reporting
    currency, is booked on a subscription. *)
Definition book_payment (st : state) (r : row) (d : date) (gross : pyval)
    : result state :=
  let subs := subscriptions st in
  '(subs', new') <-
    match match_subscription r subs with
    | None =>
        id <- new_subscription_id r subs ;;
        Ok (dict_set id (new_subscription id r d (reporting_currency st) gross)
              subs,
            new_subscriptions st + 1)
    | Some i =>
        match nth_error subs i with
        | Some (_, prior) =>
            s <- renew d gross prior ;;
            Ok (replace_at i s subs, new_subscriptions st)
        | None => Ok (subs, new_subscriptions st)
        end
    end ;;
  revenue <- py_add (monthly_revenue st) gross ;;
  Ok (mkState subs' (reporting_currency st) (calls st)
        (active_subscriptions st + 1) new' revenue).

Definition is_subscription_payment (r : row) : bool :=
  negb (py_ne (Description r) (VStr "Subscription Payment")).

(** The body of the loop over the rows (lines 106-184). *)
Definition process_row (st : state) (r : row) : result state :=
  if py_ne (Description r) (VStr "Subscription Payment") then Ok st
  else
    d <- parse_date (Date r) ;;
    gross <- parse_gross (Gross r) ;;
    '(rc, n, gross') <-
      convert_currency (reporting_currency st) (calls st) d gross (Currency r) ;;
    book_payment
      (mkState (subscriptions st) rc n (active_subscriptions st)
         (new_subscriptions st) (monthly_revenue st))
      r d gross'.

Fixpoint process_rows (st : state) (rows : list row) : result state :=
  match rows with
  | [] => Ok st
  | r :: rows' => st' <- process_row st r ;; process_rows st' rows'
  end.

(** ** One file *)

(** Lines 191-195. *)
Definition month_rates (new canceled prior : Z) : result (pyval * pyval) :=
  if negb (prior =? 0) then
    fnew <- float_of_int new ;;
    fprior <- float_of_int prior ;;
    growth <- float_div (PrimFloat.mul 100 fnew) fprior ;;
    fcanceled <- float_of_int canceled ;;
    fprior' <- float_of_int prior ;;
    churn <- float_div (PrimFloat.mul 100 fcanceled) fprior' ;;
    Ok (VFloat growth, VFloat churn)
  else Ok (VInt 100, VInt 0).

(** ['%5i' % v]: a NaN or an infinity has no integer part. *)
Definition format_int (v : pyval) : result unit :=
  match v with
  | VStr _ => Raise TypeError
  | VFloat f =>
      if PrimFloat.is_nan f then Raise ValueError
      else if PrimFloat.is_infinity f then Raise OverflowError
      else Ok tt
  | _ => Ok tt
  end.

(** Lines 196-206: building the line that is printed. *)
Definition stats_line (revenue rc : pyval) : result unit :=
  _ <- format_int revenue ;;
  _ <- as_str rc ;;
  Ok tt.

(** What one iteration of the loop over the files carries to the next. *)
Record tables : Type := mkTables {
  t_subscriptions : dict subscription;
  t_months : dict month_summary;
  t_reporting_currency : pyval;
  t_calls : nat
}.

(** Lines 84-92: the state the loop over the rows starts in. *)
Definition initial_state (t : tables) : state :=
  mkState (sweep active tentative (t_subscriptions t))
    (t_reporting_currency t) (t_calls t) 0 0 (VInt 0).

(** Lines 94-95 and 208: the key of the month, cut out of the file name. *)
Definition file_year (filename_year : Z * Z) (infile : file) : string :=
  py_slice (path infile) (fst filename_year) (snd filename_year).

Definition file_month (filename_month : Z * Z) (infile : file) : string :=
  py_slice (path infile) (fst filename_month) (snd filename_month).

Definition month_id (filename_year filename_month : Z * Z) (infile : file)
    : string :=
  (file_year filename_year infile ++ "-"
   ++ file_month filename_month infile)%string.

(** The body of the loop over the files (lines 83-220). *)
Definition process_file (filename_year filename_month : Z * Z)
    (print_stats : bool) (t : tables) (infile : file) : result tables :=
  let prior_subscriptions := count_status active (t_subscriptions t) in
  st <- process_rows (initial_state t) (data infile) ;;
  let canceled_subscription := count_status tentative (subscriptions st) in
  '(growth, churn) <-
    month_rates (new_subscriptions st) canceled_subscription
      prior_subscriptions ;;
  _ <- (if print_stats
        then stats_line (monthly_revenue st) (reporting_currency st)
        else Ok tt) ;;
  Ok (mkTables (sweep tentative canceled (subscriptions st))
        (dict_set (month_id filename_year filename_month infile)
           (mkMonth (month_id filename_year filename_month infile)
              (file_year filename_year infile)
              (file_month filename_month infile)
              (active_subscriptions st) (new_subscriptions st)
              canceled_subscription growth churn (monthly_revenue st)
              (reporting_currency st))
           (t_months t))
        (reporting_currency st) (calls st)).

Fixpoint process_files (filename_year filename_month : Z * Z)
    (print_stats : bool) (t : tables) (infiles : list file) : result tables :=
  match infiles with
  | [] => Ok t
  | infile :: rest =>
      t' <- process_file filename_year filename_month print_stats t infile ;;
      process_files filename_year filename_month print_stats t' rest
  end.

(** [infiles.sort()] *)
Fixpoint insert_sorted (f : file) (l : list file) : list file :=
  match l with
  | [] => [f]
  | g :: l' =>
      if String.leb (path f) (path g) then f :: l else g :: insert_sorted f l'
  end.

Definition sort_files (l : list file) : list file :=
  fold_right insert_sorted [] l.

(** [parse_msr_files]: [infiles] is what [glob.glob] found, with the rows of
    each file; the result is the two dictionaries the data frames are made
    of. *)
Definition parse_msr_files (infiles : list file)
    (filename_year filename_month : Z * Z) (reporting_currency : pyval)
    (print_stats : bool)
    : result (dict subscription * dict month_summary) :=
  t <- process_files filename_year filename_month print_stats
         (mkTables [] [] reporting_currency O) (sort_files infiles) ;;
  Ok (t_subscriptions t, t_months t).

End Parser.

Arguments is_subscription_payment r /.

(** ** Notions the statements are written in *)

(** A prior subscription is a candidate for a row: it is tentative, and the
    row carries its identifier as a string or its stored e-mail address. *)
Definition candidate (r : row) (prior : subscription) : Prop :=
  s_status prior = tentative
  /\ (Reference_Txn_ID r = VStr (s_id prior)
      \/ py_eq (From_Email_Address r) (s_email prior) = true).

(** The three formats tried one after the other, each by [strptime] alone. *)
Definition first_format (s : string) : result date :=
  match strptime s (fmt_mdY "/") with
  | Ok d => Ok d
  | Raise _ =>
      match strptime s (fmt_mdY "-") with
      | Ok d => Ok d
      | Raise _ => strptime s fmt_Ymd
      end
  end.

(** A file without the rows that are no subscription payments. *)
Definition keep_payments (f : file) : file :=
  mkFile (path f) (filter is_subscription_payment (data f)).

(** The date and the amount in the reporting currency that [process_row]
    books for a row read in state [st]. *)
Definition booked (E : env) (st : state) (r : row) (d : date) (g : pyval)
    : Prop :=
  parse_date (Date r) = Ok d
  /\ exists g0 rc n,
       parse_gross E (Gross r) = Ok g0
       /\ convert_currency E (reporting_currency st) (calls st) d g0
            (Currency r) = Ok (rc, n, g).

(** The rows of [rows] that renew a subscription when they are read one
    after the other from state [st]. *)
Fixpoint renewals (E : env) (st : state) (rows : list row) : Z :=
  match rows with
  | [] => 0
  | r :: rows' =>
      match process_row E st r with
      | Ok st' =>
          (if is_subscription_payment r then
             match match_subscription r (subscriptions st) with
             | Some _ => 1
             | None => 0
             end
           else 0)
          + renewals E st' rows'
      | Raise _ => 0
      end
  end.

(** Two environments that answer alike. *)
Definition env_agree (E1 E2 : env) : Prop :=
  (forall s, float_of_str E1 s = float_of_str E2 s)
  /\ (forall n d base symbol,
        requests_get E1 n d base symbol = requests_get E2 n d base symbol).

(** In a pass over [f] that starts from the tables [t], row [r], read after
    the rows [pre] and before the rows [post], is matched to the subscription
    at position [i], and books [g] on the day [d].  (No second row of the
    pass can be matched to it: it is active from then on.) *)
Definition matched_in_pass (E : env) (t : tables) (f : file)
    (pre : list row) (r : row) (post : list row) (i : nat)
    (d : date) (g : pyval) : Prop :=
  data f = pre ++ r :: post
  /\ is_subscription_payment r = true
  /\ exists st,
       process_rows E (initial_state t) pre = Ok st
       /\ match_subscription r (subscriptions st) = Some i
       /\ booked E st r d g.

(** The fourth claim as the specification words it: a subscription matched
    in two consecutive passes has as gross the sum of the two amounts. *)
Definition gross_is_sum_of_two_rows (E : env) : Prop :=
  forall fy fm ps t f1 t1 f2 t2 pre1 r1 post1 pre2 r2 post2 i d1 g1 d2 g2 k s,
    process_file E fy fm ps t f1 = Ok t1 ->
    process_file E fy fm ps t1 f2 = Ok t2 ->
    matched_in_pass E t f1 pre1 r1 post1 i d1 g1 ->
    matched_in_pass E t1 f2 pre2 r2 post2 i d2 g2 ->
    nth_error (t_subscriptions t2) i = Some (k, s) ->
    py_add g1 g2 = Ok (s_gross s).

(** The table is keyed as the code keys it: no key twice, and every
    subscription under its own id. *)
Definition well_keyed (subs : dict subscription) : Prop :=
  NoDup (keys subs) /\ Forall (fun kv => s_id (snd kv) = fst kv) subs.

(** ** Inputs the statements are tried on *)

(** An environment without network: every request fails, no text is a
    number. *)
Definition offline : env :=
  mkEnv (fun _ => Raise ValueError) (fun _ _ _ _ => Raise RequestException).

(** A service that answers every request with the same status and rate. *)
Definition fixed_rate (status : Z) (symbol : string) (rate : float) : env :=
  mkEnv (fun _ => Raise ValueError)
    (fun _ _ _ _ => Ok (mkResponse status (Ok [(symbol, VFloat rate)]))).

(** The same service written differently: it looks at the number of the
    request before it gives the same answer. *)
Definition fixed_rate_counting (status : Z) (symbol : string) (rate : float)
    : env :=
  mkEnv (fun _ => Raise ValueError)
    (fun n _ _ _ =>
       match n with
       | O => Ok (mkResponse status (Ok [(symbol, VFloat rate)]))
       | S _ => Ok (mkResponse status (Ok [(symbol, VFloat rate)]))
       end).

Definition nan_cell : pyval := VFloat PrimFloat.nan.

(** A subscription payment without a reference transaction. *)
Definition payment (d : string) (gross : float) (currency email : string)
    : row :=
  mkRow (VStr "Subscription Payment") (VStr d) (VFloat gross) (VStr currency)
    (VStr email) (VStr "Ann") nan_cell.

(** A subscription payment that refers to the subscription [ref]. *)
Definition payment_for (ref d : string) (gross : float)
    (currency email : string) : row :=
  mkRow (VStr "Subscription Payment") (VStr d) (VFloat gross) (VStr currency)
    (VStr email) (VStr "Ann") (VStr ref).

(** A row of another kind. *)
Definition refund (d : string) (gross : float) (currency email : string)
    : row :=
  mkRow (VStr "Payment Refund") (VStr d) (VFloat gross) (VStr currency)
    (VStr email) (VStr "Ann") nan_cell.

Definition default_year : Z * Z := (-10, -6).
Definition default_month : Z * Z := (-6, -4).

Definition january : file :=
  mkFile "D:/paypal/MSR-201901.CSV"
    [payment "1/15/2019" 10 "USD" "a@x.com"].
Definition february : file :=
  mkFile "D:/paypal/MSR-201902.CSV"
    [payment "2/15/2019" 10 "USD" "a@x.com"].
(** The customer pays in another currency in February. *)
Definition february_eur : file :=
  mkFile "D:/paypal/MSR-201902.CSV"
    [payment "2/15/2019" 9 "EUR" "a@x.com"].
(** A file whose only payment has its date written in another way. *)
Definition january_dotted : file :=
  mkFile "D:/paypal/MSR-201901.CSV"
    [refund "1/10/2019" 10 "USD" "a@x.com";
     payment "15.01.2019" 10 "USD" "a@x.com"].
Definition march : file :=
  mkFile "D:/paypal/MSR-201903.CSV"
    [payment "3/15/2019" 10 "USD" "a@x.com"].

(** A customer whose payments refer to the subscription [I-ABC] pays in
    January, not in February, and again in March. *)
Definition january_ref : file :=
  mkFile "D:/paypal/MSR-201901.CSV"
    [payment_for "I-ABC" "1/15/2019" 10 "USD" "a@x.com";
     payment "1/20/2019" 5 "USD" "b@x.com"].
Definition february_ref : file :=
  mkFile "D:/paypal/MSR-201902.CSV"
    [payment "2/20/2019" 5 "USD" "b@x.com"].
Definition march_ref : file :=
  mkFile "D:/paypal/MSR-201903.CSV"
    [payment_for "I-ABC" "3/15/2019" 10 "USD" "a@x.com";
     payment "3/20/2019" 5 "USD" "b@x.com"].

(** The customer of [I-ABC] pays twice in February. *)
Definition february_twice : file :=
  mkFile "D:/paypal/MSR-201902.CSV"
    [payment_for "I-ABC" "2/15/2019" 10 "USD" "a@x.com";
     payment_for "I-ABC" "2/16/2019" 10 "USD" "a@x.com";
     payment "2/20/2019" 5 "USD" "b@x.com"].

(** A file without any subscription payment. *)
Definition january_refund_only : file :=
  mkFile "D:/paypal/MSR-201901.CSV" [refund "1/10/2019" 10 "USD" "a@x.com"].

(** A payment whose e-mail cell and reference cell are both empty. *)
Definition january_no_email : file :=
  mkFile "D:/paypal/MSR-201901.CSV"
    [mkRow (VStr "Subscription Payment") (VStr "1/15/2019") (VFloat 10)
       (VStr "USD") nan_cell (VStr "Ann") nan_cell].

(** Two subscriptions waiting for their payment of the month. *)
Definition two_tentative : dict subscription :=
  [("a@x.com_1"%string,
    mkSubscription "a@x.com_1" (VStr "Ann") (VStr "a@x.com")
      (mkDate 2019 1 15) (mkDate 2019 1 15) 1 (VStr "USD") (VFloat 10)
      (VStr "USD") (VFloat 10) tentative);
   ("I-XYZ"%string,
    mkSubscription "I-XYZ" (VStr "Bob") (VStr "b@x.com")
      (mkDate 2019 1 20) (mkDate 2019 1 20) 1 (VStr "USD") (VFloat 5)
      (VStr "USD") (VFloat 5) tentative)].

Definition no_tables : tables := mkTables [] [] (VBool false) O.

Definition tables_of (c : result tables) : tables :=
  match c with
  | Ok t => t
  | Raise _ => no_tables
  end.

(** The tables after the files seen so far. *)
Definition tables_after (E : env) (infiles : list file) : result tables :=
  process_files E default_year default_month true
    no_tables infiles.

Definition after_january_ref : tables :=
  Eval vm_compute in tables_of (tables_after offline [january_ref]).
Definition after_february_ref : tables :=
  Eval vm_compute in
    tables_of (tables_after offline [january_ref; february_ref]).
Definition after_march_ref : tables :=
  Eval vm_compute in
    tables_of (tables_after offline [january_ref; february_ref; march_ref]).

Definition after_january : tables :=
  Eval vm_compute in tables_of (tables_after offline [january]).
Definition after_february : tables :=
  Eval vm_compute in tables_of (tables_after offline [january; february]).
Definition after_march : tables :=
  Eval vm_compute in
    tables_of (tables_after offline [january; february; march]).

(** Every consumed row of the file is in the currency [c]. *)
Definition paid_in (c : string) (f : file) : Prop :=
  Forall (fun r => is_subscription_payment r = true -> Currency r = VStr c)
    (data f).

(** Every subscription of the table is kept in the currency [c]. *)
Definition kept_in (c : string) (subs : dict subscription) : Prop :=
  Forall (fun kv => s_currency (snd kv) = VStr c) subs.

(** The rows of all files in the order in which they are read. *)
Definition rows_in_order (infiles : list file) : list row :=
  concat (map data (sort_files infiles)).

(** The state of the run as far as the currency goes: either no payment
    has been read, or the currency is fixed and every record carries it. *)
Definition currency_state (c : string) (rc : pyval)
    (subs : dict subscription) : Prop :=
  (rc = VBool false /\ subs = []) \/ (rc = VStr c /\ kept_in c subs).

(** 1 when the subscription has the status, 0 otherwise. *)
Definition has_status (st : status) (s : subscription) : Z :=
  if status_eqb (s_status s) st then 1 else 0.

(** A service whose answers have status 200 and hold a rate for one
    currency only. *)
Definition only_rate_for (symbol : string) (rate : float) : env :=
  fixed_rate 200 symbol rate.

(** Dates as they are written: digits, one or two for a month or a day,
    four for a year. *)
Definition digit_char (n : Z) : ascii := ascii_of_nat (48 + Z.to_nat n).

Definition one_digit (n : Z) : string := String (digit_char n) EmptyString.

Definition two_digits (n : Z) : string :=
  String (digit_char (n / 10)) (String (digit_char (n mod 10)) EmptyString).

Definition four_digits (a b c e : Z) : string :=
  String (digit_char a)
    (String (digit_char b)
       (String (digit_char c) (String (digit_char e) EmptyString))).

Definition year_of (a b c e : Z) : Z := 1000 * a + 100 * b + 10 * c + e.

(** [t] writes [n] with two digits, or with one when [n] has only one. *)
Definition written (n : Z) (t : string) : Prop :=
  t = two_digits n \/ (n < 10 /\ t = one_digit n).

(** The first alternative that finds its characters at the start of [s]:
    the one the matcher tries before any other. *)
Fixpoint first_taking (alts : list (list (ascii -> bool))) (s : string)
    : option (string * string) :=
  match alts with
  | [] => None
  | cs :: alts' =>
      match take_classes cs s with
      | Some tr => Some tr
      | None => first_taking alts' s
      end
  end.

(** * Properties *)

Unset Implicit Arguments.

(** ** The error monad *)

Lemma bind_Ok {A B : Type} (c : result A) (k : A -> result B) (b : B) :
  bind c k = Ok b -> exists a, c = Ok a /\ k a = Ok b.
Proof.
  destruct c as [a|e]; simpl; intros H.
  - exists a; split; [reflexivity | exact H].
  - discriminate H.
Qed.

Lemma bind_Raise {A B : Type} (c : result A) (k : A -> result B) (e : exn) :
  c = Raise e -> bind c k = Raise e.
Proof. intros ->; reflexivity. Qed.

Lemma result_cases {A : Type} (c : result A) : succeeds c \/ raises c.
Proof. destruct c as [a|e]; [left; exists a | right; exists e]; reflexivity. Qed.

Ltac bind_inv H :=
  let a := fresh "a" in
  let Ha := fresh "Ha" in
  apply bind_Ok in H; destruct H as (a & Ha & H).

(** ** Values *)

Lemma py_eq_str (a b : string) : py_eq (VStr a) (VStr b) = true <-> a = b.
Proof. simpl. apply String.eqb_eq. Qed.

Lemma py_ne_str (a b : string) : a <> b -> py_ne (VStr a) (VStr b) = true.
Proof.
  intros H. unfold py_ne. simpl.
  apply String.eqb_neq in H. rewrite H. reflexivity.
Qed.

Lemma status_eqb_eq (a b : status) : status_eqb a b = true <-> a = b.
Proof. destruct a, b; simpl; split; congruence. Qed.

Lemma status_eqb_refl (a : status) : status_eqb a a = true.
Proof. destruct a; reflexivity. Qed.

(** ** Matching *)

Lemma candidate_tests (r : row) (prior : subscription) :
  candidate r prior <->
  status_eqb (s_status prior) tentative = true
  /\ (ref_matches r prior = true \/ email_matches r prior = true).
Proof.
  unfold candidate, ref_matches, email_matches.
  rewrite status_eqb_eq.
  split; intros [Hs Hm]; (split; [exact Hs|]).
  - destruct Hm as [Hr|He]; [left | right; exact He].
    rewrite Hr. apply String.eqb_refl.
  - destruct Hm as [Hr|He]; [left | right; exact He].
    destruct (Reference_Txn_ID r) as [ref| | |]; try discriminate Hr.
    apply String.eqb_eq in Hr. subst ref. reflexivity.
Qed.

Lemma candidate_dec (r : row) (prior : subscription) :
  candidate r prior \/ ~ candidate r prior.
Proof.
  rewrite candidate_tests.
  destruct (status_eqb (s_status prior) tentative);
    destruct (ref_matches r prior); destruct (email_matches r prior);
    intuition congruence.
Qed.

Lemma match_subscription_Some (r : row) (subs : dict subscription) (i : nat) :
  match_subscription r subs = Some i ->
  exists k prior,
    nth_error subs i = Some (k, prior) /\ s_status prior = tentative.
Proof.
  revert i. induction subs as [|[k0 p0] rest IH]; intros i H; simpl in H.
  - discriminate H.
  - destruct (status_eqb (s_status p0) tentative) eqn:Hst; simpl in H.
    + assert (Hhere : exists k prior,
                nth_error ((k0, p0) :: rest) 0 = Some (k, prior)
                /\ s_status prior = tentative).
      { exists k0, p0. split; [reflexivity | apply status_eqb_eq; exact Hst]. }
      destruct (ref_matches r p0); [injection H as <-; exact Hhere|].
      destruct (email_matches r p0); [injection H as <-; exact Hhere|].
      destruct (match_subscription r rest) as [j|]; [|discriminate H].
      injection H as <-. apply (IH j). reflexivity.
    + destruct (match_subscription r rest) as [j|]; [|discriminate H].
      injection H as <-. apply (IH j). reflexivity.
Qed.

(** C1: [match_subscription] returns the position of the first subscription,
    in iteration order, that is tentative and has either the row's Reference
    Txn ID (a string) as its id or the row's From Email Address as its stored
    e-mail; subscriptions of another status are passed over, and when no
    subscription qualifies there is no match. *)
Theorem match_subscription_first_candidate (r : row)
    (subs : dict subscription) :
  match match_subscription r subs with
  | Some i =>
      (exists k prior,
         nth_error subs i = Some (k, prior) /\ candidate r prior)
      /\ (forall j k prior,
            (j < i)%nat -> nth_error subs j = Some (k, prior) ->
            ~ candidate r prior)
  | None => forall k prior, In (k, prior) subs -> ~ candidate r prior
  end.
Proof.
  induction subs as [|[k0 p0] rest IH]; simpl.
  - intros k prior [].
  - assert (Hskip : ~ candidate r p0 ->
      match option_map S (match_subscription r rest) with
      | Some i =>
          (exists k prior,
             nth_error ((k0, p0) :: rest) i = Some (k, prior)
             /\ candidate r prior)
          /\ (forall j k prior,
                (j < i)%nat ->
                nth_error ((k0, p0) :: rest) j = Some (k, prior) ->
                ~ candidate r prior)
      | None =>
          forall k prior,
            (k0, p0) = (k, prior) \/ In (k, prior) rest -> ~ candidate r prior
      end).
    { intros Hno.
      destruct (match_subscription r rest) as [i|]; simpl.
      - destruct IH as [Hfound Hbefore]. split; [exact Hfound|].
        intros [|j] k prior Hlt Hnth; simpl in Hnth.
        + injection Hnth as <- <-. exact Hno.
        + apply (Hbefore j k prior); [lia | exact Hnth].
      - intros k prior [Heq|Hin].
        + injection Heq as <- <-. exact Hno.
        + apply (IH k prior Hin). }
    assert (Hhit : candidate r p0 ->
      (exists k prior,
         nth_error ((k0, p0) :: rest) 0 = Some (k, prior) /\ candidate r prior)
      /\ (forall j k prior,
            (j < 0)%nat ->
            nth_error ((k0, p0) :: rest) j = Some (k, prior) ->
            ~ candidate r prior)).
    { intros Hyes. split.
      - exists k0, p0. split; [reflexivity | exact Hyes].
      - intros j k prior Hlt. lia. }
    destruct (status_eqb (s_status p0) tentative) eqn:Hst; simpl.
    + destruct (ref_matches r p0) eqn:Hr.
      * apply Hhit. apply candidate_tests. auto.
      * destruct (email_matches r p0) eqn:He.
        -- apply Hhit. apply candidate_tests. auto.
        -- apply Hskip. rewrite candidate_tests.
           intros [_ [H|H]]; congruence.
    + apply Hskip. rewrite candidate_tests. intros [H _]. congruence.
Qed.

(** ** What a row and a file pass are made of *)

Section Steps.

Variable E : env.

Lemma process_row_skip (st : state) (r : row) :
  is_subscription_payment r = false -> process_row E st r = Ok st.
Proof.
  unfold process_row. simpl. intros H.
  destruct (py_ne (Description r) (VStr "Subscription Payment")).
  - reflexivity.
  - discriminate H.
Qed.

(** A consumed row is booked with its date and its converted amount. *)
Lemma process_row_payment (st st' : state) (r : row) :
  is_subscription_payment r = true ->
  process_row E st r = Ok st' ->
  exists d g rc n,
    booked E st r d g
    /\ (exists g0,
          parse_gross E (Gross r) = Ok g0
          /\ convert_currency E (reporting_currency st) (calls st) d g0
               (Currency r) = Ok (rc, n, g))
    /\ book_payment
         (mkState (subscriptions st) rc n (active_subscriptions st)
            (new_subscriptions st) (monthly_revenue st)) r d g = Ok st'.
Proof.
  unfold process_row. simpl. intros Hpay H.
  destruct (py_ne (Description r) (VStr "Subscription Payment"));
    [discriminate Hpay|].
  apply bind_Ok in H. destruct H as (d & Hd & H).
  apply bind_Ok in H. destruct H as (g0 & Hg0 & H).
  apply bind_Ok in H. destruct H as ([[rc n] g] & Hc & H).
  exists d, g, rc, n. split; [|split].
  - split; [exact Hd|]. exists g0, rc, n. split; assumption.
  - exists g0. split; assumption.
  - exact H.
Qed.

(** What booking a payment changes. *)
Lemma book_payment_Ok (st st' : state) (r : row) (d : date) (g : pyval) :
  book_payment st r d g = Ok st' ->
  reporting_currency st' = reporting_currency st
  /\ calls st' = calls st
  /\ active_subscriptions st' = active_subscriptions st + 1
  /\ py_add (monthly_revenue st) g = Ok (monthly_revenue st')
  /\ match match_subscription r (subscriptions st) with
     | None =>
         new_subscriptions st' = new_subscriptions st + 1
         /\ exists id,
              new_subscription_id r (subscriptions st) = Ok id
              /\ subscriptions st' =
                 dict_set id
                   (new_subscription id r d (reporting_currency st) g)
                   (subscriptions st)
     | Some i =>
         new_subscriptions st' = new_subscriptions st
         /\ exists k prior s,
              nth_error (subscriptions st) i = Some (k, prior)
              /\ renew d g prior = Ok s
              /\ subscriptions st' = replace_at i s (subscriptions st)
     end.
Proof.
  unfold book_payment. intros H.
  apply bind_Ok in H. destruct H as ([subs' new'] & Hb & H).
  apply bind_Ok in H. destruct H as (rev & Hrev & H).
  injection H as <-. simpl.
  repeat (split; [first [reflexivity | exact Hrev]|]).
  destruct (match_subscription r (subscriptions st)) as [i|] eqn:Hm.
  - apply match_subscription_Some in Hm.
    destruct Hm as (k & prior & Hnth & _).
    rewrite Hnth in Hb.
    apply bind_Ok in Hb. destruct Hb as (s & Hs & Hb).
    injection Hb as <- <-.
    split; [reflexivity|]. exists k, prior, s. auto.
  - apply bind_Ok in Hb. destruct Hb as (id & Hid & Hb).
    injection Hb as <- <-.
    split; [reflexivity|]. exists id. auto.
Qed.

Lemma process_rows_app (st : state) (pre post : list row) :
  process_rows E st (pre ++ post) =
  (st' <- process_rows E st pre ;; process_rows E st' post).
Proof.
  revert st. induction pre as [|r pre IH]; intros st; simpl.
  - reflexivity.
  - destruct (process_row E st r) as [st1|e]; simpl; [apply IH | reflexivity].
Qed.

(** A pass that ends well is made of its three steps. *)
Lemma process_file_Ok (fy fm : Z * Z) (ps : bool) (t t' : tables)
    (f : file) :
  process_file E fy fm ps t f = Ok t' ->
  exists st growth churn,
    process_rows E (initial_state t) (data f) = Ok st
    /\ month_rates (new_subscriptions st)
         (count_status tentative (subscriptions st))
         (count_status active (t_subscriptions t)) = Ok (growth, churn)
    /\ t_subscriptions t' = sweep tentative canceled (subscriptions st)
    /\ t_reporting_currency t' = reporting_currency st
    /\ t_calls t' = calls st
    /\ t_months t' =
       dict_set (month_id fy fm f)
         (mkMonth (month_id fy fm f) (file_year fy f) (file_month fm f)
            (active_subscriptions st) (new_subscriptions st)
            (count_status tentative (subscriptions st)) growth churn
            (monthly_revenue st) (reporting_currency st))
         (t_months t).
Proof.
  unfold process_file. intros H.
  apply bind_Ok in H. destruct H as (st & Hst & H).
  apply bind_Ok in H. destruct H as ([growth churn] & Hr & H).
  apply bind_Ok in H. destruct H as (u & _ & H).
  injection H as <-. simpl.
  exists st, growth, churn. auto 10.
Qed.

End Steps.

(** ** Dictionaries *)

Lemma dict_get_set_same {V : Type} (k : string) (v : V) (d : dict V) :
  dict_get k (dict_set k v d) = Some v.
Proof.
  induction d as [|[k' v'] d IH]; simpl.
  - rewrite String.eqb_refl. reflexivity.
  - destruct (String.eqb k k') eqn:Hk; simpl; rewrite Hk.
    + reflexivity.
    + exact IH.
Qed.

Lemma dict_get_set_other {V : Type} (k k0 : string) (v : V) (d : dict V) :
  k0 <> k -> dict_get k0 (dict_set k v d) = dict_get k0 d.
Proof.
  intros Hne. induction d as [|[k' v'] d IH]; simpl.
  - apply String.eqb_neq in Hne. rewrite Hne. reflexivity.
  - destruct (String.eqb k k') eqn:Hk; simpl.
    + apply String.eqb_eq in Hk. subst k'.
      apply String.eqb_neq in Hne. rewrite Hne. reflexivity.
    + rewrite IH. reflexivity.
Qed.

Lemma dict_mem_In {V : Type} (k : string) (d : dict V) :
  dict_mem k d = true <-> In k (keys d).
Proof.
  unfold dict_mem. induction d as [|[k' v'] d IH]; simpl.
  - split; [discriminate | intros []].
  - destruct (String.eqb k k') eqn:Hk.
    + apply String.eqb_eq in Hk. subst k'. split; auto.
    + apply String.eqb_neq in Hk. rewrite IH. split; [auto|].
      intros [H|H]; [congruence | exact H].
Qed.

Lemma nth_error_dict_mem {V : Type} (i : nat) (k : string) (v : V)
    (d : dict V) :
  nth_error d i = Some (k, v) -> dict_mem k d = true.
Proof.
  intros H. apply dict_mem_In. unfold keys.
  apply nth_error_In in H. apply (in_map fst) in H. exact H.
Qed.

(** Assigning to another key leaves a position as it is. *)
Lemma nth_error_dict_set {V : Type} (i : nat) (k k0 : string) (v v0 : V)
    (d : dict V) :
  nth_error d i = Some (k0, v0) -> k0 <> k ->
  nth_error (dict_set k v d) i = Some (k0, v0).
Proof.
  revert i. induction d as [|[k' v'] d IH]; intros i Hnth Hne.
  - destruct i; discriminate Hnth.
  - simpl. destruct (String.eqb k k') eqn:Hk.
    + destruct i as [|i]; simpl in *.
      * injection Hnth as -> ->. apply String.eqb_eq in Hk. congruence.
      * exact Hnth.
    + destruct i as [|i]; simpl in *; [exact Hnth | apply IH; assumption].
Qed.

Lemma nth_error_replace_at_same {V : Type} (i : nat) (k : string) (v v0 : V)
    (d : dict V) :
  nth_error d i = Some (k, v0) ->
  nth_error (replace_at i v d) i = Some (k, v).
Proof.
  revert i. induction d as [|[k' v'] d IH]; intros [|i] H; simpl in *;
    try discriminate H.
  - injection H as -> _. reflexivity.
  - apply IH. exact H.
Qed.

Lemma nth_error_replace_at_other {V : Type} (i j : nat) (v : V)
    (d : dict V) :
  i <> j -> nth_error (replace_at i v d) j = nth_error d j.
Proof.
  revert i j. induction d as [|[k' v'] d IH]; intros [|i] [|j] H; simpl;
    try reflexivity.
  - congruence.
  - apply IH. congruence.
Qed.

(** ** Rows of another kind *)

Lemma not_payment (r : row) :
  Description r <> VStr "Subscription Payment" <->
  is_subscription_payment r = false.
Proof.
  simpl. unfold py_ne. rewrite negb_involutive.
  destruct (Description r) as [s| | |]; simpl; try (split; congruence).
  split; intros H.
  - apply String.eqb_neq. congruence.
  - apply String.eqb_neq in H. congruence.
Qed.

Lemma process_rows_filter (E : env) (st : state) (rows : list row) :
  process_rows E st (filter is_subscription_payment rows) =
  process_rows E st rows.
Proof.
  revert st. induction rows as [|r rows IH]; intros st.
  - reflexivity.
  - cbn [filter]. destruct (is_subscription_payment r) eqn:Hp.
    + cbn [process_rows]. destruct (process_row E st r); simpl;
        [apply IH | reflexivity].
    + cbn [process_rows]. rewrite (process_row_skip E st r Hp). simpl.
      apply IH.
Qed.

Lemma process_file_keep_payments (E : env) (fy fm : Z * Z) (ps : bool)
    (t : tables) (f : file) :
  process_file E fy fm ps t (keep_payments f) = process_file E fy fm ps t f.
Proof.
  unfold process_file, month_id, file_year, file_month, keep_payments.
  cbn [path data]. rewrite process_rows_filter. reflexivity.
Qed.

Lemma process_files_keep_payments (E : env) (fy fm : Z * Z) (ps : bool)
    (t : tables) (infiles : list file) :
  process_files E fy fm ps t (map keep_payments infiles) =
  process_files E fy fm ps t infiles.
Proof.
  revert t. induction infiles as [|f infiles IH]; intros t; simpl.
  - reflexivity.
  - rewrite process_file_keep_payments.
    destruct (process_file E fy fm ps t f); simpl; [apply IH | reflexivity].
Qed.

Lemma insert_sorted_keep_payments (f : file) (l : list file) :
  insert_sorted (keep_payments f) (map keep_payments l) =
  map keep_payments (insert_sorted f l).
Proof.
  induction l as [|g l IH]; simpl.
  - reflexivity.
  - destruct (String.leb (path f) (path g)); simpl.
    + reflexivity.
    + rewrite IH. reflexivity.
Qed.

Lemma sort_files_keep_payments (l : list file) :
  sort_files (map keep_payments l) = map keep_payments (sort_files l).
Proof.
  unfold sort_files. induction l as [|f l IH]; simpl.
  - reflexivity.
  - rewrite IH. apply insert_sorted_keep_payments.
Qed.

(** C8: a row whose Description is anything but 'Subscription Payment'
    leaves the state of the pass as it is (no subscription is created or
    changed, no counter and no revenue moves), and the two tables that
    [parse_msr_files] returns are those of the files without such rows. *)
Theorem other_rows_contribute_nothing (E : env) :
  (forall st r,
     Description r <> VStr "Subscription Payment" ->
     process_row E st r = Ok st)
  /\ (forall infiles fy fm rc ps,
        parse_msr_files E infiles fy fm rc ps =
        parse_msr_files E (map keep_payments infiles) fy fm rc ps).
Proof.
  split.
  - intros st r H. apply process_row_skip. apply not_payment. exact H.
  - intros infiles fy fm rc ps. unfold parse_msr_files.
    rewrite sort_files_keep_payments, process_files_keep_payments.
    reflexivity.
Qed.

Lemma other_rows_contribute_nothing_witness :
  process_row offline (initial_state no_tables)
    (refund "1/15/2019" 10 "USD" "a@x.com") =
  Ok (initial_state no_tables).
Proof.
  apply (proj1 (other_rows_contribute_nothing offline)).
  simpl. discriminate.
Defined.

(** ** Counters of a pass *)

Lemma process_rows_counters (E : env) (rows : list row) :
  forall st st',
    process_rows E st rows = Ok st' ->
    active_subscriptions st' =
      active_subscriptions st
      + Z.of_nat (List.length (filter is_subscription_payment rows))
    /\ active_subscriptions st' - active_subscriptions st =
       new_subscriptions st' - new_subscriptions st + renewals E st rows.
Proof.
  induction rows as [|r rows IH]; intros st st' H.
  - injection H as <-. simpl. lia.
  - cbn [process_rows] in H. apply bind_Ok in H.
    destruct H as (st1 & H1 & H).
    destruct (IH st1 st' H) as [IHa IHn].
    cbn [filter renewals]. rewrite H1.
    destruct (is_subscription_payment r) eqn:Hp.
    + destruct (process_row_payment E st st1 r Hp H1)
        as (d & g & rc & n & _ & _ & Hb).
      apply book_payment_Ok in Hb. cbn [subscriptions active_subscriptions
        new_subscriptions] in Hb.
      destruct Hb as (_ & _ & Hact & _ & Hm).
      cbn [List.length].
      destruct (match_subscription r (subscriptions st));
        destruct Hm as [Hnew _]; lia.
    + rewrite (process_row_skip E st r Hp) in H1. injection H1 as <-.
      lia.
Qed.

(** C10: the month written for a file has as [active_subscriptions] the
    number of rows of the file whose Description is 'Subscription Payment',
    which is the number of new subscriptions plus the number of rows that
    renewed one. *)
Theorem active_counts_consumed_rows (E : env) (fy fm : Z * Z) (ps : bool)
    (t t' : tables) (f : file) :
  process_file E fy fm ps t f = Ok t' ->
  exists m,
    dict_get (month_id fy fm f) (t_months t') = Some m
    /\ m_active_subscriptions m =
       Z.of_nat (List.length (filter is_subscription_payment (data f)))
    /\ m_active_subscriptions m =
       m_new_subscriptions m + renewals E (initial_state t) (data f).
Proof.
  intros H. apply process_file_Ok in H.
  destruct H as (st & growth & churn & Hrows & _ & _ & _ & _ & Hm).
  rewrite Hm, dict_get_set_same. eexists. split; [reflexivity|].
  cbn [m_active_subscriptions m_new_subscriptions].
  apply process_rows_counters in Hrows. simpl in Hrows. lia.
Qed.

Lemma active_counts_consumed_rows_witness :
  exists m,
    dict_get "2019-02" (t_months after_february) = Some m
    /\ m_active_subscriptions m = 1
    /\ m_active_subscriptions m =
       m_new_subscriptions m
       + renewals offline (initial_state after_january) (data february).
Proof.
  apply (active_counts_consumed_rows offline default_year default_month true
           after_january after_february february).
  vm_compute. reflexivity.
Defined.

(** ** Growth and churn *)




(** The second month of the example of the specification: one subscription
    was active, none is new, none is canceled. *)
Example growth_of_february :
  exists m,
    dict_get "2019-02" (t_months after_february) = Some m
    /\ m_active_subscriptions m = 1
    /\ m_new_subscriptions m = 0
    /\ m_canceled_subscription m = 0
    /\ m_growth m = VFloat 0
    /\ m_churn m = VFloat 0.
Proof. eexists. split; [vm_compute; reflexivity|]. repeat split. Qed.

(** ** Determinism *)

Section Agree.

Variables E1 E2 : env.
Hypothesis Hagree : env_agree E1 E2.

Lemma py_float_agree (v : pyval) : py_float E1 v = py_float E2 v.
Proof. destruct v; simpl; try reflexivity. apply Hagree. Qed.

Lemma parse_gross_agree (v : pyval) : parse_gross E1 v = parse_gross E2 v.
Proof.
  destruct v; simpl; try reflexivity.
  rewrite (proj1 Hagree). reflexivity.
Qed.

Lemma convert_currency_agree (rc : pyval) (n : nat) (d : date)
    (gross currency : pyval) :
  convert_currency E1 rc n d gross currency =
  convert_currency E2 rc n d gross currency.
Proof.
  unfold convert_currency.
  destruct (py_eq rc (VBool false)); [reflexivity|].
  destruct (py_ne currency rc); [|reflexivity].
  destruct (as_str rc) as [base|]; simpl; [|reflexivity].
  destruct (as_str currency) as [symbol|]; simpl; [|reflexivity].
  rewrite (proj2 Hagree).
  destruct (requests_get E2 n d base symbol) as [resp|]; simpl;
    [|reflexivity].
  destruct (status_code resp =? 200); [|reflexivity].
  destruct (json_rates resp) as [rates|]; simpl; [|reflexivity].
  destruct (dict_item symbol rates) as [x|]; simpl; [|reflexivity].
  rewrite py_float_agree. reflexivity.
Qed.

Lemma process_row_agree (st : state) (r : row) :
  process_row E1 st r = process_row E2 st r.
Proof.
  unfold process_row.
  destruct (py_ne (Description r) (VStr "Subscription Payment"));
    [reflexivity|].
  destruct (parse_date (Date r)) as [d|]; simpl; [|reflexivity].
  rewrite parse_gross_agree.
  destruct (parse_gross E2 (Gross r)) as [g|]; simpl; [|reflexivity].
  rewrite convert_currency_agree. reflexivity.
Qed.

Lemma process_rows_agree (st : state) (rows : list row) :
  process_rows E1 st rows = process_rows E2 st rows.
Proof.
  revert st. induction rows as [|r rows IH]; intros st; simpl.
  - reflexivity.
  - rewrite process_row_agree.
    destruct (process_row E2 st r); simpl; [apply IH | reflexivity].
Qed.

Lemma process_file_agree (fy fm : Z * Z) (ps : bool) (t : tables)
    (f : file) :
  process_file E1 fy fm ps t f = process_file E2 fy fm ps t f.
Proof. unfold process_file. rewrite process_rows_agree. reflexivity. Qed.

Lemma process_files_agree (fy fm : Z * Z) (ps : bool) (t : tables)
    (infiles : list file) :
  process_files E1 fy fm ps t infiles = process_files E2 fy fm ps t infiles.
Proof.
  revert t. induction infiles as [|f infiles IH]; intros t; simpl.
  - reflexivity.
  - rewrite process_file_agree.
    destruct (process_file E2 fy fm ps t f); simpl;
      [apply IH | reflexivity].
Qed.

End Agree.

(** C9: two runs of [parse_msr_files] on the same files, with the same
    arguments, in environments that give the same answers (the same number
    for the same text, the same response to the same request at the same
    point of the run), return the same two tables or raise the same
    exception; nothing else enters the result. *)
Theorem ingestion_is_deterministic (E1 E2 : env) (infiles : list file)
    (fy fm : Z * Z) (rc : pyval) (ps : bool) :
  env_agree E1 E2 ->
  parse_msr_files E1 infiles fy fm rc ps =
  parse_msr_files E2 infiles fy fm rc ps.
Proof.
  intros H. unfold parse_msr_files.
  rewrite (process_files_agree E1 E2 H). reflexivity.
Qed.

Lemma ingestion_is_deterministic_witness :
  parse_msr_files (fixed_rate 200 "EUR" 0.5) [january; february_eur]
    default_year default_month (VBool false) true =
  parse_msr_files (fixed_rate_counting 200 "EUR" 0.5) [january; february_eur]
    default_year default_month (VBool false) true.
Proof.
  apply ingestion_is_deterministic.
  split; [reflexivity|]. intros n d base symbol. destruct n; reflexivity.
Defined.

(** ** Currency conversion *)





(** ** Dates *)

Lemma in_range_same (c x : ascii) : in_range c c x = true -> x = c.
Proof.
  unfold in_range. intros H. apply andb_true_iff in H. destruct H as [H1 H2].
  apply Nat.leb_le in H1, H2.
  rewrite <- (ascii_nat_embedding x), <- (ascii_nat_embedding c).
  f_equal. lia.
Qed.

Lemma in_range_digit (lo hi x : ascii) :
  is_digit lo = true -> is_digit hi = true ->
  in_range lo hi x = true -> is_digit x = true.
Proof.
  unfold is_digit, in_range. intros H1 H2 H.
  apply andb_true_iff in H1, H2, H. destruct H1, H2, H.
  apply andb_true_iff. rewrite !Nat.leb_le in *. lia.
Qed.

Lemma take_classes_cons (p : ascii -> bool) (cs : list (ascii -> bool))
    (s t r : string) :
  take_classes (p :: cs) s = Some (t, r) ->
  exists c s' t',
    s = String c s' /\ p c = true /\ take_classes cs s' = Some (t', r)
    /\ t = String c t'.
Proof.
  simpl. destruct s as [|c s']; [discriminate|].
  destruct (p c) eqn:Hp; [|discriminate].
  destruct (take_classes cs s') as [[t' r']|] eqn:Ht; [|discriminate].
  intros H. injection H as <- <-. exists c, s', t'. auto.
Qed.

(** The alternative the matcher settles on is one of the list. *)
Lemma first_alternative_Some {R : Type} (k : string -> string -> option R)
    (alts : list (list (ascii -> bool))) (s : string) (x : R) :
  first_alternative k alts s = Some x ->
  exists cs t r,
    In cs alts /\ take_classes cs s = Some (t, r) /\ k t r = Some x.
Proof.
  induction alts as [|cs alts IH]; simpl; [discriminate|].
  intros H.
  assert (Hrest : first_alternative k alts s = Some x ->
    exists cs0 t r,
      (cs = cs0 \/ In cs0 alts) /\ take_classes cs0 s = Some (t, r)
      /\ k t r = Some x).
  { intros H'. destruct (IH H') as (cs0 & t & r & Hin & Ht & Hk).
    exists cs0, t, r. auto. }
  destruct (take_classes cs s) as [[t r]|] eqn:Ht; [|auto].
  destruct (k t r) as [y|] eqn:Hk; [|auto].
  injection H as <-. exists cs, t, r. auto.
Qed.

Lemma format_match_literal (c : ascii) (fmt : list directive) (g : groups)
    (s : string) (x : groups * string) :
  format_match (DLit c :: fmt) g s = Some x ->
  exists r, s = String c r.
Proof.
  intros H. cbn [format_match] in H.
  apply first_alternative_Some in H.
  destruct H as (cs & t & r & Hin & Ht & _).
  destruct Hin as [<-|[]].
  apply take_classes_cons in Ht.
  destruct Ht as (a & s' & t' & -> & Ha & Ht' & _).
  apply in_range_same in Ha. subst a. exists s'. reflexivity.
Qed.

(** After a month comes the rest of the format: one or two characters in,
    the second one a digit when there are two. *)
Lemma format_match_month (fmt : list directive) (g : groups) (s : string)
    (x : groups * string) :
  format_match (Dm :: fmt) g s = Some x ->
  exists a r,
    s = String a r
    /\ ((exists g', format_match fmt g' r = Some x)
        \/ (exists b r' g',
              r = String b r' /\ is_digit b = true
              /\ format_match fmt g' r' = Some x)).
Proof.
  intros H. cbn [format_match] in H.
  apply first_alternative_Some in H.
  destruct H as (cs & t & r & Hin & Ht & Hk).
  cbn [alternatives In] in Hin.
  destruct Hin as [<-|[<-|[<-|[]]]];
    apply take_classes_cons in Ht;
    destruct Ht as (a & s1 & t1 & -> & Ha & Ht & ->);
    exists a, s1; (split; [reflexivity|]).
  - right. apply take_classes_cons in Ht.
    destruct Ht as (b & s2 & t2 & -> & Hb & Ht & ->).
    injection Ht as <- <-.
    exists b, s2, (set_group Dm (String a (String b "")) g).
    repeat split; [|exact Hk].
    apply (in_range_digit "0" "2"); [reflexivity | reflexivity | exact Hb].
  - right. apply take_classes_cons in Ht.
    destruct Ht as (b & s2 & t2 & -> & Hb & Ht & ->).
    injection Ht as <- <-.
    exists b, s2, (set_group Dm (String a (String b "")) g).
    repeat split; [|exact Hk].
    apply (in_range_digit "1" "9"); [reflexivity | reflexivity | exact Hb].
  - left. injection Ht as <- <-.
    exists (set_group Dm (String a "") g). exact Hk.
Qed.

Lemma format_match_year (fmt : list directive) (g : groups) (s : string)
    (x : groups * string) :
  format_match (DY :: fmt) g s = Some x ->
  exists a b c r,
    s = String a (String b (String c r))
    /\ is_digit b = true /\ is_digit c = true.
Proof.
  intros H. cbn [format_match] in H.
  apply first_alternative_Some in H.
  destruct H as (cs & t & r & Hin & Ht & _).
  destruct Hin as [<-|[]].
  apply take_classes_cons in Ht.
  destruct Ht as (a & s1 & t1 & -> & _ & Ht & _).
  apply take_classes_cons in Ht.
  destruct Ht as (b & s2 & t2 & -> & Hb & Ht & _).
  apply take_classes_cons in Ht.
  destruct Ht as (c & s3 & t3 & -> & Hc & Ht & _).
  exists a, b, c, s3. auto.
Qed.

(** Month first: the separator is the second or the third character, and
    in the latter case the second is a digit. *)
Lemma format_match_mdY (sep : ascii) (g : groups) (s : string)
    (x : groups * string) :
  format_match (fmt_mdY sep) g s = Some x ->
  (exists a r, s = String a (String sep r))
  \/ (exists a b r,
        s = String a (String b (String sep r)) /\ is_digit b = true).
Proof.
  intros H. unfold fmt_mdY in H. apply format_match_month in H.
  destruct H as (a & r & -> & [(g' & H)|(b & r' & g' & -> & Hb & H)]);
    apply format_match_literal in H; destruct H as (r0 & ->).
  - left. exists a, r0. reflexivity.
  - right. exists a, b, r0. auto.
Qed.

Lemma strptime_Ok (s : string) (fmt : list directive) (d : date) :
  strptime s fmt = Ok d ->
  exists x, format_match fmt no_groups s = Some x.
Proof.
  unfold strptime.
  destruct (format_match fmt no_groups s) as [x|]; [|discriminate].
  intros _. exists x. reflexivity.
Qed.

Lemma strptime_Raise (s : string) (fmt : list directive) (e : exn) :
  strptime s fmt = Raise e -> e = ValueError.
Proof.
  unfold strptime, make_date.
  destruct (format_match fmt no_groups s) as [[g rest]|]; [|congruence].
  destruct rest; [|congruence].
  match goal with |- context [if ?b then _ else _] => destruct b end;
    congruence.
Qed.

Lemma strptime_no_match (s : string) (fmt : list directive) :
  format_match fmt no_groups s = None -> strptime s fmt = Raise ValueError.
Proof. unfold strptime. intros ->. reflexivity. Qed.

(** A text in the format with the year first is in neither format with the
    month first. *)
Lemma Ymd_excludes_mdY (sep : ascii) (s : string) (d : date) :
  is_digit sep = false ->
  strptime s fmt_Ymd = Ok d ->
  strptime s (fmt_mdY sep) = Raise ValueError.
Proof.
  intros Hsep H. apply strptime_Ok in H. destruct H as (x & H).
  unfold fmt_Ymd in H. apply format_match_year in H.
  destruct H as (a & b & c & r & -> & Hb & Hc).
  apply strptime_no_match.
  destruct (format_match (fmt_mdY sep) no_groups (String a (String b (String c r))))
    as [y|] eqn:Hm; [|reflexivity].
  apply format_match_mdY in Hm.
  destruct Hm as [(a' & r' & Heq)|(a' & b' & r' & Heq & _)];
    injection Heq as _ ->; congruence.
Qed.

(** A text in the format with dashes is not in the format with slashes. *)
Lemma dashes_exclude_slashes (s : string) (d : date) :
  strptime s (fmt_mdY "-") = Ok d ->
  strptime s (fmt_mdY "/") = Raise ValueError.
Proof.
  intros H. apply strptime_Ok in H. destruct H as (x & H).
  apply strptime_no_match.
  destruct (format_match (fmt_mdY "/") no_groups s) as [y|] eqn:Hm;
    [|reflexivity].
  apply format_match_mdY in H. apply format_match_mdY in Hm.
  destruct H as [(a & r & ->)|(a & b & r & -> & Hb)];
    destruct Hm as [(a' & r' & Heq)|(a' & b' & r' & Heq & Hb')];
    try discriminate Heq.
  - injection Heq as _ <- _. discriminate Hb'.
  - injection Heq as _ -> _. discriminate Hb.
Qed.

Lemma process_row_bad_date (E : env) (st : state) (r : row) (e : exn) :
  is_subscription_payment r = true ->
  parse_date (Date r) = Raise e ->
  process_row E st r = Raise e.
Proof.
  unfold process_row. simpl. intros Hpay Hd.
  destruct (py_ne (Description r) (VStr "Subscription Payment"));
    [discriminate Hpay|].
  rewrite Hd. reflexivity.
Qed.

Lemma process_rows_bad_date (E : env) (rows : list row) (r : row) :
  In r rows ->
  is_subscription_payment r = true ->
  raises (parse_date (Date r)) ->
  forall st, raises (process_rows E st rows).
Proof.
  intros Hin Hpay [e He].
  induction rows as [|r0 rows IH]; intros st; [destruct Hin|].
  cbn [process_rows].
  destruct (process_row E st r0) as [st1|e0] eqn:H0.
  - destruct Hin as [->|Hin].
    + rewrite (process_row_bad_date E st r e Hpay He) in H0. discriminate H0.
    + apply (IH Hin).
  - exists e0. reflexivity.
Qed.

Lemma process_files_raises (E : env) (fy fm : Z * Z) (ps : bool)
    (infiles : list file) (f : file) :
  In f infiles ->
  (forall st, raises (process_rows E st (data f))) ->
  forall t, raises (process_files E fy fm ps t infiles).
Proof.
  intros Hin Hf.
  induction infiles as [|f0 infiles IH]; intros t; [destruct Hin|].
  cbn [process_files].
  destruct (process_file E fy fm ps t f0) as [t1|e0] eqn:H0.
  - destruct Hin as [->|Hin].
    + apply process_file_Ok in H0. destruct H0 as (st & _ & _ & Hrows & _).
      destruct (Hf (initial_state t)) as [e He]. congruence.
    + apply (IH Hin).
  - exists e0. reflexivity.
Qed.

Lemma In_insert_sorted (f g : file) (l : list file) :
  In f (insert_sorted g l) <-> f = g \/ In f l.
Proof.
  induction l as [|h l IH]; simpl.
  - intuition congruence.
  - destruct (String.leb (path g) (path h)); simpl.
    + intuition congruence.
    + rewrite IH. intuition congruence.
Qed.

Lemma In_sort_files (f : file) (l : list file) :
  In f (sort_files l) <-> In f l.
Proof.
  unfold sort_files. induction l as [|g l IH]; simpl.
  - reflexivity.
  - rewrite In_insert_sorted, IH. intuition congruence.
Qed.

(** ** Identifiers of new subscriptions *)

Lemma to_int_not_nil (z : Z) :
  Z.to_int z <> Decimal.Pos Decimal.Nil /\ Z.to_int z <> Decimal.Neg Decimal.Nil.
Proof.
  assert (H : Z.to_int z = Decimal.norm (Z.to_int z)).
  { rewrite <- DecimalZ.to_of, DecimalZ.of_to. reflexivity. }
  rewrite H. destruct (Z.to_int z) as [u|u]; simpl.
  - split; [|discriminate]. intros H'. injection H' as H'.
    apply (DecimalFacts.unorm_nonnil u H').
  - destruct (Decimal.nzhead u); split; discriminate.
Qed.

Lemma py_str_int_inj (a b : Z) : py_str_int a = py_str_int b -> a = b.
Proof.
  unfold py_str_int. intros H.
  apply (f_equal NilZero.int_of_string) in H.
  destruct (to_int_not_nil a) as [Ha1 Ha2].
  destruct (to_int_not_nil b) as [Hb1 Hb2].
  rewrite !NilZero.isi in H by assumption.
  injection H as H. apply DecimalZ.to_int_inj. exact H.
Qed.

Lemma append_inj_l (p s t : string) : (p ++ s = p ++ t)%string -> s = t.
Proof.
  induction p as [|c p IH]; simpl; intros H.
  - exact H.
  - injection H as H. apply IH. exact H.
Qed.

Lemma synthesized_id_inj (email : string) (a b : Z) :
  synthesized_id email a = synthesized_id email b -> a = b.
Proof.
  unfold synthesized_id. intros H.
  apply append_inj_l in H. apply (append_inj_l "_") in H.
  apply py_str_int_inj. exact H.
Qed.

Lemma NoDup_map_injective {A B : Type} (f : A -> B) (l : list A) :
  (forall a b, f a = f b -> a = b) -> NoDup l -> NoDup (map f l).
Proof.
  intros Hinj Hl. induction Hl as [|a l Hnotin Hl IH]; simpl.
  - constructor.
  - constructor; [|exact IH].
    intros Hin. apply in_map_iff in Hin. destruct Hin as (b & Hfb & Hb).
    apply Hinj in Hfb. subst b. contradiction.
Qed.

(** The loop stops at the first number whose identifier is unused, or when
    its iterations are used up. *)
Lemma fresh_suffix_spec (subs : dict subscription) (email : string)
    (fuel : nat) :
  forall n,
    n <= fresh_suffix subs email fuel n <= n + Z.of_nat fuel
    /\ (forall k, n <= k < fresh_suffix subs email fuel n ->
          dict_mem (synthesized_id email k) subs = true)
    /\ (dict_mem (synthesized_id email (fresh_suffix subs email fuel n)) subs
          = true ->
        fresh_suffix subs email fuel n = n + Z.of_nat fuel).
Proof.
  induction fuel as [|fuel IH]; intros n.
  - simpl. split; [lia|]. split; [intros k Hk; lia | intros _; lia].
  - cbn [fresh_suffix].
    destruct (dict_mem (synthesized_id email n) subs) eqn:Hn.
    + destruct (IH (n + 1)) as (Hrange & Hused & Hlast).
      split; [lia|]. split.
      * intros k Hk. destruct (Z.eq_dec k n) as [->|Hne]; [exact Hn|].
        apply Hused. lia.
      * intros H. rewrite (Hlast H). lia.
    + split; [lia|]. split; [intros k Hk; lia | congruence].
Qed.

(** As many iterations as there are subscriptions are enough: the
    identifier the loop ends on is unused. *)
Lemma fresh_suffix_unused (subs : dict subscription) (email : string) :
  dict_mem
    (synthesized_id email (fresh_suffix subs email (List.length subs) 1)) subs
  = false.
Proof.
  destruct (fresh_suffix_spec subs email (List.length subs) 1)
    as (_ & Hused & Hlast).
  destruct (dict_mem (synthesized_id email
              (fresh_suffix subs email (List.length subs) 1)) subs) eqn:Hm;
    [exfalso | reflexivity].
  specialize (Hlast eq_refl). rewrite Hlast in Hused, Hm.
  set (ids := map (fun j => synthesized_id email (Z.of_nat j + 1))
                (seq 0 (S (List.length subs)))).
  assert (Hnodup : NoDup ids).
  { apply NoDup_map_injective; [|apply seq_NoDup].
    intros a b Hab. apply synthesized_id_inj in Hab. lia. }
  assert (Hincl : incl ids (keys subs)).
  { intros id Hid. apply in_map_iff in Hid.
    destruct Hid as (j & <- & Hj). apply in_seq in Hj.
    apply dict_mem_In.
    destruct (Nat.eq_dec j (List.length subs)) as [->|Hne].
    - rewrite Z.add_comm. exact Hm.
    - apply Hused. lia. }
  apply NoDup_incl_length in Hincl; [|exact Hnodup].
  unfold ids, keys in Hincl. rewrite !length_map, length_seq in Hincl. lia.
Qed.

(** The identifier of a new subscription is the Reference Txn ID of the
    row or an unused one. *)
Lemma new_subscription_id_Ok (r : row) (subs : dict subscription)
    (id : string) :
  new_subscription_id r subs = Ok id ->
  (Reference_Txn_ID r = VStr id /\ has_id_shape id = true)
  \/ (exists email n,
        From_Email_Address r = VStr email
        /\ id = synthesized_id email n
        /\ 1 <= n
        /\ (forall k, 1 <= k < n ->
              dict_mem (synthesized_id email k) subs = true)
        /\ dict_mem id subs = false).
Proof.
  unfold new_subscription_id. intros H.
  assert (Hsyn :
    match From_Email_Address r with
    | VStr email =>
        Ok (synthesized_id email
              (fresh_suffix subs email (List.length subs) 1))
    | _ => Raise TypeError
    end = Ok id ->
    exists email n,
      From_Email_Address r = VStr email
      /\ id = synthesized_id email n
      /\ 1 <= n
      /\ (forall k, 1 <= k < n ->
            dict_mem (synthesized_id email k) subs = true)
      /\ dict_mem id subs = false).
  { destruct (From_Email_Address r) as [email| | |]; try discriminate.
    intros H'. injection H' as <-.
    destruct (fresh_suffix_spec subs email (List.length subs) 1)
      as (Hrange & Hused & _).
    exists email, (fresh_suffix subs email (List.length subs) 1).
    repeat split; [lia | exact Hused | apply fresh_suffix_unused]. }
  destruct (Reference_Txn_ID r) as [ref| | |]; auto.
  destruct (has_id_shape ref) eqn:Hshape; auto.
  injection H as <-. left. auto.
Qed.

(** C5: the customer of [I-ABC] pays in January, not in February, and again
    in March with the same Reference Txn ID.  The March row is matched to no
    subscription, yet it adds no record: the table has the same two keys
    before and after, and the canceled record of January is gone, replaced
    under its key by the record of March. *)
Theorem resubscription_replaces_the_record :
  tables_after offline [january_ref; february_ref] = Ok after_february_ref
  /\ process_file offline default_year default_month true after_february_ref
       march_ref = Ok after_march_ref
  /\ match_subscription
       (payment_for "I-ABC" "3/15/2019" 10 "USD" "a@x.com")
       (subscriptions (initial_state after_february_ref)) = None
  /\ keys (t_subscriptions after_february_ref) = ["I-ABC"; "b@x.com_1"]%string
  /\ keys (t_subscriptions after_march_ref) = ["I-ABC"; "b@x.com_1"]%string
  /\ dict_get "I-ABC" (t_subscriptions after_february_ref) =
     Some (mkSubscription "I-ABC" (VStr "Ann") (VStr "a@x.com")
             (mkDate 2019 1 15) (mkDate 2019 1 15) 1 (VStr "USD") (VFloat 10)
             (VStr "USD") (VFloat 10) canceled)
  /\ dict_get "I-ABC" (t_subscriptions after_march_ref) =
     Some (mkSubscription "I-ABC" (VStr "Ann") (VStr "a@x.com")
             (mkDate 2019 3 15) (mkDate 2019 3 15) 1 (VStr "USD") (VFloat 10)
             (VStr "USD") (VFloat 10) active).
Proof. repeat split; vm_compute; reflexivity. Qed.

(** C2: in the same run the subscription [I-ABC] is canceled after the pass
    over the February file and active after the pass over the March file. *)
Theorem canceled_subscription_becomes_active :
  tables_after offline [january_ref; february_ref] = Ok after_february_ref
  /\ tables_after offline [january_ref; february_ref; march_ref] =
     Ok after_march_ref
  /\ option_map s_status
       (dict_get "I-ABC" (t_subscriptions after_february_ref)) = Some canceled
  /\ option_map s_status
       (dict_get "I-ABC" (t_subscriptions after_march_ref)) = Some active.
Proof. repeat split; vm_compute; reflexivity. Qed.

(** ** What a pass leaves alone *)

Lemma nth_error_sweep (from to : status) (subs : dict subscription)
    (i : nat) (k : string) (s : subscription) :
  nth_error subs i = Some (k, s) ->
  nth_error (sweep from to subs) i =
  Some (k, if status_eqb (s_status s) from then set_status to s else s).
Proof.
  intros H. unfold sweep. rewrite nth_error_map, H. simpl.
  destruct (status_eqb (s_status s) from); reflexivity.
Qed.

Lemma nth_error_dict_set_inv {V : Type} (i : nat) (k k0 : string) (v v0 : V)
    (d : dict V) :
  nth_error (dict_set k v d) i = Some (k0, v0) -> v0 <> v ->
  nth_error d i = Some (k0, v0).
Proof.
  revert i. induction d as [|[k' v'] d IH]; intros i H Hne; simpl in H.
  - destruct i as [|[|i]]; simpl in H; try discriminate H.
    injection H as _ <-. contradiction.
  - destruct (String.eqb k k').
    + destruct i as [|i]; simpl in *; [|exact H].
      injection H as _ <-. contradiction.
    + destruct i as [|i]; simpl in *; [exact H | apply IH; assumption].
Qed.

Lemma renew_Ok (d : date) (g : pyval) (prior s : subscription) :
  renew d g prior = Ok s ->
  s_id s = s_id prior
  /\ s_length s = s_length prior + 1
  /\ py_add (s_gross prior) g = Ok (s_gross s)
  /\ s_start s = s_start prior
  /\ s_end s = d
  /\ s_status s = active.
Proof.
  unfold renew. intros H. apply bind_Ok in H.
  destruct H as (total & Htotal & H). injection H as <-. simpl. auto 10.
Qed.

Section Frame.

Variable E : env.

(** A row leaves a subscription that is not tentative as it is, unless it
    carries the key of the subscription as Reference Txn ID. *)
Lemma process_row_frame (st st' : state) (r : row) (i : nat) (k : string)
    (s : subscription) :
  process_row E st r = Ok st' ->
  nth_error (subscriptions st) i = Some (k, s) ->
  s_status s <> tentative ->
  Reference_Txn_ID r <> VStr k ->
  nth_error (subscriptions st') i = Some (k, s).
Proof.
  intros Hrow Hnth Hst Href.
  destruct (is_subscription_payment r) eqn:Hpay.
  - destruct (process_row_payment E st st' r Hpay Hrow)
      as (d & g & rc & n & _ & _ & Hb).
    apply book_payment_Ok in Hb. cbn [subscriptions] in Hb.
    destruct Hb as (_ & _ & _ & _ & Hm).
    destruct (match_subscription r (subscriptions st)) as [j|] eqn:Hmatch.
    + destruct Hm as (_ & k' & prior & s' & Hj & _ & ->).
      apply match_subscription_Some in Hmatch.
      destruct Hmatch as (k1 & p1 & Hj1 & Htent).
      rewrite nth_error_replace_at_other; [exact Hnth|].
      intros ->. congruence.
    + destruct Hm as (_ & id & Hid & ->).
      apply nth_error_dict_set; [exact Hnth|].
      intros ->. apply new_subscription_id_Ok in Hid.
      destruct Hid as [[Hr _]|(email & m & _ & _ & _ & _ & Hfree)].
      * contradiction.
      * rewrite (nth_error_dict_mem i id s (subscriptions st) Hnth) in Hfree.
        discriminate Hfree.
  - rewrite (process_row_skip E st r Hpay) in Hrow. injection Hrow as <-.
    exact Hnth.
Qed.

Lemma process_rows_frame (rows : list row) (i : nat) (k : string)
    (s : subscription) :
  Forall (fun r => Reference_Txn_ID r <> VStr k) rows ->
  forall st st',
    process_rows E st rows = Ok st' ->
    nth_error (subscriptions st) i = Some (k, s) ->
    s_status s <> tentative ->
    nth_error (subscriptions st') i = Some (k, s).
Proof.
  intros Hrows. induction Hrows as [|r rows Hr Hrows IH];
    intros st st' H Hnth Hst.
  - injection H as <-. exact Hnth.
  - cbn [process_rows] in H. apply bind_Ok in H.
    destruct H as (st1 & H1 & H).
    apply (IH st1 st' H); [|exact Hst].
    apply (process_row_frame st st1 r i k s H1 Hnth Hst Hr).
Qed.

(** A subscription that is tentative after a row was there, the same,
    before the row. *)
Lemma process_row_tentative (st st' : state) (r : row) (i : nat)
    (k : string) (s : subscription) :
  process_row E st r = Ok st' ->
  nth_error (subscriptions st') i = Some (k, s) ->
  s_status s = tentative ->
  nth_error (subscriptions st) i = Some (k, s).
Proof.
  intros Hrow Hnth Hst.
  destruct (is_subscription_payment r) eqn:Hpay.
  - destruct (process_row_payment E st st' r Hpay Hrow)
      as (d & g & rc & n & _ & _ & Hb).
    apply book_payment_Ok in Hb. cbn [subscriptions reporting_currency] in Hb.
    destruct Hb as (_ & _ & _ & _ & Hm).
    destruct (match_subscription r (subscriptions st)) as [j|].
    + destruct Hm as (_ & k' & prior & s' & Hj & Hrenew & Hsubs).
      rewrite Hsubs in Hnth. apply renew_Ok in Hrenew.
      destruct (Nat.eq_dec j i) as [->|Hne].
      * rewrite (nth_error_replace_at_same i k' s' prior _ Hj) in Hnth.
        injection Hnth as _ <-. destruct Hrenew as (_ & _ & _ & _ & _ & Ha).
        congruence.
      * rewrite nth_error_replace_at_other in Hnth by exact Hne. exact Hnth.
    + destruct Hm as (_ & id & _ & Hsubs).
      rewrite Hsubs in Hnth.
      apply nth_error_dict_set_inv in Hnth; [exact Hnth|].
      intros ->. discriminate Hst.
  - rewrite (process_row_skip E st r Hpay) in Hrow. injection Hrow as <-.
    exact Hnth.
Qed.

Lemma process_rows_tentative (rows : list row) (i : nat) (k : string)
    (s : subscription) :
  forall st st',
    process_rows E st rows = Ok st' ->
    nth_error (subscriptions st') i = Some (k, s) ->
    s_status s = tentative ->
    nth_error (subscriptions st) i = Some (k, s).
Proof.
  induction rows as [|r rows IH]; intros st st' H Hnth Hst.
  - injection H as <-. exact Hnth.
  - cbn [process_rows] in H. apply bind_Ok in H.
    destruct H as (st1 & H1 & H).
    apply (process_row_tentative st st1 r i k s H1); [|exact Hst].
    apply (IH st1 st' H Hnth Hst).
Qed.

Lemma booked_unique (st : state) (r : row) (d d' : date) (g g' : pyval) :
  booked E st r d g -> booked E st r d' g' -> d = d' /\ g = g'.
Proof.
  intros (Hd & g0 & rc & n & Hg0 & Hc) (Hd' & g0' & rc' & n' & Hg0' & Hc').
  assert (d = d') as <- by congruence.
  assert (g0 = g0') as <- by congruence.
  split; [reflexivity | congruence].
Qed.

(** X13: A subscription that no row of the pass can touch goes through the pass
    as it is: in particular a canceled one, as long as no row carries its
    key as Reference Txn ID. *)
Lemma process_file_frame (fy fm : Z * Z) (ps : bool) (t t' : tables)
    (f : file) (i : nat) (k : string) (s : subscription) :
  process_file E fy fm ps t f = Ok t' ->
  nth_error (t_subscriptions t) i = Some (k, s) ->
  s_status s = canceled ->
  Forall (fun r => Reference_Txn_ID r <> VStr k) (data f) ->
  nth_error (t_subscriptions t') i = Some (k, s).
Proof.
  intros H Hnth Hst Hrows. apply process_file_Ok in H.
  destruct H as (st & _ & _ & Hrun & _ & Hsubs & _).
  rewrite Hsubs.
  assert (H0 : nth_error (subscriptions (initial_state t)) i = Some (k, s)).
  { cbn [initial_state subscriptions].
    rewrite (nth_error_sweep active tentative _ i k s Hnth), Hst.
    reflexivity. }
  assert (H1 : nth_error (subscriptions st) i = Some (k, s)).
  { apply (process_rows_frame (data f) i k s Hrows _ st Hrun H0).
    rewrite Hst. discriminate. }
  rewrite (nth_error_sweep tentative canceled _ i k s H1), Hst. reflexivity.
Qed.

End Frame.

(** ** A renewal *)

(** C4, as amended: a subscription that stands in the tables between two
    passes and is matched by a row of the next pass, none of the later rows
    of which carries its key as Reference Txn ID, was active; after that
    pass its length is one more, its gross is its gross before the pass
    plus the amount booked for the row, its start is the same, its end is
    the date of the row, and it is active. *)
Theorem renewal_in_next_pass (E : env) (fy fm : Z * Z) (ps : bool)
    (t t' : tables) (f : file) (pre : list row) (r : row) (post : list row)
    (i : nat) (d : date) (g : pyval) (k : string) (s1 : subscription) :
  process_file E fy fm ps t f = Ok t' ->
  matched_in_pass E t f pre r post i d g ->
  nth_error (t_subscriptions t) i = Some (k, s1) ->
  s_status s1 <> tentative ->
  Forall (fun r' => Reference_Txn_ID r' <> VStr k) post ->
  s_status s1 = active
  /\ exists s2,
       nth_error (t_subscriptions t') i = Some (k, s2)
       /\ s_length s2 = s_length s1 + 1
       /\ py_add (s_gross s1) g = Ok (s_gross s2)
       /\ s_start s2 = s_start s1
       /\ s_end s2 = d
       /\ s_status s2 = active.
Proof.
  intros H (Hdata & Hpay & st & Hpre & Hmatch & Hbooked) Hnth Hnt Hpost.
  apply process_file_Ok in H.
  destruct H as (st_end & _ & _ & Hrun & _ & Hsubs & _).
  rewrite Hdata, process_rows_app, Hpre in Hrun.
  cbn [bind process_rows] in Hrun. apply bind_Ok in Hrun.
  destruct Hrun as (st2 & Hrow & Hrest).
  (* the matched subscription is the tentative copy of [s1] *)
  destruct (match_subscription_Some r (subscriptions st) i Hmatch)
    as (k0 & prior & Hi & Htent).
  pose proof (process_rows_tentative E pre i k0 prior _ st Hpre Hi Htent)
    as Hstart.
  cbn [initial_state subscriptions] in Hstart.
  rewrite (nth_error_sweep active tentative _ i k s1 Hnth) in Hstart.
  injection Hstart as <- Hprior.
  assert (Hactive : s_status s1 = active).
  { destruct (status_eqb (s_status s1) active) eqn:Ha.
    - apply status_eqb_eq. exact Ha.
    - subst prior. contradiction. }
  rewrite Hactive in Hprior. cbn [status_eqb] in Hprior.
  split; [exact Hactive|].
  (* the row renews it *)
  destruct (process_row_payment E st st2 r Hpay Hrow)
    as (d' & g' & rc & n & Hbooked' & _ & Hb).
  destruct (booked_unique E st r d d' g g' Hbooked Hbooked') as [<- <-].
  apply book_payment_Ok in Hb. cbn [subscriptions] in Hb.
  destruct Hb as (_ & _ & _ & _ & Hm). rewrite Hmatch in Hm.
  destruct Hm as (_ & k1 & prior1 & s2 & Hi1 & Hrenew & Hsubs2).
  rewrite Hi in Hi1. injection Hi1 as <- <-.
  apply renew_Ok in Hrenew.
  destruct Hrenew as (_ & Hlen & Hgross & Hstart & Hend & Hst2).
  assert (H2 : nth_error (subscriptions st2) i = Some (k, s2)).
  { rewrite Hsubs2. apply (nth_error_replace_at_same i k s2 prior _ Hi). }
  (* the later rows and the sweep leave it alone *)
  assert (H3 : nth_error (subscriptions st_end) i = Some (k, s2)).
  { apply (process_rows_frame E post i k s2 Hpost st2 st_end Hrest H2).
    rewrite Hst2. discriminate. }
  exists s2. rewrite Hsubs.
  rewrite (nth_error_sweep tentative canceled _ i k s2 H3), Hst2.
  subst prior. cbn [status_eqb set_status s_length s_gross s_start] in *.
  auto 10.
Qed.

Lemma renewal_in_next_pass_witness :
  s_status
    (mkSubscription "a@x.com_1" (VStr "Ann") (VStr "a@x.com")
       (mkDate 2019 1 15) (mkDate 2019 1 15) 1 (VStr "USD") (VFloat 10)
       (VStr "USD") (VFloat 10) active) = active
  /\ exists s2,
       nth_error (t_subscriptions after_february) 0 = Some ("a@x.com_1"%string, s2)
       /\ s_length s2 = 1 + 1
       /\ py_add (VFloat 10) (VFloat 10) = Ok (s_gross s2)
       /\ s_start s2 = mkDate 2019 1 15
       /\ s_end s2 = mkDate 2019 2 15
       /\ s_status s2 = active.
Proof.
  apply (renewal_in_next_pass offline default_year default_month true
           after_january after_february february []
           (payment "2/15/2019" 10 "USD" "a@x.com") [] 0
           (mkDate 2019 2 15) (VFloat 10) "a@x.com_1").
  - vm_compute. reflexivity.
  - split; [reflexivity|]. split; [reflexivity|].
    exists (initial_state after_january).
    split; [reflexivity|]. split; [vm_compute; reflexivity|].
    split; [vm_compute; reflexivity|].
    exists (VFloat 10), (VStr "USD"), O.
    split; vm_compute; reflexivity.
  - reflexivity.
  - discriminate.
  - constructor.
Defined.

(** The customer of the example pays in January, February and March: the
    subscription is matched by the one row of February and by the one row
    of March, which book 10 each, and its gross after March is 30. *)
Lemma gross_is_not_the_sum_of_two_rows : ~ gross_is_sum_of_two_rows offline.
Proof.
  intros Hclaim.
  assert (Hfeb : matched_in_pass offline after_january february []
                   (payment "2/15/2019" 10 "USD" "a@x.com") [] 0
                   (mkDate 2019 2 15) (VFloat 10)).
  { split; [reflexivity|]. split; [reflexivity|].
    exists (initial_state after_january).
    split; [reflexivity|]. split; [vm_compute; reflexivity|].
    split; [vm_compute; reflexivity|].
    exists (VFloat 10), (VStr "USD"), O. split; vm_compute; reflexivity. }
  assert (Hmar : matched_in_pass offline after_february march []
                   (payment "3/15/2019" 10 "USD" "a@x.com") [] 0
                   (mkDate 2019 3 15) (VFloat 10)).
  { split; [reflexivity|]. split; [reflexivity|].
    exists (initial_state after_february).
    split; [reflexivity|]. split; [vm_compute; reflexivity|].
    split; [vm_compute; reflexivity|].
    exists (VFloat 10), (VStr "USD"), O. split; vm_compute; reflexivity. }
  specialize (Hclaim default_year default_month true after_january february
    after_february march after_march [] _ [] [] _ [] 0%nat _ _ _ _
    "a@x.com_1"%string
    (mkSubscription "a@x.com_1" (VStr "Ann") (VStr "a@x.com")
       (mkDate 2019 1 15) (mkDate 2019 3 15) 3 (VStr "USD") (VFloat 30)
       (VStr "USD") (VFloat 10) active)
    ltac:(vm_compute; reflexivity) ltac:(vm_compute; reflexivity)
    Hfeb Hmar ltac:(vm_compute; reflexivity)).
  apply (f_equal (fun c => match c with
                           | Ok (VFloat x) => PrimFloat.eqb x 20
                           | _ => false
                           end)) in Hclaim.
  vm_compute in Hclaim. discriminate Hclaim.
Qed.

(** ** The state of the tables between two passes *)

Lemma no_tentative_after_pass (E : env) (fy fm : Z * Z) (ps : bool)
    (t t' : tables) (f : file) (i : nat) (k : string) (s : subscription) :
  process_file E fy fm ps t f = Ok t' ->
  nth_error (t_subscriptions t') i = Some (k, s) ->
  s_status s <> tentative.
Proof.
  intros H Hnth. apply process_file_Ok in H.
  destruct H as (st & _ & _ & _ & _ & Hsubs & _).
  rewrite Hsubs in Hnth. unfold sweep in Hnth.
  rewrite nth_error_map in Hnth.
  destruct (nth_error (subscriptions st) i) as [[k0 s0]|];
    [|discriminate Hnth].
  simpl in Hnth.
  destruct (status_eqb (s_status s0) tentative) eqn:Hs0;
    injection Hnth as <- <-.
  - discriminate.
  - intros Heq. apply status_eqb_eq in Heq. congruence.
Qed.

Lemma dict_set_position {V : Type} (k : string) (v : V) (d : dict V) :
  exists i, nth_error (dict_set k v d) i = Some (k, v).
Proof.
  induction d as [|[k' v'] d [i IH]]; simpl.
  - exists O. reflexivity.
  - destruct (String.eqb k k') eqn:Hk.
    + apply String.eqb_eq in Hk. subst k'. exists O. reflexivity.
    + exists (S i). exact IH.
Qed.

(** X12: The record of a row that is matched to no subscription, after the pass
    in which the row is read: length 1, the amount of the row as gross, the
    date of the row as start and end, status active. *)
Lemma new_record_after_pass (E : env) (fy fm : Z * Z) (ps : bool)
    (t t' : tables) (f : file) (pre : list row) (r : row) (post : list row)
    (st : state) (d : date) (g : pyval) (id : string) :
  process_file E fy fm ps t f = Ok t' ->
  data f = pre ++ r :: post ->
  is_subscription_payment r = true ->
  process_rows E (initial_state t) pre = Ok st ->
  match_subscription r (subscriptions st) = None ->
  booked E st r d g ->
  new_subscription_id r (subscriptions st) = Ok id ->
  Forall (fun r' => Reference_Txn_ID r' <> VStr id) post ->
  exists i s,
    nth_error (t_subscriptions t') i = Some (id, s)
    /\ s_id s = id
    /\ s_email s = From_Email_Address r
    /\ s_length s = 1
    /\ s_gross s = g
    /\ s_start s = d
    /\ s_end s = d
    /\ s_status s = active.
Proof.
  intros H Hdata Hpay Hpre Hmatch Hbooked Hid Hpost.
  apply process_file_Ok in H.
  destruct H as (st_end & _ & _ & Hrun & _ & Hsubs & _).
  rewrite Hdata, process_rows_app, Hpre in Hrun.
  cbn [bind process_rows] in Hrun. apply bind_Ok in Hrun.
  destruct Hrun as (st2 & Hrow & Hrest).
  destruct (process_row_payment E st st2 r Hpay Hrow)
    as (d' & g' & rc & n & Hbooked' & _ & Hb).
  destruct (booked_unique E st r d d' g g' Hbooked Hbooked') as [<- <-].
  apply book_payment_Ok in Hb. cbn [subscriptions reporting_currency] in Hb.
  destruct Hb as (_ & _ & _ & _ & Hm). rewrite Hmatch in Hm.
  destruct Hm as (_ & id' & Hid' & Hsubs2).
  assert (id' = id) as -> by congruence.
  destruct (dict_set_position id (new_subscription id r d rc g)
              (subscriptions st)) as [i Hi].
  rewrite <- Hsubs2 in Hi.
  assert (H3 : nth_error (subscriptions st_end) i =
               Some (id, new_subscription id r d rc g)).
  { apply (process_rows_frame E post i id _ Hpost st2 st_end Hrest Hi).
    discriminate. }
  exists i, (new_subscription id r d rc g). rewrite Hsubs.
  rewrite (nth_error_sweep tentative canceled _ i id _ H3).
  simpl. auto 10.
Qed.

(** ** Examples *)

(** The example of the specification: the customer pays 10 in January and
    10 in February. *)
Example one_customer_two_months :
  parse_msr_files offline [february; january] default_year default_month
    (VBool false) true =
  Ok ([("a@x.com_1"%string,
        mkSubscription "a@x.com_1" (VStr "Ann") (VStr "a@x.com")
          (mkDate 2019 1 15) (mkDate 2019 2 15) 2 (VStr "USD") (VFloat 20)
          (VStr "USD") (VFloat 10) active)],
      t_months after_february).
Proof. vm_compute. reflexivity. Qed.

(** The three formats, and texts in none of them. *)
Example dates_read :
  parse_date (VStr "1/15/2019") = Ok (mkDate 2019 1 15)
  /\ parse_date (VStr "01-15-2019") = Ok (mkDate 2019 1 15)
  /\ parse_date (VStr "2019-01-15") = Ok (mkDate 2019 1 15)
  /\ parse_date (VStr "15.01.2019") = Raise ValueError
  /\ parse_date (VStr "2/30/2019") = Raise ValueError
  /\ parse_date (VStr "1/15/2019 10:00") = Raise ValueError
  /\ parse_date nan_cell = Raise TypeError.
Proof. repeat split; vm_compute; reflexivity. Qed.

(** [strptime] alone reads a day written with a blank before it; the
    pattern that guards the format with slashes does not let it through. *)
Example blank_before_day :
  strptime "1/ 5/2019" (fmt_mdY "/") = Ok (mkDate 2019 1 5)
  /\ parse_date (VStr "1/ 5/2019") = Raise ValueError.
Proof. split; vm_compute; reflexivity. Qed.

(** The two tests are made subscription by subscription: a subscription
    with the e-mail of the row that comes first is taken before a later one
    with the Reference Txn ID of the row. *)
Example earlier_email_before_later_id :
  match_subscription (payment_for "I-XYZ" "2/15/2019" 10 "USD" "a@x.com")
    two_tentative = Some O.
Proof. reflexivity. Qed.

(** An unmatched payment without e-mail and without reference raises. *)
Example payment_without_email :
  parse_msr_files offline [january_no_email] default_year default_month
    (VBool false) true = Raise TypeError.
Proof. vm_compute. reflexivity. Qed.

(** As long as no payment has fixed the reporting currency the line of
    statistics cannot be built; without statistics the month is written. *)
Example no_payment_in_first_file :
  parse_msr_files offline [january_refund_only] default_year default_month
    (VBool false) true = Raise TypeError
  /\ succeeds
       (parse_msr_files offline [january_refund_only] default_year
          default_month (VBool false) false).
Proof. split; [vm_compute; reflexivity | eexists; vm_compute; reflexivity]. Qed.

(** A second payment for the same subscription in one month is matched to
    nothing, the subscription being active again, and takes the place of
    the record under its Reference Txn ID: the payments of January and of
    15 February are gone from the table. *)
Example second_payment_in_a_month :
  dict_get "I-ABC"
    (t_subscriptions
       (tables_of (tables_after offline [january_ref; february_twice]))) =
  Some (mkSubscription "I-ABC" (VStr "Ann") (VStr "a@x.com")
          (mkDate 2019 2 16) (mkDate 2019 2 16) 1 (VStr "USD")
          (VFloat 10) (VStr "USD") (VFloat 10) active)
  /\ option_map m_new_subscriptions
       (dict_get "2019-02"
          (t_months
             (tables_of (tables_after offline [january_ref; february_twice]))))
     = Some 1.
Proof. split; vm_compute; reflexivity. Qed.

(** ** The keys of the table *)

Lemma keys_sweep (from to : status) (subs : dict subscription) :
  keys (sweep from to subs) = keys subs.
Proof.
  unfold keys, sweep. rewrite map_map. apply map_ext.
  intros [k s]. simpl. destruct (status_eqb (s_status s) from); reflexivity.
Qed.

Lemma keys_replace_at {V : Type} (i : nat) (v : V) (d : dict V) :
  keys (replace_at i v d) = keys d.
Proof.
  revert i. induction d as [|[k v'] d IH]; intros [|i]; simpl;
    try reflexivity.
  f_equal. apply IH.
Qed.

Lemma keys_dict_set {V : Type} (k : string) (v : V) (d : dict V) :
  keys (dict_set k v d) = if dict_mem k d then keys d else keys d ++ [k].
Proof.
  unfold dict_mem. induction d as [|[k' v'] d IH]; simpl.
  - reflexivity.
  - destruct (String.eqb k k') eqn:Hk; simpl.
    + reflexivity.
    + rewrite IH. destruct (dict_get k d); reflexivity.
Qed.

Lemma Forall_replace_at {V : Type} (P : string * V -> Prop) (i : nat)
    (k : string) (v v0 : V) (d : dict V) :
  nth_error d i = Some (k, v0) -> P (k, v) -> Forall P d ->
  Forall P (replace_at i v d).
Proof.
  revert i. induction d as [|[k' v'] d IH]; intros [|i] Hnth Hv Hd;
    simpl in *; try discriminate Hnth.
  - injection Hnth as -> _. inversion Hd; subst. constructor; assumption.
  - inversion Hd; subst. constructor; [assumption|].
    apply (IH i); assumption.
Qed.

Lemma Forall_dict_set {V : Type} (P : string * V -> Prop) (k : string)
    (v : V) (d : dict V) :
  P (k, v) -> Forall P d -> Forall P (dict_set k v d).
Proof.
  intros Hv Hd. induction Hd as [|[k' v'] d Hkv Hd IH]; simpl.
  - constructor; [exact Hv | constructor].
  - destruct (String.eqb k k') eqn:Hk.
    + apply String.eqb_eq in Hk. subst k'. constructor; assumption.
    + constructor; assumption.
Qed.

Lemma well_keyed_sweep (from to : status) (subs : dict subscription) :
  well_keyed subs -> well_keyed (sweep from to subs).
Proof.
  intros [Hnd Hid]. split.
  - rewrite keys_sweep. exact Hnd.
  - unfold sweep. apply Forall_map.
    apply (Forall_impl _ (P := fun kv => s_id (snd kv) = fst kv));
      [|exact Hid].
    intros [k s] H. simpl in *.
    destruct (status_eqb (s_status s) from); exact H.
Qed.

Lemma well_keyed_dict_set (id : string) (s : subscription)
    (subs : dict subscription) :
  s_id s = id -> well_keyed subs -> well_keyed (dict_set id s subs).
Proof.
  intros Hs [Hnd Hid]. split.
  - rewrite keys_dict_set. destruct (dict_mem id subs) eqn:Hm; [exact Hnd|].
    apply NoDup_app; [exact Hnd | repeat constructor; intros [] |].
    intros k Hk [<-|[]]. apply dict_mem_In in Hk. congruence.
  - apply Forall_dict_set; assumption.
Qed.

Lemma process_row_well_keyed (E : env) (st st' : state) (r : row) :
  process_row E st r = Ok st' ->
  well_keyed (subscriptions st) -> well_keyed (subscriptions st').
Proof.
  intros Hrow Hwk.
  destruct (is_subscription_payment r) eqn:Hpay.
  - destruct (process_row_payment E st st' r Hpay Hrow)
      as (d & g & rc & n & _ & _ & Hb).
    apply book_payment_Ok in Hb. cbn [subscriptions reporting_currency] in Hb.
    destruct Hb as (_ & _ & _ & _ & Hm).
    destruct (match_subscription r (subscriptions st)) as [i|].
    + destruct Hm as (_ & k & prior & s & Hi & Hrenew & ->).
      apply renew_Ok in Hrenew. destruct Hrenew as (Hsid & _).
      destruct Hwk as [Hnd Hid]. split.
      * rewrite keys_replace_at. exact Hnd.
      * apply (Forall_replace_at _ i k s prior _ Hi); [|exact Hid].
        simpl. rewrite Hsid.
        rewrite Forall_forall in Hid.
        apply (Hid (k, prior)). apply (nth_error_In _ _ Hi).
    + destruct Hm as (_ & id & _ & ->).
      apply well_keyed_dict_set; [reflexivity | exact Hwk].
  - rewrite (process_row_skip E st r Hpay) in Hrow. injection Hrow as <-.
    exact Hwk.
Qed.

Lemma process_rows_well_keyed (E : env) (rows : list row) :
  forall st st',
    process_rows E st rows = Ok st' ->
    well_keyed (subscriptions st) -> well_keyed (subscriptions st').
Proof.
  induction rows as [|r rows IH]; intros st st' H Hwk.
  - injection H as <-. exact Hwk.
  - cbn [process_rows] in H. apply bind_Ok in H.
    destruct H as (st1 & H1 & H).
    apply (IH st1 st' H). apply (process_row_well_keyed E st st1 r H1 Hwk).
Qed.

Lemma process_file_well_keyed (E : env) (fy fm : Z * Z) (ps : bool)
    (t t' : tables) (f : file) :
  process_file E fy fm ps t f = Ok t' ->
  well_keyed (t_subscriptions t) -> well_keyed (t_subscriptions t').
Proof.
  intros H Hwk. apply process_file_Ok in H.
  destruct H as (st & _ & _ & Hrun & _ & -> & _).
  apply well_keyed_sweep.
  apply (process_rows_well_keyed E (data f) _ st Hrun).
  apply well_keyed_sweep. exact Hwk.
Qed.

Lemma process_files_well_keyed (E : env) (fy fm : Z * Z) (ps : bool)
    (infiles : list file) :
  forall t t',
    process_files E fy fm ps t infiles = Ok t' ->
    well_keyed (t_subscriptions t) -> well_keyed (t_subscriptions t').
Proof.
  induction infiles as [|f infiles IH]; intros t t' H Hwk.
  - injection H as <-. exact Hwk.
  - cbn [process_files] in H. apply bind_Ok in H.
    destruct H as (t1 & H1 & H).
    apply (IH t1 t' H).
    apply (process_file_well_keyed E fy fm ps t t1 f H1 Hwk).
Qed.

(** X15: The table that [parse_msr_files] returns has no key twice and every
    subscription under its own id, as a Python dictionary has. *)
Lemma parse_msr_files_well_keyed (E : env) (infiles : list file)
    (fy fm : Z * Z) (rc : pyval) (ps : bool)
    (subs : dict subscription) (months : dict month_summary) :
  parse_msr_files E infiles fy fm rc ps = Ok (subs, months) ->
  well_keyed subs.
Proof.
  unfold parse_msr_files. intros H. apply bind_Ok in H.
  destruct H as (t & Ht & H). injection H as <- _.
  apply (process_files_well_keyed E fy fm ps _ _ t Ht).
  split; constructor.
Qed.

(** ** The order of the files *)

Lemma insert_sorted_perm (f : file) (l : list file) :
  Permutation (f :: l) (insert_sorted f l).
Proof.
  induction l as [|g l IH]; simpl.
  - apply Permutation_refl.
  - destruct (String.leb (path f) (path g)).
    + apply Permutation_refl.
    + apply perm_trans with (g :: f :: l); [apply perm_swap|].
      apply perm_skip. exact IH.
Qed.

Lemma sort_files_perm (l : list file) : Permutation l (sort_files l).
Proof.
  unfold sort_files. induction l as [|f l IH]; simpl.
  - apply perm_nil.
  - apply perm_trans with (f :: fold_right insert_sorted [] l).
    + apply perm_skip. exact IH.
    + apply insert_sorted_perm.
Qed.

Lemma insert_sorted_sorted (f : file) (l : list file) :
  LocallySorted (fun a b => String.leb (path a) (path b) = true) l ->
  LocallySorted (fun a b => String.leb (path a) (path b) = true)
    (insert_sorted f l).
Proof.
  intros Hl. induction Hl as [|g|g h l Hl IH Hgh]; simpl.
  - constructor.
  - destruct (String.leb (path f) (path g)) eqn:Hfg.
    + constructor; [constructor | exact Hfg].
    + constructor; [constructor|].
      destruct (String.leb_total (path f) (path g)); congruence.
  - destruct (String.leb (path f) (path g)) eqn:Hfg.
    + constructor; [|exact Hfg]. constructor; assumption.
    + simpl in IH. destruct (String.leb (path f) (path h)) eqn:Hfh.
      * constructor; [exact IH|].
        destruct (String.leb_total (path f) (path g)); congruence.
      * constructor; [exact IH | exact Hgh].
Qed.

(** The files are read in the order of their paths. *)
Lemma sort_files_sorted (l : list file) :
  LocallySorted (fun a b => String.leb (path a) (path b) = true)
    (sort_files l).
Proof.
  unfold sort_files. induction l as [|f l IH]; simpl.
  - constructor.
  - apply insert_sorted_sorted. exact IH.
Qed.

(** * Further properties of [parse_msr_files] *)

(** ** The line of statistics *)

Lemma process_file_without_stats (E : env) (fy fm : Z * Z) (t t' : tables)
    (f : file) :
  process_file E fy fm true t f = Ok t' ->
  process_file E fy fm false t f = Ok t'.
Proof.
  unfold process_file. intros H.
  destruct (process_rows E (initial_state t) (data f)) as [st|e];
    [|discriminate H].
  cbn [bind] in *.
  destruct (month_rates (new_subscriptions st)
              (count_status tentative (subscriptions st))
              (count_status active (t_subscriptions t))) as [[growth churn]|e];
    [|discriminate H].
  cbn [bind] in *.
  destruct (stats_line (monthly_revenue st) (reporting_currency st)) as [u|e];
    [|discriminate H].
  exact H.
Qed.

(** X9: Printing the statistics never changes what is returned: a run that ends
    well with [print_stats] ends with the same two tables without it. *)
Theorem statistics_do_not_change_the_tables (E : env) (infiles : list file)
    (fy fm : Z * Z) (rc : pyval)
    (result : dict subscription * dict month_summary) :
  parse_msr_files E infiles fy fm rc true = Ok result ->
  parse_msr_files E infiles fy fm rc false = Ok result.
Proof.
  unfold parse_msr_files. intros H.
  apply bind_Ok in H. destruct H as (t' & Hrun & Hres).
  assert (Hfalse : forall l t,
            process_files E fy fm true t l = Ok t' ->
            process_files E fy fm false t l = Ok t').
  { induction l as [|f l IH]; intros t Hl; cbn [process_files] in *.
    - exact Hl.
    - apply bind_Ok in Hl. destruct Hl as (t1 & H1 & Hl).
      rewrite (process_file_without_stats E fy fm t t1 f H1).
      cbn [bind]. apply IH. exact Hl. }
  rewrite (Hfalse _ _ Hrun). exact Hres.
Qed.

Lemma statistics_do_not_change_the_tables_witness :
  parse_msr_files offline [january; february] default_year default_month
    (VBool false) false =
  Ok (t_subscriptions after_february, t_months after_february).
Proof.
  apply statistics_do_not_change_the_tables. vm_compute. reflexivity.
Defined.

Lemma process_rows_no_payment (E : env) (rows : list row) (st : state) :
  Forall (fun r => is_subscription_payment r = false) rows ->
  process_rows E st rows = Ok st.
Proof.
  intros H. induction H as [|r rows Hr Hrows IH]; cbn [process_rows].
  - reflexivity.
  - rewrite (process_row_skip E st r Hr). exact IH.
Qed.

(** X10: Before any payment has been read, and without a reporting currency
    given, the line of statistics cannot be built: when the first file, in
    the order of the paths, has no subscription payment, a run with
    [print_stats] raises [TypeError], whatever the other files hold; the
    same run without [print_stats] goes on to the next file. *)
Theorem first_file_without_payment (E : env) (infiles rest : list file)
    (f : file) (fy fm : Z * Z) :
  sort_files infiles = f :: rest ->
  Forall (fun r => is_subscription_payment r = false) (data f) ->
  parse_msr_files E infiles fy fm (VBool false) true = Raise TypeError
  /\ parse_msr_files E infiles fy fm (VBool false) false =
     (t <- process_files E fy fm false
             (mkTables []
                [(month_id fy fm f,
                  mkMonth (month_id fy fm f) (file_year fy f)
                    (file_month fm f) 0 0 0 (VInt 100) (VInt 0) (VInt 0)
                    (VBool false))]
                (VBool false) O) rest ;;
      Ok (t_subscriptions t, t_months t)).
Proof.
  intros Hsort Hrows. unfold parse_msr_files. rewrite Hsort.
  cbn [process_files]. unfold process_file.
  cbn [initial_state t_subscriptions t_reporting_currency t_calls sweep map].
  rewrite (process_rows_no_payment E (data f) _ Hrows).
  split; reflexivity.
Qed.

Lemma first_file_without_payment_witness :
  parse_msr_files offline [february; january_refund_only] default_year
    default_month (VBool false) true = Raise TypeError.
Proof.
  apply (proj1 (first_file_without_payment offline
                  [february; january_refund_only] [february]
                  january_refund_only default_year default_month
                  eq_refl
                  ltac:(repeat constructor))).
Defined.

(** ** One reporting currency *)

Lemma convert_currency_same (E : env) (rc : pyval) (n : nat) (d : date)
    (g : pyval) (c : string) :
  rc = VBool false \/ rc = VStr c ->
  convert_currency E rc n d g (VStr c) = Ok (VStr c, n, g).
Proof.
  intros [->| ->]; unfold convert_currency.
  - reflexivity.
  - unfold py_ne. simpl. rewrite String.eqb_refl. reflexivity.
Qed.

(** A payment in the reporting currency, or the first payment when none is
    fixed yet, is booked as it stands and asks nothing of the service. *)
Lemma process_row_same_currency (E : env) (st : state) (r : row)
    (c : string) :
  is_subscription_payment r = true ->
  Currency r = VStr c ->
  reporting_currency st = VBool false \/ reporting_currency st = VStr c ->
  process_row E st r =
  (d <- parse_date (Date r) ;;
   g <- parse_gross E (Gross r) ;;
   book_payment
     (mkState (subscriptions st) (VStr c) (calls st)
        (active_subscriptions st) (new_subscriptions st)
        (monthly_revenue st)) r d g).
Proof.
  intros Hpay Hcur Hrc. unfold process_row. simpl in Hpay.
  destruct (py_ne (Description r) (VStr "Subscription Payment"));
    [discriminate Hpay|].
  destruct (parse_date (Date r)) as [d|]; [|reflexivity].
  destruct (parse_gross E (Gross r)) as [g|]; [|reflexivity].
  cbn [bind]. rewrite Hcur, (convert_currency_same E _ _ d g c Hrc).
  reflexivity.
Qed.

Section OneCurrency.

Variable c : string.

Lemma process_rows_same_currency (E1 E2 : env) (rows : list row) :
  (forall s, float_of_str E1 s = float_of_str E2 s) ->
  Forall (fun r => is_subscription_payment r = true -> Currency r = VStr c)
    rows ->
  forall st,
    reporting_currency st = VBool false \/ reporting_currency st = VStr c ->
    process_rows E1 st rows = process_rows E2 st rows
    /\ forall st',
         process_rows E1 st rows = Ok st' ->
         calls st' = calls st
         /\ (reporting_currency st' = VBool false
             \/ reporting_currency st' = VStr c).
Proof.
  intros Hfloat Hrows.
  induction Hrows as [|r rows Hr Hrows IH]; intros st Hrc.
  - split; [reflexivity|]. intros st' H. injection H as <-. auto.
  - cbn [process_rows].
    assert (Hrow : process_row E1 st r = process_row E2 st r
                   /\ forall st1, process_row E1 st r = Ok st1 ->
                        calls st1 = calls st
                        /\ (reporting_currency st1 = VBool false
                            \/ reporting_currency st1 = VStr c)).
    { destruct (is_subscription_payment r) eqn:Hpay.
      - rewrite !(process_row_same_currency _ st r c Hpay (Hr eq_refl) Hrc).
        assert (Hg : parse_gross E1 (Gross r) = parse_gross E2 (Gross r)).
        { destruct (Gross r); simpl; try reflexivity.
          rewrite Hfloat. reflexivity. }
        rewrite Hg. split; [reflexivity|].
        intros st1 H1.
        apply bind_Ok in H1. destruct H1 as (d & _ & H1).
        apply bind_Ok in H1. destruct H1 as (g & _ & H1).
        apply book_payment_Ok in H1.
        destruct H1 as (H1 & H2 & _). simpl in H1, H2. auto.
      - rewrite !(process_row_skip _ st r Hpay). split; [reflexivity|].
        intros st1 H1. injection H1 as <-. auto. }
    destruct Hrow as [Heq Hst1]. rewrite <- Heq.
    destruct (process_row E1 st r) as [st1|e]; cbn [bind].
    + destruct (Hst1 st1 eq_refl) as [Hcalls Hrc1].
      destruct (IH st1 Hrc1) as [IHeq IHst]. split; [exact IHeq|].
      intros st' H'. destruct (IHst st' H') as [Hc Hr']. split; [congruence|].
      exact Hr'.
    + split; [reflexivity | discriminate].
Qed.

Lemma process_files_same_currency (E1 E2 : env) (fy fm : Z * Z) (ps : bool)
    (infiles : list file) :
  (forall s, float_of_str E1 s = float_of_str E2 s) ->
  Forall (paid_in c) infiles ->
  forall t,
    t_reporting_currency t = VBool false \/ t_reporting_currency t = VStr c ->
    process_files E1 fy fm ps t infiles = process_files E2 fy fm ps t infiles
    /\ forall t',
         process_files E1 fy fm ps t infiles = Ok t' -> t_calls t' = t_calls t.
Proof.
  intros Hfloat Hfiles.
  induction Hfiles as [|f infiles Hf Hfiles IH]; intros t Hrc.
  - split; [reflexivity|]. intros t' H. injection H as <-. reflexivity.
  - cbn [process_files].
    destruct (process_rows_same_currency E1 E2 (data f) Hfloat Hf
                (initial_state t) Hrc) as [Heq Hst].
    assert (Hfile : process_file E1 fy fm ps t f = process_file E2 fy fm ps t f).
    { unfold process_file. rewrite Heq. reflexivity. }
    rewrite <- Hfile.
    destruct (process_file E1 fy fm ps t f) as [t1|e] eqn:H1; cbn [bind].
    + apply process_file_Ok in H1.
      destruct H1 as (st & _ & _ & Hrun & _ & _ & Hrc1 & Hcalls1 & _).
      destruct (Hst st Hrun) as [Hcalls Hrcst].
      assert (Hrc' : t_reporting_currency t1 = VBool false
                     \/ t_reporting_currency t1 = VStr c).
      { rewrite Hrc1. exact Hrcst. }
      destruct (IH t1 Hrc') as [IHeq IHcalls]. split; [exact IHeq|].
      intros t' H'. rewrite (IHcalls t' H'), Hcalls1, Hcalls. reflexivity.
    + split; [reflexivity | discriminate].
Qed.

End OneCurrency.

Lemma Forall_sort_files (P : file -> Prop) (l : list file) :
  Forall P l -> Forall P (sort_files l).
Proof.
  intros H. apply Forall_forall. intros f Hf.
  apply (proj1 (In_sort_files f l)) in Hf.
  rewrite Forall_forall in H. apply H. exact Hf.
Qed.

(** X7: When every consumed row is in one currency, and that currency is the
    reporting currency given or none is given, the exchange-rate service
    plays no part: the run gives the same result whatever the service
    would answer. *)
Theorem no_lookup_in_one_currency (E1 E2 : env) (c : string)
    (infiles : list file) (fy fm : Z * Z) (rc : pyval) (ps : bool) :
  (forall s, float_of_str E1 s = float_of_str E2 s) ->
  rc = VBool false \/ rc = VStr c ->
  Forall (paid_in c) infiles ->
  parse_msr_files E1 infiles fy fm rc ps =
  parse_msr_files E2 infiles fy fm rc ps.
Proof.
  intros Hfloat Hrc Hfiles. unfold parse_msr_files.
  destruct (process_files_same_currency c E1 E2 fy fm ps (sort_files infiles)
              Hfloat (Forall_sort_files _ _ Hfiles)
              (mkTables [] [] rc O) Hrc) as [Heq _].
  rewrite Heq. reflexivity.
Qed.

Lemma no_lookup_in_one_currency_witness :
  parse_msr_files offline [january; february] default_year default_month
    (VBool false) true =
  parse_msr_files (fixed_rate 200 "EUR" 0.5) [january; february] default_year
    default_month (VBool false) true.
Proof.
  apply (no_lookup_in_one_currency offline (fixed_rate 200 "EUR" 0.5) "USD").
  - reflexivity.
  - left. reflexivity.
  - repeat constructor.
Defined.

Lemma convert_currency_fixed (E : env) (c : string) (n n' : nat) (d : date)
    (g g' currency rc' : pyval) :
  convert_currency E (VStr c) n d g currency = Ok (rc', n', g') ->
  rc' = VStr c.
Proof.
  unfold convert_currency.
  change (py_eq (VStr c) (VBool false)) with false. cbv iota.
  intros H.
  repeat match type of H with
         | bind _ _ = Ok _ =>
             apply bind_Ok in H; destruct H as (? & _ & H)
         | (if ?b then _ else _) = Ok _ => destruct b
         end;
    injection H; auto.
Qed.

Lemma kept_in_sweep (c : string) (from to : status)
    (subs : dict subscription) :
  kept_in c subs -> kept_in c (sweep from to subs).
Proof.
  unfold kept_in, sweep. intros H. apply Forall_map.
  apply (Forall_impl _ (P := fun kv => s_currency (snd kv) = VStr c));
    [|exact H].
  intros [k s] Hs. simpl in *.
  destruct (status_eqb (s_status s) from); exact Hs.
Qed.

Lemma book_payment_kept_in (c : string) (st st' : state) (r : row)
    (d : date) (g : pyval) :
  book_payment st r d g = Ok st' ->
  reporting_currency st = VStr c ->
  kept_in c (subscriptions st) ->
  reporting_currency st' = VStr c /\ kept_in c (subscriptions st').
Proof.
  intros H Hrc Hsubs. apply book_payment_Ok in H.
  destruct H as (Hrc' & _ & _ & _ & Hm).
  split; [congruence|].
  destruct (match_subscription r (subscriptions st)) as [i|].
  - destruct Hm as (_ & k & prior & s & Hi & Hrenew & ->).
    apply (Forall_replace_at _ i k s prior _ Hi); [|exact Hsubs].
    unfold renew in Hrenew. apply bind_Ok in Hrenew.
    destruct Hrenew as (total & _ & Hs). injection Hs as <-. simpl.
    unfold kept_in in Hsubs. rewrite Forall_forall in Hsubs.
    apply (Hsubs (k, prior)). apply (nth_error_In _ _ Hi).
  - destruct Hm as (_ & id & _ & ->).
    apply Forall_dict_set; [|exact Hsubs]. simpl. exact Hrc.
Qed.

(** Once the reporting currency is a string it stays, and every record
    made from then on carries it. *)
Lemma process_row_kept_in (E : env) (c : string) (st st' : state) (r : row) :
  process_row E st r = Ok st' ->
  reporting_currency st = VStr c ->
  kept_in c (subscriptions st) ->
  reporting_currency st' = VStr c /\ kept_in c (subscriptions st').
Proof.
  intros Hrow Hrc Hsubs.
  destruct (is_subscription_payment r) eqn:Hpay.
  - destruct (process_row_payment E st st' r Hpay Hrow)
      as (d & g & rc & n & _ & (g0 & _ & Hconv) & Hb).
    rewrite Hrc in Hconv. apply convert_currency_fixed in Hconv. subst rc.
    apply (book_payment_kept_in c _ st' r d g Hb); [reflexivity | exact Hsubs].
  - rewrite (process_row_skip E st r Hpay) in Hrow. injection Hrow as <-.
    auto.
Qed.

Lemma process_rows_currency_state (E : env) (c : string) (rows : list row) :
  forall more st st',
    process_rows E st rows = Ok st' ->
    currency_state c (reporting_currency st) (subscriptions st) ->
    (reporting_currency st = VBool false ->
     forall r0, find is_subscription_payment (rows ++ more) = Some r0 ->
                Currency r0 = VStr c) ->
    currency_state c (reporting_currency st') (subscriptions st')
    /\ (reporting_currency st' = VBool false ->
        forall r0, find is_subscription_payment more = Some r0 ->
                   Currency r0 = VStr c).
Proof.
  induction rows as [|r rows IH]; intros more st st' H Hst Hfirst.
  - injection H as <-. auto.
  - cbn [process_rows] in H. apply bind_Ok in H.
    destruct H as (st1 & H1 & H).
    apply (IH more st1 st' H).
    + destruct (is_subscription_payment r) eqn:Hpay.
      * right. destruct Hst as [[Hrc Hsubs]|[Hrc Hsubs]].
        -- assert (Hcur : Currency r = VStr c).
           { apply (Hfirst Hrc). cbn [app find]. rewrite Hpay. reflexivity. }
           rewrite (process_row_same_currency E st r c Hpay Hcur
                      (or_introl Hrc)) in H1.
           apply bind_Ok in H1. destruct H1 as (d & _ & H1).
           apply bind_Ok in H1. destruct H1 as (g & _ & H1).
           apply (book_payment_kept_in c _ st1 r d g H1); [reflexivity|].
           simpl. rewrite Hsubs. constructor.
        -- apply (process_row_kept_in E c st st1 r H1 Hrc Hsubs).
      * rewrite (process_row_skip E st r Hpay) in H1. injection H1 as <-.
        exact Hst.
    + intros Hrc1 r0 Hr0.
      destruct (is_subscription_payment r) eqn:Hpay.
      * exfalso. destruct Hst as [[Hrc Hsubs]|[Hrc Hsubs]].
        -- assert (Hcur : Currency r = VStr c).
           { apply (Hfirst Hrc). cbn [app find]. rewrite Hpay. reflexivity. }
           rewrite (process_row_same_currency E st r c Hpay Hcur
                      (or_introl Hrc)) in H1.
           apply bind_Ok in H1. destruct H1 as (d & _ & H1).
           apply bind_Ok in H1. destruct H1 as (g & _ & H1).
           apply book_payment_Ok in H1. destruct H1 as (H1 & _).
           simpl in H1. congruence.
        -- destruct (process_row_kept_in E c st st1 r H1 Hrc Hsubs)
             as [Hrc' _]. congruence.
      * rewrite (process_row_skip E st r Hpay) in H1. injection H1 as <-.
        apply (Hfirst Hrc1). cbn [app find]. rewrite Hpay. exact Hr0.
Qed.

Lemma currency_state_sweep (c : string) (rc : pyval) (from to : status)
    (subs : dict subscription) :
  currency_state c rc subs -> currency_state c rc (sweep from to subs).
Proof.
  intros [[Hrc ->]|[Hrc Hsubs]].
  - left. auto.
  - right. split; [exact Hrc | apply kept_in_sweep; exact Hsubs].
Qed.

Lemma process_files_currency_state (E : env) (c : string) (fy fm : Z * Z)
    (ps : bool) (infiles : list file) :
  forall t t',
    process_files E fy fm ps t infiles = Ok t' ->
    currency_state c (t_reporting_currency t) (t_subscriptions t) ->
    Forall (fun kv => m_currency (snd kv) = VStr c
                      \/ m_currency (snd kv) = VBool false) (t_months t) ->
    (t_reporting_currency t = VBool false ->
     forall r0,
       find is_subscription_payment (concat (map data infiles)) = Some r0 ->
       Currency r0 = VStr c) ->
    currency_state c (t_reporting_currency t') (t_subscriptions t')
    /\ Forall (fun kv => m_currency (snd kv) = VStr c
                         \/ m_currency (snd kv) = VBool false) (t_months t').
Proof.
  induction infiles as [|f infiles IH]; intros t t' H Hst Hmonths Hfirst.
  - injection H as <-. auto.
  - cbn [process_files] in H. apply bind_Ok in H.
    destruct H as (t1 & H1 & H).
    apply process_file_Ok in H1.
    destruct H1 as (st & growth & churn & Hrun & _ & Hsubs & Hrc & _ & Hm).
    destruct (process_rows_currency_state E c (data f)
                (concat (map data infiles)) (initial_state t) st Hrun)
      as [Hst1 Hfirst1].
    { cbn [initial_state reporting_currency subscriptions].
      apply currency_state_sweep. exact Hst. }
    { exact Hfirst. }
    apply (IH t1 t' H).
    + rewrite Hsubs, Hrc. apply currency_state_sweep. exact Hst1.
    + rewrite Hm. apply Forall_dict_set; [|exact Hmonths].
      cbn [snd m_currency].
      destruct Hst1 as [[Hr _]|[Hr _]]; auto.
    + rewrite Hrc. exact Hfirst1.
Qed.

(** X5: Called with a reporting currency, [parse_msr_files] returns tables in
    which every subscription and every month carries that currency,
    whatever the currencies of the rows are. *)
Theorem given_reporting_currency_everywhere (E : env) (infiles : list file)
    (fy fm : Z * Z) (c : string) (ps : bool)
    (subs : dict subscription) (months : dict month_summary) :
  parse_msr_files E infiles fy fm (VStr c) ps = Ok (subs, months) ->
  Forall (fun kv => s_currency (snd kv) = VStr c) subs
  /\ Forall (fun kv => m_currency (snd kv) = VStr c) months.
Proof.
  unfold parse_msr_files. intros H. apply bind_Ok in H.
  destruct H as (t & Ht & H). injection H as <- <-.
  assert (Hgen : forall l t0 t1,
            process_files E fy fm ps t0 l = Ok t1 ->
            t_reporting_currency t0 = VStr c ->
            kept_in c (t_subscriptions t0) ->
            Forall (fun kv => m_currency (snd kv) = VStr c) (t_months t0) ->
            kept_in c (t_subscriptions t1)
            /\ Forall (fun kv => m_currency (snd kv) = VStr c) (t_months t1)).
  { induction l as [|f l IH]; intros t0 t1 H0 Hrc Hs Hm.
    - injection H0 as <-. auto.
    - cbn [process_files] in H0. apply bind_Ok in H0.
      destruct H0 as (t2 & H2 & H0).
      apply process_file_Ok in H2.
      destruct H2 as (st & growth & churn & Hrun & _ & Hsubs & Hrc2 & _ & Hm2).
      assert (Hst : reporting_currency st = VStr c
                    /\ kept_in c (subscriptions st)).
      { assert (Hrows : forall rows s0 s1,
                  process_rows E s0 rows = Ok s1 ->
                  reporting_currency s0 = VStr c ->
                  kept_in c (subscriptions s0) ->
                  reporting_currency s1 = VStr c
                  /\ kept_in c (subscriptions s1)).
        { induction rows as [|r rows IHr]; intros s0 s1 Hs0 Hr0 Hk0.
          - injection Hs0 as <-. auto.
          - cbn [process_rows] in Hs0. apply bind_Ok in Hs0.
            destruct Hs0 as (s2 & Hs2 & Hs0).
            destruct (process_row_kept_in E c s0 s2 r Hs2 Hr0 Hk0).
            apply (IHr s2 s1 Hs0); assumption. }
        apply (Hrows (data f) (initial_state t0) st Hrun).
        - exact Hrc.
        - cbn [initial_state subscriptions]. apply kept_in_sweep. exact Hs. }
      destruct Hst as [Hrcst Hkst].
      apply (IH t2 t1 H0).
      + congruence.
      + rewrite Hsubs. apply kept_in_sweep. exact Hkst.
      + rewrite Hm2. apply Forall_dict_set; [|exact Hm].
        cbn [snd m_currency]. exact Hrcst. }
  apply (Hgen _ _ t Ht); [reflexivity | constructor | constructor].
Qed.

Lemma given_reporting_currency_everywhere_witness :
  Forall (fun kv => s_currency (snd kv) = VStr "USD")
    (t_subscriptions after_february)
  /\ Forall (fun kv => m_currency (snd kv) = VStr "USD")
       (t_months after_february).
Proof.
  apply (given_reporting_currency_everywhere offline [january; february]
           default_year default_month "USD" true).
  vm_compute. reflexivity.
Defined.

(** X6: Called without a reporting currency, [parse_msr_files] takes the
    currency of the first consumed row, in the order in which the rows are
    read: every subscription carries it, and every month carries it or, for
    the months before that row, [False]. *)
Theorem first_row_fixes_reporting_currency (E : env) (infiles : list file)
    (fy fm : Z * Z) (c : string) (ps : bool) (r0 : row)
    (subs : dict subscription) (months : dict month_summary) :
  find is_subscription_payment (rows_in_order infiles) = Some r0 ->
  Currency r0 = VStr c ->
  parse_msr_files E infiles fy fm (VBool false) ps = Ok (subs, months) ->
  Forall (fun kv => s_currency (snd kv) = VStr c) subs
  /\ Forall (fun kv => m_currency (snd kv) = VStr c
                       \/ m_currency (snd kv) = VBool false) months.
Proof.
  unfold parse_msr_files, rows_in_order. intros Hfind Hcur H.
  apply bind_Ok in H. destruct H as (t & Ht & H). injection H as <- <-.
  destruct (process_files_currency_state E c fy fm ps (sort_files infiles)
              _ t Ht) as [Hst Hm].
  - left. auto.
  - constructor.
  - intros _ r1 Hr1. congruence.
  - split; [|exact Hm].
    destruct Hst as [[_ ->]|[_ Hk]]; [constructor | exact Hk].
Qed.

Lemma first_row_fixes_reporting_currency_witness :
  Forall (fun kv => s_currency (snd kv) = VStr "USD")
    (t_subscriptions after_february)
  /\ Forall (fun kv => m_currency (snd kv) = VStr "USD"
                       \/ m_currency (snd kv) = VBool false)
       (t_months after_february).
Proof.
  apply (first_row_fixes_reporting_currency offline [january; february]
           default_year default_month "USD" true
           (payment "1/15/2019" 10 "USD" "a@x.com")).
  - reflexivity.
  - reflexivity.
  - vm_compute. reflexivity.
Defined.

(** ** Statuses and counts *)

Lemma count_status_sweep_cons (st from to : status) (k : string)
    (s : subscription) (subs : dict subscription) :
  count_status st (sweep from to ((k, s) :: subs)) =
  (if status_eqb (s_status s) from then has_status st (set_status to s)
   else has_status st s)
  + count_status st (sweep from to subs).
Proof.
  unfold has_status. cbn [sweep map fst snd].
  destruct (status_eqb (s_status s) from); reflexivity.
Qed.

Lemma count_status_cons (st : status) (k : string) (s : subscription)
    (subs : dict subscription) :
  count_status st ((k, s) :: subs) = has_status st s + count_status st subs.
Proof. reflexivity. Qed.

Lemma has_status_set (st to : status) (s : subscription) :
  has_status st (set_status to s) = if status_eqb to st then 1 else 0.
Proof. reflexivity. Qed.

Lemma status_eqb_neq (a b : status) : a <> b -> status_eqb a b = false.
Proof. destruct a, b; simpl; congruence. Qed.

Lemma count_status_replace_at (st : status) (i : nat) (k : string)
    (s old : subscription) (subs : dict subscription) :
  nth_error subs i = Some (k, old) ->
  count_status st (replace_at i s subs) =
  count_status st subs - has_status st old + has_status st s.
Proof.
  revert i.
  induction subs as [|[k' s'] subs IH]; intros [|i] H;
    cbn [nth_error replace_at] in *; try discriminate H;
    rewrite !count_status_cons.
  - injection H as _ ->. lia.
  - rewrite (IH i H). lia.
Qed.

Lemma count_status_dict_set (st : status) (k : string) (s : subscription)
    (subs : dict subscription) :
  count_status st (dict_set k s subs) =
  count_status st subs + has_status st s
  - match dict_get k subs with
    | Some old => has_status st old
    | None => 0
    end.
Proof.
  induction subs as [|[k' s'] subs IH]; cbn [dict_set dict_get].
  - rewrite count_status_cons. cbn [count_status]. lia.
  - destruct (String.eqb k k'); rewrite !count_status_cons;
      [lia | rewrite IH; lia].
Qed.

Lemma count_status_sweep_other (st from to : status)
    (subs : dict subscription) :
  st <> from -> st <> to ->
  count_status st (sweep from to subs) = count_status st subs.
Proof.
  intros Hfrom Hto. induction subs as [|[k s] subs IH]; [reflexivity|].
  rewrite count_status_sweep_cons, count_status_cons, IH, has_status_set.
  destruct (status_eqb (s_status s) from) eqn:Hs; [|reflexivity].
  apply status_eqb_eq in Hs. unfold has_status.
  rewrite (status_eqb_neq to st) by congruence.
  rewrite (status_eqb_neq (s_status s) st) by congruence. reflexivity.
Qed.

Lemma count_status_sweep_from (from to : status)
    (subs : dict subscription) :
  from <> to -> count_status from (sweep from to subs) = 0.
Proof.
  intros Hne. induction subs as [|[k s] subs IH]; [reflexivity|].
  rewrite count_status_sweep_cons, IH, has_status_set.
  destruct (status_eqb (s_status s) from) eqn:Hs.
  - rewrite (status_eqb_neq to from) by congruence. reflexivity.
  - unfold has_status. rewrite Hs. reflexivity.
Qed.

Lemma count_status_sweep_to (from to : status)
    (subs : dict subscription) :
  from <> to ->
  count_status to (sweep from to subs) =
  count_status from subs + count_status to subs.
Proof.
  intros Hne. induction subs as [|[k s] subs IH]; [reflexivity|].
  rewrite count_status_sweep_cons, !count_status_cons, IH, has_status_set.
  rewrite status_eqb_refl. unfold has_status.
  destruct (status_eqb (s_status s) from) eqn:Hs.
  - apply status_eqb_eq in Hs.
    rewrite (status_eqb_neq (s_status s) to) by congruence. lia.
  - lia.
Qed.

Lemma count_status_nonneg (st : status) (subs : dict subscription) :
  0 <= count_status st subs.
Proof.
  induction subs as [|[k s] subs IH]; [cbn [count_status]; lia|].
  rewrite count_status_cons. unfold has_status.
  destruct (status_eqb (s_status s) st); lia.
Qed.

Lemma dict_get_In {V : Type} (k : string) (v : V) (d : dict V) :
  dict_get k d = Some v -> In (k, v) d.
Proof.
  induction d as [|[k' v'] d IH]; simpl; [discriminate|].
  destruct (String.eqb k k') eqn:Hk.
  - apply String.eqb_eq in Hk. subst k'. intros H. injection H as ->. auto.
  - auto.
Qed.

Lemma match_subscription_None (r : row) (subs : dict subscription) :
  match_subscription r subs = None ->
  forall k prior, In (k, prior) subs -> ~ candidate r prior.
Proof.
  induction subs as [|[k0 p0] rest IH]; intros H k prior Hin; [destruct Hin|].
  cbn [match_subscription] in H.
  assert (Hrest : match_subscription r rest = None /\ ~ candidate r p0).
  { rewrite candidate_tests.
    destruct (status_eqb (s_status p0) tentative); cbn [negb] in H.
    - destruct (ref_matches r p0); [discriminate H|].
      destruct (email_matches r p0); [discriminate H|].
      destruct (match_subscription r rest); [discriminate H|].
      split; [reflexivity|]. intros [_ [Hc|Hc]]; discriminate Hc.
    - destruct (match_subscription r rest); [discriminate H|].
      split; [reflexivity|]. intros [Hc _]. discriminate Hc. }
  destruct Hrest as [Hnone Hp0]. destruct Hin as [Heq|Hin].
  - injection Heq as <- <-. exact Hp0.
  - apply (IH Hnone k prior Hin).
Qed.

(** What a consumed row does to the number of subscriptions of each
    status. *)
Lemma process_row_counts (E : env) (st st' : state) (r : row) :
  process_row E st r = Ok st' ->
  is_subscription_payment r = true ->
  count_status active (subscriptions st')
    <= count_status active (subscriptions st) + 1
  /\ (well_keyed (subscriptions st) ->
      count_status tentative (subscriptions st') =
      count_status tentative (subscriptions st)
      - match match_subscription r (subscriptions st) with
        | Some _ => 1
        | None => 0
        end).
Proof.
  intros Hrow Hpay.
  destruct (process_row_payment E st st' r Hpay Hrow)
    as (d & g & rc & n & _ & _ & Hb).
  apply book_payment_Ok in Hb. cbn [subscriptions reporting_currency] in Hb.
  destruct Hb as (_ & _ & _ & _ & Hm).
  pose proof (match_subscription_None r (subscriptions st)) as Hspec.
  destruct (match_subscription r (subscriptions st)) as [i|] eqn:Hmatch.
  - destruct Hm as (_ & k & prior & s & Hi & Hrenew & ->).
    apply renew_Ok in Hrenew. destruct Hrenew as (_ & _ & _ & _ & _ & Hs).
    destruct (match_subscription_Some r _ i Hmatch) as (k1 & p1 & Hi1 & Ht).
    rewrite Hi in Hi1. injection Hi1 as <- <-.
    rewrite !(count_status_replace_at _ i k s prior _ Hi).
    unfold has_status. rewrite Hs, Ht. cbn [status_eqb].
    split; [lia|]. intros _. lia.
  - destruct Hm as (_ & id & Hid & ->).
    rewrite !count_status_dict_set.
    change (has_status active (new_subscription id r d rc g)) with 1.
    change (has_status tentative (new_subscription id r d rc g)) with 0.
    split.
    + destruct (dict_get id (subscriptions st)) as [old|]; [|lia].
      unfold has_status. destruct (status_eqb (s_status old) active); lia.
    + intros [_ Hkeyed].
      destruct (dict_get id (subscriptions st)) as [old|] eqn:Hget; [|lia].
      apply new_subscription_id_Ok in Hid.
      destruct Hid as [[Href _]|(email & m & _ & _ & _ & _ & Hfree)].
      * apply dict_get_In in Hget.
        assert (Hsid : s_id old = id).
        { rewrite Forall_forall in Hkeyed. apply (Hkeyed (id, old) Hget). }
        unfold has_status.
        destruct (status_eqb (s_status old) tentative) eqn:Hold; [|lia].
        exfalso. apply (Hspec eq_refl id old Hget).
        split; [apply status_eqb_eq; exact Hold|].
        left. rewrite Hsid. exact Href.
      * unfold dict_mem in Hfree. rewrite Hget in Hfree. discriminate Hfree.
Qed.

Lemma process_rows_counts (E : env) (rows : list row) :
  forall st st',
    process_rows E st rows = Ok st' ->
    count_status active (subscriptions st') - active_subscriptions st'
      <= count_status active (subscriptions st) - active_subscriptions st
    /\ (well_keyed (subscriptions st) ->
        count_status tentative (subscriptions st') =
        count_status tentative (subscriptions st) - renewals E st rows).
Proof.
  induction rows as [|r rows IH]; intros st st' H.
  - injection H as <-. cbn [renewals]. split; [lia | intros _; lia].
  - cbn [process_rows] in H. apply bind_Ok in H.
    destruct H as (st1 & H1 & H).
    destruct (IH st1 st' H) as [IHa IHt].
    cbn [renewals]. rewrite H1.
    destruct (is_subscription_payment r) eqn:Hpay.
    + destruct (process_row_counts E st st1 r H1 Hpay) as [Ha Ht].
      assert (Hact : active_subscriptions st1 = active_subscriptions st + 1).
      { destruct (process_row_payment E st st1 r Hpay H1)
          as (d & g & rc & n & _ & _ & Hb).
        apply book_payment_Ok in Hb. simpl in Hb. apply Hb. }
      split; [lia|]. intros Hwk.
      rewrite (IHt (process_row_well_keyed E st st1 r H1 Hwk)), (Ht Hwk).
      lia.
    + rewrite (process_row_skip E st r Hpay) in H1. injection H1 as <-.
      split; [lia|]. intros Hwk. rewrite (IHt Hwk). lia.
Qed.

(** X16: Every subscription that is active when a pass begins is either renewed
    or canceled in that pass: the number of subscriptions active before
    the pass is the number of rows that renew one plus the number the month
    counts as canceled. *)
Theorem active_before_is_renewed_or_canceled (E : env) (fy fm : Z * Z)
    (ps : bool) (t t' : tables) (f : file) :
  process_file E fy fm ps t f = Ok t' ->
  well_keyed (t_subscriptions t) ->
  count_status tentative (t_subscriptions t) = 0 ->
  exists m,
    dict_get (month_id fy fm f) (t_months t') = Some m
    /\ count_status active (t_subscriptions t) =
       renewals E (initial_state t) (data f) + m_canceled_subscription m.
Proof.
  intros H Hwk Hnone. apply process_file_Ok in H.
  destruct H as (st & growth & churn & Hrun & _ & _ & _ & _ & Hm).
  rewrite Hm, dict_get_set_same. eexists. split; [reflexivity|].
  cbn [m_canceled_subscription].
  destruct (process_rows_counts E (data f) _ st Hrun) as [_ Ht].
  rewrite Ht.
  - cbn [initial_state subscriptions].
    rewrite count_status_sweep_to by discriminate. lia.
  - cbn [initial_state subscriptions]. apply well_keyed_sweep. exact Hwk.
Qed.

Lemma active_before_is_renewed_or_canceled_witness :
  exists m,
    dict_get "2019-02" (t_months after_february_ref) = Some m
    /\ count_status active (t_subscriptions after_january_ref) =
       renewals offline (initial_state after_january_ref) (data february_ref)
       + m_canceled_subscription m.
Proof.
  apply (active_before_is_renewed_or_canceled offline default_year
           default_month true after_january_ref after_february_ref
           february_ref).
  - vm_compute. reflexivity.
  - split.
    + repeat constructor; simpl; intuition discriminate.
    + repeat constructor.
  - reflexivity.
Defined.

(** X17: The subscriptions a pass leaves active, which the next pass counts as
    its prior subscriptions, are at most as many as the month's
    [active_subscriptions]; none is left tentative. *)
Theorem active_records_at_most_active_count (E : env) (fy fm : Z * Z)
    (ps : bool) (t t' : tables) (f : file) :
  process_file E fy fm ps t f = Ok t' ->
  exists m,
    dict_get (month_id fy fm f) (t_months t') = Some m
    /\ count_status active (t_subscriptions t') <= m_active_subscriptions m
    /\ count_status tentative (t_subscriptions t') = 0.
Proof.
  intros H. apply process_file_Ok in H.
  destruct H as (st & growth & churn & Hrun & _ & Hsubs & _ & _ & Hm).
  rewrite Hm, dict_get_set_same. eexists. split; [reflexivity|].
  cbn [m_active_subscriptions]. rewrite Hsubs.
  rewrite count_status_sweep_other by discriminate.
  rewrite count_status_sweep_from by discriminate.
  split; [|reflexivity].
  destruct (process_rows_counts E (data f) _ st Hrun) as [Ha _].
  cbn [initial_state subscriptions active_subscriptions] in Ha.
  rewrite count_status_sweep_from in Ha by discriminate. lia.
Qed.

Lemma active_records_at_most_active_count_witness :
  exists m,
    dict_get "2019-02" (t_months after_february_ref) = Some m
    /\ count_status active (t_subscriptions after_february_ref)
       <= m_active_subscriptions m
    /\ count_status tentative (t_subscriptions after_february_ref) = 0.
Proof.
  apply (active_records_at_most_active_count offline default_year
           default_month true after_january_ref after_february_ref
           february_ref).
  vm_compute. reflexivity.
Defined.

(** ** The table that is returned *)

Lemma process_files_no_tentative (E : env) (fy fm : Z * Z) (ps : bool)
    (infiles : list file) :
  forall t t',
    process_files E fy fm ps t infiles = Ok t' ->
    (forall i k s, nth_error (t_subscriptions t) i = Some (k, s) ->
                   s_status s <> tentative) ->
    forall i k s, nth_error (t_subscriptions t') i = Some (k, s) ->
                  s_status s <> tentative.
Proof.
  induction infiles as [|f infiles IH]; intros t t' H Ht.
  - injection H as <-. exact Ht.
  - cbn [process_files] in H. apply bind_Ok in H.
    destruct H as (t1 & H1 & H).
    apply (IH t1 t' H). intros i k s.
    apply (no_tentative_after_pass E fy fm ps t t1 f i k s H1).
Qed.

Lemma process_row_lengths (E : env) (st st' : state) (r : row) :
  process_row E st r = Ok st' ->
  Forall (fun kv => 1 <= s_length (snd kv)) (subscriptions st) ->
  Forall (fun kv => 1 <= s_length (snd kv)) (subscriptions st').
Proof.
  intros Hrow Hlen.
  destruct (is_subscription_payment r) eqn:Hpay.
  - destruct (process_row_payment E st st' r Hpay Hrow)
      as (d & g & rc & n & _ & _ & Hb).
    apply book_payment_Ok in Hb. cbn [subscriptions] in Hb.
    destruct Hb as (_ & _ & _ & _ & Hm).
    destruct (match_subscription r (subscriptions st)) as [i|].
    + destruct Hm as (_ & k & prior & s & Hi & Hrenew & ->).
      apply renew_Ok in Hrenew. destruct Hrenew as (_ & Hl & _).
      apply (Forall_replace_at _ i k s prior _ Hi); [|exact Hlen].
      cbn [snd]. rewrite Hl. rewrite Forall_forall in Hlen.
      pose proof (Hlen (k, prior) (nth_error_In _ _ Hi)) as Hp.
      cbn [snd] in Hp. lia.
    + destruct Hm as (_ & id & _ & ->).
      apply Forall_dict_set; [|exact Hlen]. cbn [snd new_subscription s_length].
      lia.
  - rewrite (process_row_skip E st r Hpay) in Hrow. injection Hrow as <-.
    exact Hlen.
Qed.

Lemma process_files_lengths (E : env) (fy fm : Z * Z) (ps : bool)
    (infiles : list file) :
  forall t t',
    process_files E fy fm ps t infiles = Ok t' ->
    Forall (fun kv => 1 <= s_length (snd kv)) (t_subscriptions t) ->
    Forall (fun kv => 1 <= s_length (snd kv)) (t_subscriptions t').
Proof.
  assert (Hsweep : forall from to subs,
            Forall (fun kv => 1 <= s_length (snd kv)) subs ->
            Forall (fun kv => 1 <= s_length (snd kv)) (sweep from to subs)).
  { intros from to subs H. unfold sweep. apply Forall_map.
    apply (Forall_impl _ (P := fun kv => 1 <= s_length (snd kv)));
      [|exact H].
    intros [k s] Hs. cbn [fst snd] in *.
    destruct (status_eqb (s_status s) from); exact Hs. }
  assert (Hrows : forall rows st st',
            process_rows E st rows = Ok st' ->
            Forall (fun kv => 1 <= s_length (snd kv)) (subscriptions st) ->
            Forall (fun kv => 1 <= s_length (snd kv)) (subscriptions st')).
  { induction rows as [|r rows IHr]; intros st st' H Hl.
    - injection H as <-. exact Hl.
    - cbn [process_rows] in H. apply bind_Ok in H.
      destruct H as (st1 & H1 & H).
      apply (IHr st1 st' H). apply (process_row_lengths E st st1 r H1 Hl). }
  induction infiles as [|f infiles IH]; intros t t' H Hl.
  - injection H as <-. exact Hl.
  - cbn [process_files] in H. apply bind_Ok in H.
    destruct H as (t1 & H1 & H).
    apply (IH t1 t' H).
    apply process_file_Ok in H1.
    destruct H1 as (st & _ & _ & Hrun & _ & -> & _).
    apply Hsweep. apply (Hrows (data f) _ st Hrun).
    cbn [initial_state subscriptions]. apply Hsweep. exact Hl.
Qed.

(** X14: Every subscription that [parse_msr_files] returns is active or
    canceled, never tentative, and has a length of at least one month. *)
Theorem returned_subscriptions_settled (E : env) (infiles : list file)
    (fy fm : Z * Z) (rc : pyval) (ps : bool)
    (subs : dict subscription) (months : dict month_summary) :
  parse_msr_files E infiles fy fm rc ps = Ok (subs, months) ->
  forall k s,
    In (k, s) subs ->
    (s_status s = active \/ s_status s = canceled) /\ 1 <= s_length s.
Proof.
  unfold parse_msr_files. intros H k s Hin.
  apply bind_Ok in H. destruct H as (t & Ht & H). injection H as <- _.
  split.
  - apply In_nth_error in Hin. destruct Hin as [i Hi].
    assert (Hnt : s_status s <> tentative).
    { apply (process_files_no_tentative E fy fm ps _ _ t Ht) with (i := i)
        (k := k); [|exact Hi].
      intros j kj sj Hj. destruct j; discriminate Hj. }
    destruct (s_status s); [auto | contradiction | auto].
  - pose proof (process_files_lengths E fy fm ps _ _ t Ht) as Hl.
    cbn [t_subscriptions] in Hl. specialize (Hl (Forall_nil _)).
    rewrite Forall_forall in Hl. apply (Hl (k, s) Hin).
Qed.

Lemma returned_subscriptions_settled_witness :
  (s_status
     (mkSubscription "I-ABC" (VStr "Ann") (VStr "a@x.com")
        (mkDate 2019 1 15) (mkDate 2019 1 15) 1 (VStr "USD") (VFloat 10)
        (VStr "USD") (VFloat 10) canceled) = active
   \/ s_status
        (mkSubscription "I-ABC" (VStr "Ann") (VStr "a@x.com")
           (mkDate 2019 1 15) (mkDate 2019 1 15) 1 (VStr "USD") (VFloat 10)
           (VStr "USD") (VFloat 10) canceled) = canceled)
  /\ 1 <= 1.
Proof.
  apply (returned_subscriptions_settled offline [january_ref; february_ref]
           default_year default_month (VBool false) true
           (t_subscriptions after_february_ref)
           (t_months after_february_ref) eq_refl "I-ABC"
           (mkSubscription "I-ABC" (VStr "Ann") (VStr "a@x.com")
              (mkDate 2019 1 15) (mkDate 2019 1 15) 1 (VStr "USD")
              (VFloat 10) (VStr "USD") (VFloat 10) canceled)).
  left. reflexivity.
Defined.

Lemma parse_msr_files_well_keyed_witness :
  well_keyed (t_subscriptions after_march_ref).
Proof.
  apply (parse_msr_files_well_keyed offline
           [january_ref; february_ref; march_ref] default_year default_month
           (VBool false) true (t_subscriptions after_march_ref)
           (t_months after_march_ref)).
  vm_compute. reflexivity.
Defined.

(** ** The order of the files, again *)

Lemma ascii_compare_trans (a b c : ascii) :
  Ascii.compare a b = Lt -> Ascii.compare b c = Lt -> Ascii.compare a c = Lt.
Proof.
  unfold Ascii.compare. rewrite !N.compare_lt_iff. apply N.lt_trans.
Qed.

Lemma string_compare_refl (s : string) : String.compare s s = Eq.
Proof.
  induction s as [|c s IH]; simpl; [reflexivity|].
  unfold Ascii.compare. rewrite N.compare_refl. exact IH.
Qed.

Lemma string_compare_trans (a b c : string) :
  String.compare a b = Lt -> String.compare b c = Lt ->
  String.compare a c = Lt.
Proof.
  revert b c. induction a as [|x a IH]; intros [|y b] [|z c]; simpl;
    try discriminate; try reflexivity.
  destruct (Ascii.compare x y) eqn:Hxy; try discriminate;
    destruct (Ascii.compare y z) eqn:Hyz; try discriminate; intros H1 H2.
  - apply Ascii.compare_eq_iff in Hxy, Hyz. subst y z.
    unfold Ascii.compare. rewrite N.compare_refl. apply (IH b c H1 H2).
  - apply Ascii.compare_eq_iff in Hxy. subst y. rewrite Hyz. reflexivity.
  - apply Ascii.compare_eq_iff in Hyz. subst z. rewrite Hxy. reflexivity.
  - rewrite (ascii_compare_trans x y z Hxy Hyz). reflexivity.
Qed.

Lemma string_leb_trans (a b c : string) :
  String.leb a b = true -> String.leb b c = true -> String.leb a c = true.
Proof.
  unfold String.leb.
  destruct (String.compare a b) eqn:Hab; try discriminate;
    destruct (String.compare b c) eqn:Hbc; try discriminate; intros _ _.
  - apply String.compare_eq_iff in Hab, Hbc. subst b c.
    rewrite string_compare_refl. reflexivity.
  - apply String.compare_eq_iff in Hab. subst b. rewrite Hbc. reflexivity.
  - apply String.compare_eq_iff in Hbc. subst c. rewrite Hab. reflexivity.
  - rewrite (string_compare_trans a b c Hab Hbc). reflexivity.
Qed.

Lemma insert_sorted_pair (x y : file) (l : list file) :
  path x <> path y ->
  (if String.leb (path x) (path y) then x :: y :: l else y :: x :: l) =
  (if String.leb (path y) (path x) then y :: x :: l else x :: y :: l).
Proof.
  intros Hne.
  destruct (String.leb (path x) (path y)) eqn:Hxy;
    destruct (String.leb (path y) (path x)) eqn:Hyx; try reflexivity.
  - elim Hne. apply String.leb_antisym; assumption.
  - destruct (String.leb_total (path x) (path y)); congruence.
Qed.

(** Two files with different paths go to their places in either order. *)
Lemma insert_sorted_comm (x y : file) (l : list file) :
  path x <> path y ->
  insert_sorted x (insert_sorted y l) = insert_sorted y (insert_sorted x l).
Proof.
  intros Hne. induction l as [|g l IH]; cbn [insert_sorted].
  - apply insert_sorted_pair. exact Hne.
  - destruct (String.leb (path y) (path g)) eqn:Hyg;
      destruct (String.leb (path x) (path g)) eqn:Hxg;
      cbn [insert_sorted]; rewrite ?Hyg, ?Hxg.
    + apply insert_sorted_pair. exact Hne.
    + assert (Hxy : String.leb (path x) (path y) = false).
      { destruct (String.leb (path x) (path y)) eqn:H; [|reflexivity].
        rewrite (string_leb_trans _ _ _ H Hyg) in Hxg. discriminate Hxg. }
      rewrite ?Hxy; cbn [insert_sorted]; rewrite ?Hxg, ?Hyg; reflexivity.
    + assert (Hyx : String.leb (path y) (path x) = false).
      { destruct (String.leb (path y) (path x)) eqn:H; [|reflexivity].
        rewrite (string_leb_trans _ _ _ H Hxg) in Hyg. discriminate Hyg. }
      rewrite ?Hyx; cbn [insert_sorted]; rewrite ?Hxg, ?Hyg; reflexivity.
    + rewrite IH. reflexivity.
Qed.

Lemma sort_files_permutation (l1 l2 : list file) :
  Permutation l1 l2 ->
  NoDup (map path l1) ->
  sort_files l1 = sort_files l2.
Proof.
  unfold sort_files. intros Hperm.
  induction Hperm as [|x l l' Hperm IH|x y l|l l' l'' H1 IH1 H2 IH2];
    intros Hnd.
  - reflexivity.
  - cbn [fold_right]. rewrite IH; [reflexivity|].
    inversion Hnd; assumption.
  - cbn [fold_right]. apply insert_sorted_comm.
    inversion Hnd as [|p ps Hnotin _]; subst.
    intros Heq. apply Hnotin. left. symmetry. exact Heq.
  - rewrite IH1 by exact Hnd. apply IH2.
    apply (Permutation_NoDup (Permutation_map path H1) Hnd).
Qed.

(** X1: [glob.glob] may list the files of the folder in any order: as long as
    no path occurs twice the run reads them in the one order of their paths
    and gives the same result. *)
Theorem result_independent_of_listing_order (E : env)
    (infiles infiles' : list file) (fy fm : Z * Z) (rc : pyval) (ps : bool) :
  Permutation infiles infiles' ->
  NoDup (map path infiles) ->
  parse_msr_files E infiles fy fm rc ps =
  parse_msr_files E infiles' fy fm rc ps.
Proof.
  intros Hperm Hnd. unfold parse_msr_files.
  rewrite (sort_files_permutation infiles infiles' Hperm Hnd). reflexivity.
Qed.

Lemma result_independent_of_listing_order_witness :
  parse_msr_files offline [february; january] default_year default_month
    (VBool false) true =
  parse_msr_files offline [january; february] default_year default_month
    (VBool false) true.
Proof.
  apply result_independent_of_listing_order.
  - apply perm_swap.
  - repeat constructor; simpl; intuition discriminate.
Defined.

(** X2: Each file that was found is read once, and the files are read in the
    order of their paths. *)
Theorem files_read_once_in_path_order (l : list file) :
  Permutation l (sort_files l)
  /\ LocallySorted (fun a b => String.leb (path a) (path b) = true)
       (sort_files l).
Proof.
  split.
  - unfold sort_files. induction l as [|f l IH]; cbn [fold_right].
    + apply perm_nil.
    + apply perm_trans with (f :: fold_right insert_sorted [] l).
      * apply perm_skip. exact IH.
      * apply insert_sorted_perm.
  - unfold sort_files. induction l as [|f l IH]; cbn [fold_right].
    + constructor.
    + apply insert_sorted_sorted. exact IH.
Qed.

(** ** The months *)

Lemma string_length_append (a b : string) :
  String.length (a ++ b) = (String.length a + String.length b)%nat.
Proof. induction a as [|c a IH]; simpl; [reflexivity | rewrite IH; reflexivity]. Qed.

Lemma string_append_assoc (a b c : string) :
  ((a ++ b) ++ c = a ++ b ++ c)%string.
Proof. induction a as [|x a IH]; simpl; [reflexivity | rewrite IH; reflexivity]. Qed.

Lemma substring_prefix (b c : string) :
  substring 0 (String.length b) (b ++ c) = b.
Proof.
  induction b as [|x b IH]; simpl.
  - destruct c; reflexivity.
  - rewrite IH. reflexivity.
Qed.

Lemma substring_middle (a b c : string) :
  substring (String.length a) (String.length b) (a ++ b ++ c) = b.
Proof.
  induction a as [|x a IH]; simpl; [apply substring_prefix | exact IH].
Qed.

(** What [s[-j:-k]] is when [s] ends with a piece of [j - k] characters
    followed by [k] more. *)
Lemma py_slice_from_end (a b c : string) (j k : Z) :
  0 < k ->
  j = Z.of_nat (String.length b) + k ->
  k = Z.of_nat (String.length c) ->
  String.length b <> O ->
  py_slice (a ++ b ++ c) (- j) (- k) = b.
Proof.
  intros Hk Hj Hc Hb.
  set (n := Z.of_nat (String.length (a ++ b ++ c))).
  assert (Hn : n = Z.of_nat (String.length a) + Z.of_nat (String.length b)
                   + Z.of_nat (String.length c)).
  { unfold n. rewrite !string_length_append. lia. }
  assert (Hlo : slice_bound n (- j) = Z.of_nat (String.length a)).
  { unfold slice_bound. destruct (- j <? 0) eqn:H; [lia|].
    apply Z.ltb_ge in H. lia. }
  assert (Hhi : slice_bound n (- k) =
                Z.of_nat (String.length a) + Z.of_nat (String.length b)).
  { unfold slice_bound. destruct (- k <? 0) eqn:H; [lia|].
    apply Z.ltb_ge in H. lia. }
  unfold py_slice. fold n. cbv zeta. rewrite Hlo, Hhi.
  destruct (Z.of_nat (String.length a)
            <? Z.of_nat (String.length a) + Z.of_nat (String.length b))
    eqn:H; [|apply Z.ltb_ge in H; lia].
  rewrite Nat2Z.id.
  replace (Z.to_nat _) with (String.length b) by lia.
  apply substring_middle.
Qed.

(** X3: With the default positions, a file whose name ends in four characters
    for the year, two for the month and a four-character extension, in
    whatever folder, belongs to the month [year-month]. *)
Theorem month_of_a_report_name (folder y m ext : string) (rows : list row) :
  String.length y = 4%nat ->
  String.length m = 2%nat ->
  String.length ext = 4%nat ->
  file_year default_year (mkFile (folder ++ y ++ m ++ ext) rows) = y
  /\ file_month default_month (mkFile (folder ++ y ++ m ++ ext) rows) = m
  /\ month_id default_year default_month
       (mkFile (folder ++ y ++ m ++ ext) rows) = (y ++ "-" ++ m)%string.
Proof.
  intros Hy Hm Hext.
  assert (Hyear : file_year default_year
                    (mkFile (folder ++ y ++ m ++ ext) rows) = y).
  { unfold file_year, default_year. cbn [path fst snd].
    change (-10) with (- 10). change (-6) with (- 6).
    apply (py_slice_from_end folder y (m ++ ext) 10 6); try lia.
    rewrite string_length_append. lia. }
  assert (Hmonth : file_month default_month
                     (mkFile (folder ++ y ++ m ++ ext) rows) = m).
  { unfold file_month, default_month. cbn [path fst snd].
    change (-6) with (- 6). change (-4) with (- 4).
    rewrite <- (string_append_assoc folder y (m ++ ext)).
    apply (py_slice_from_end (folder ++ y) m ext 6 4); lia. }
  unfold month_id. rewrite Hyear, Hmonth. auto.
Qed.

Lemma month_of_a_report_name_witness :
  file_year default_year (mkFile ("D:/paypal/MSR-" ++ "2019" ++ "02" ++ ".CSV") [])
    = "2019"%string
  /\ file_month default_month
       (mkFile ("D:/paypal/MSR-" ++ "2019" ++ "02" ++ ".CSV") []) = "02"%string
  /\ month_id default_year default_month
       (mkFile ("D:/paypal/MSR-" ++ "2019" ++ "02" ++ ".CSV") [])
     = ("2019" ++ "-" ++ "02")%string.
Proof.
  apply (month_of_a_report_name "D:/paypal/MSR-" "2019" "02" ".CSV" []);
    reflexivity.
Defined.

Lemma process_files_months (E : env) (fy fm : Z * Z) (ps : bool)
    (infiles : list file) :
  forall t t',
    process_files E fy fm ps t infiles = Ok t' ->
    NoDup (keys (t_months t)) ->
    NoDup (keys (t_months t'))
    /\ forall k,
         In k (keys (t_months t')) <->
         In k (keys (t_months t))
         \/ exists f, In f infiles /\ month_id fy fm f = k.
Proof.
  induction infiles as [|f infiles IH]; intros t t' H Hnd.
  - injection H as <-. split; [exact Hnd|]. intros k. split; [auto|].
    intros [Hk|(f & [] & _)]. exact Hk.
  - cbn [process_files] in H. apply bind_Ok in H.
    destruct H as (t1 & H1 & H).
    apply process_file_Ok in H1.
    destruct H1 as (st & growth & churn & _ & _ & _ & _ & _ & Hm).
    assert (Hkeys : forall k,
              In k (keys (t_months t1)) <->
              In k (keys (t_months t)) \/ month_id fy fm f = k).
    { intros k. rewrite Hm, keys_dict_set.
      destruct (dict_mem (month_id fy fm f) (t_months t)) eqn:Hmem.
      - apply dict_mem_In in Hmem. split; [auto|].
        intros [Hk|<-]; assumption.
      - rewrite in_app_iff. simpl. intuition. }
    assert (Hnd1 : NoDup (keys (t_months t1))).
    { rewrite Hm, keys_dict_set.
      destruct (dict_mem (month_id fy fm f) (t_months t)) eqn:Hmem;
        [exact Hnd|].
      apply NoDup_app; [exact Hnd | repeat constructor; intros [] |].
      intros k Hk [<-|[]]. apply dict_mem_In in Hk. congruence. }
    destruct (IH t1 t' H Hnd1) as [Hnd' Hiff]. split; [exact Hnd'|].
    intros k. rewrite Hiff, Hkeys. split.
    + intros [[Hk|Hk]|(g & Hg & Hk)].
      * auto.
      * right. exists f. simpl. auto.
      * right. exists g. simpl. auto.
    + intros [Hk|(g & [<-|Hg] & Hk)].
      * auto.
      * auto.
      * right. exists g. auto.
Qed.

(** X4: The table of the months has one row for each distinct month that the
    names of the files give, and no other: two files of the same month
    share one row. *)
Theorem one_row_per_month (E : env) (infiles : list file) (fy fm : Z * Z)
    (rc : pyval) (ps : bool)
    (subs : dict subscription) (months : dict month_summary) :
  parse_msr_files E infiles fy fm rc ps = Ok (subs, months) ->
  NoDup (keys months)
  /\ forall k,
       In k (keys months) <->
       exists f, In f infiles /\ month_id fy fm f = k.
Proof.
  unfold parse_msr_files. intros H. apply bind_Ok in H.
  destruct H as (t & Ht & H). injection H as _ <-.
  destruct (process_files_months E fy fm ps (sort_files infiles) _ t Ht)
    as [Hnd Hiff]; [constructor|].
  split; [exact Hnd|]. intros k. rewrite Hiff. split.
  - intros [[]|(f & Hf & Hk)]. exists f.
    split; [apply In_sort_files; exact Hf | exact Hk].
  - intros (f & Hf & Hk). right. exists f.
    split; [apply In_sort_files; exact Hf | exact Hk].
Qed.

Lemma one_row_per_month_witness :
  NoDup (keys (t_months after_february))
  /\ forall k,
       In k (keys (t_months after_february)) <->
       exists f,
         In f [january; february]
         /\ month_id default_year default_month f = k.
Proof.
  apply (one_row_per_month offline [january; february] default_year
           default_month (VBool false) true (t_subscriptions after_february)).
  vm_compute. reflexivity.
Defined.

(** ** Identifiers, again *)

(** X11: When the row has no usable Reference Txn ID and its e-mail address is a
    string, the loop that looks for an identifier ends: it returns
    [<email>_<n>] for the least [n >= 1] whose identifier is not a key of
    the table, so no record is replaced, and [n] is at most one more than
    the number of subscriptions. *)
Theorem synthesized_id_is_first_unused (r : row) (subs : dict subscription)
    (email : string) :
  (forall ref, Reference_Txn_ID r = VStr ref -> has_id_shape ref = false) ->
  From_Email_Address r = VStr email ->
  exists n,
    new_subscription_id r subs = Ok (synthesized_id email n)
    /\ 1 <= n <= 1 + Z.of_nat (List.length subs)
    /\ (forall k, 1 <= k < n ->
          dict_mem (synthesized_id email k) subs = true)
    /\ dict_mem (synthesized_id email n) subs = false.
Proof.
  intros Href Hemail.
  exists (fresh_suffix subs email (List.length subs) 1).
  destruct (fresh_suffix_spec subs email (List.length subs) 1)
    as (Hrange & Hused & _).
  split; [|split; [exact Hrange | split; [exact Hused|]]].
  - unfold new_subscription_id. rewrite Hemail.
    destruct (Reference_Txn_ID r) as [ref| | |]; try reflexivity.
    rewrite (Href ref eq_refl). reflexivity.
  - apply fresh_suffix_unused.
Qed.

Lemma synthesized_id_is_first_unused_witness :
  exists n,
    new_subscription_id (payment "2/15/2019" 10 "USD" "a@x.com")
      (t_subscriptions after_january) = Ok (synthesized_id "a@x.com" n)
    /\ 1 <= n <= 1 + Z.of_nat (List.length (t_subscriptions after_january))
    /\ (forall k, 1 <= k < n ->
          dict_mem (synthesized_id "a@x.com" k)
            (t_subscriptions after_january) = true)
    /\ dict_mem (synthesized_id "a@x.com" n) (t_subscriptions after_january)
       = false.
Proof.
  apply synthesized_id_is_first_unused.
  - intros ref H. discriminate H.
  - reflexivity.
Defined.

(** ** Failed lookups *)

(** X8: For a consumed row in another currency than the reporting currency: an
    exception of the request is the exception of the row; a response of
    status 200 without a rate for the currency raises [KeyError]; a rate
    of zero raises [ZeroDivisionError].  In each case the row is not
    booked. *)
Theorem failed_lookup_raises (E : env) (st : state) (r : row) (d : date)
    (g : float) (base symbol : string) :
  is_subscription_payment r = true ->
  parse_date (Date r) = Ok d ->
  parse_gross E (Gross r) = Ok (VFloat g) ->
  reporting_currency st = VStr base ->
  Currency r = VStr symbol ->
  symbol <> base ->
  (forall e,
     requests_get E (calls st) d base symbol = Raise e ->
     process_row E st r = Raise e)
  /\ (forall rates,
        requests_get E (calls st) d base symbol =
          Ok (mkResponse 200 (Ok rates)) ->
        dict_get symbol rates = None ->
        process_row E st r = Raise KeyError)
  /\ (forall rates x rate,
        requests_get E (calls st) d base symbol =
          Ok (mkResponse 200 (Ok rates)) ->
        dict_get symbol rates = Some x ->
        py_float E x = Ok rate ->
        PrimFloat.eqb rate PrimFloat.zero = true ->
        process_row E st r = Raise ZeroDivisionError).
Proof.
  intros Hpay Hd Hg Hrc Hcur Hne.
  assert (Hrow : process_row E st r =
    ('(rc, n, gross') <-
       (resp <- requests_get E (calls st) d base symbol ;;
        if status_code resp =? 200 then
          rates <- json_rates resp ;;
          xchange_rate <- dict_item symbol rates ;;
          rate <- py_float E xchange_rate ;;
          converted <- py_truediv_float (VFloat g) rate ;;
          Ok (VStr base, S (calls st), converted)
        else Ok (VStr base, S (calls st), VFloat g)) ;;
     book_payment
       (mkState (subscriptions st) rc n (active_subscriptions st)
          (new_subscriptions st) (monthly_revenue st)) r d gross')).
  { unfold process_row. simpl in Hpay.
    destruct (py_ne (Description r) (VStr "Subscription Payment"));
      [discriminate Hpay|].
    rewrite Hd, Hg, Hrc, Hcur. cbn [bind]. unfold convert_currency.
    rewrite (py_ne_str symbol base Hne). reflexivity. }
  rewrite Hrow. split; [|split].
  - intros e He. rewrite He. reflexivity.
  - intros rates Hreq Hnone. rewrite Hreq. cbn [bind status_code json_rates].
    unfold dict_item. rewrite Hnone. reflexivity.
  - intros rates x rate Hreq Hx Hrate Hzero. rewrite Hreq.
    cbn [bind status_code json_rates Z.eqb Pos.eqb].
    unfold dict_item. rewrite Hx. cbn [bind]. rewrite Hrate. cbn [bind].
    unfold py_truediv_float, float_div. cbn [as_num num_float bind].
    rewrite Hzero. reflexivity.
Qed.

Lemma failed_lookup_raises_witness :
  process_row (only_rate_for "GBP" 0.5) (initial_state after_january)
    (payment "2/15/2019" 9 "EUR" "a@x.com") = Raise KeyError.
Proof.
  refine (proj1 (proj2 (failed_lookup_raises (only_rate_for "GBP" 0.5)
    (initial_state after_january) (payment "2/15/2019" 9 "EUR" "a@x.com")
    (mkDate 2019 2 15) 9 "USD" "EUR" _ _ _ _ _ _))
    [("GBP"%string, VFloat 0.5)] _ _).
  - reflexivity.
  - vm_compute. reflexivity.
  - reflexivity.
  - reflexivity.
  - reflexivity.
  - discriminate.
  - reflexivity.
  - reflexivity.
Defined.

(** ** Records that stay *)

Lemma process_file_frame_witness :
  nth_error
    (t_subscriptions
       (tables_of
          (process_file offline default_year default_month true
             after_february_ref february_ref))) 0 =
  Some ("I-ABC"%string,
        mkSubscription "I-ABC" (VStr "Ann") (VStr "a@x.com")
          (mkDate 2019 1 15) (mkDate 2019 1 15) 1 (VStr "USD") (VFloat 10)
          (VStr "USD") (VFloat 10) canceled).
Proof.
  apply (process_file_frame offline default_year default_month true
           after_february_ref _ february_ref).
  - vm_compute. reflexivity.
  - reflexivity.
  - reflexivity.
  - repeat constructor; discriminate.
Defined.

Lemma new_record_after_pass_witness :
  exists i s,
    nth_error (t_subscriptions after_january) i = Some ("a@x.com_1"%string, s)
    /\ s_id s = "a@x.com_1"%string
    /\ s_email s = VStr "a@x.com"
    /\ s_length s = 1
    /\ s_gross s = VFloat 10
    /\ s_start s = mkDate 2019 1 15
    /\ s_end s = mkDate 2019 1 15
    /\ s_status s = active.
Proof.
  apply (new_record_after_pass offline default_year default_month true
           no_tables after_january january []
           (payment "1/15/2019" 10 "USD" "a@x.com") []
           (initial_state no_tables)).
  - vm_compute. reflexivity.
  - reflexivity.
  - reflexivity.
  - reflexivity.
  - reflexivity.
  - split; [vm_compute; reflexivity|].
    exists (VFloat 10), (VStr "USD"), O. split; vm_compute; reflexivity.
  - vm_compute. reflexivity.
  - constructor.
Defined.

(** ** Dates that are read *)

Ltac one_to_nine n H tac :=
  assert (H : In n [0; 1; 2; 3; 4; 5; 6; 7; 8; 9]) by (simpl; lia);
  repeat (destruct H as [<-|H]; [tac|]); destruct H.

Ltac one_to_thirty_one n H tac :=
  assert (H : In n [1; 2; 3; 4; 5; 6; 7; 8; 9; 10; 11; 12; 13; 14; 15; 16;
                    17; 18; 19; 20; 21; 22; 23; 24; 25; 26; 27; 28; 29; 30;
                    31]) by (simpl; lia);
  repeat (destruct H as [<-|H]; [tac|]); destruct H.

Lemma digit_char_digit (n : Z) :
  0 <= n <= 9 ->
  is_digit (digit_char n) = true
  /\ Z.of_nat (nat_of_ascii (digit_char n) - 48) = n.
Proof.
  intros Hn. one_to_nine n H ltac:(split; reflexivity).
Qed.

Lemma int_of_four_digits (a b c e : Z) :
  0 <= a <= 9 -> 0 <= b <= 9 -> 0 <= c <= 9 -> 0 <= e <= 9 ->
  int_of_digits 0 (four_digits a b c e) = year_of a b c e.
Proof.
  intros Ha Hb Hc He.
  destruct (digit_char_digit a Ha) as [Da Va].
  destruct (digit_char_digit b Hb) as [Db Vb].
  destruct (digit_char_digit c Hc) as [Dc Vc].
  destruct (digit_char_digit e He) as [De Ve].
  unfold four_digits, year_of. cbn [int_of_digits].
  rewrite Da, Va, Db, Vb, Dc, Vc, De, Ve. lia.
Qed.

(** A month or a day as it is written: one or two digits, and the number
    they stand for. *)
Lemma written_digits (n : Z) (t : string) :
  1 <= n <= 31 -> written n t ->
  int_of_digits 0 t = n
  /\ ((exists c1, t = String c1 EmptyString /\ is_digit c1 = true)
      \/ (exists c1 c2,
            t = String c1 (String c2 EmptyString)
            /\ is_digit c1 = true /\ is_digit c2 = true)).
Proof.
  intros Hn [->|[Hlt ->]].
  - one_to_thirty_one n H
      ltac:(split; [reflexivity|]; right; eexists; eexists;
            split; [reflexivity|]; split; reflexivity).
  - one_to_thirty_one n H
      ltac:(first [ lia
                  | split; [reflexivity|]; left; eexists;
                    split; reflexivity ]).
Qed.

Lemma first_alternative_taking {R : Type} (k : string -> string -> option R)
    (alts : list (list (ascii -> bool))) (s t r : string) (x : R) :
  first_taking alts s = Some (t, r) ->
  k t r = Some x ->
  first_alternative k alts s = Some x.
Proof.
  induction alts as [|cs alts IH]; cbn [first_taking first_alternative];
    [discriminate|].
  destruct (take_classes cs s) as [[t' r']|].
  - intros H Hk. injection H as -> ->. rewrite Hk. reflexivity.
  - exact IH.
Qed.

(** When the first alternative of a directive that finds its characters is
    followed by a match of the rest of the format, that is the match. *)
Lemma format_match_taking (d : directive) (fmt : list directive)
    (g : groups) (s t r : string) (x : groups * string) :
  first_taking (alternatives d) s = Some (t, r) ->
  format_match fmt (set_group d t g) r = Some x ->
  format_match (d :: fmt) g s = Some x.
Proof.
  intros Ht Hx. cbn [format_match].
  apply (first_alternative_taking _ _ s t r x Ht Hx).
Qed.

Lemma literal_taken (c : ascii) (r : string) :
  first_taking (alternatives (DLit c)) (String c r)
  = Some (String c EmptyString, r).
Proof.
  cbn [first_taking alternatives take_classes].
  unfold in_range. rewrite Nat.leb_refl. reflexivity.
Qed.

Lemma year_taken (a b c e : Z) (r : string) :
  0 <= a <= 9 -> 0 <= b <= 9 -> 0 <= c <= 9 -> 0 <= e <= 9 ->
  first_taking (alternatives DY) (four_digits a b c e ++ r)
  = Some (four_digits a b c e, r).
Proof.
  intros Ha Hb Hc He.
  destruct (digit_char_digit a Ha) as [Da _].
  destruct (digit_char_digit b Hb) as [Db _].
  destruct (digit_char_digit c Hc) as [Dc _].
  destruct (digit_char_digit e He) as [De _].
  unfold four_digits.
  cbn [first_taking alternatives take_classes append].
  rewrite Da, Db, Dc, De. reflexivity.
Qed.

Lemma month_taken (m : Z) (t : string) (sep : ascii) (r : string) :
  1 <= m <= 12 -> written m t -> sep = "/"%char \/ sep = "-"%char ->
  first_taking (alternatives Dm) (t ++ String sep r) = Some (t, String sep r).
Proof.
  intros Hm Ht Hsep.
  assert (H31 : 1 <= m <= 31) by lia.
  destruct Ht as [->|[Hlt ->]]; destruct Hsep as [->| ->];
    one_to_thirty_one m H ltac:(first [lia | reflexivity]).
Qed.

Lemma day_taken (d : Z) (t : string) (sep : ascii) (r : string) :
  1 <= d <= 31 -> written d t -> sep = "/"%char \/ sep = "-"%char ->
  first_taking (alternatives Dd) (t ++ String sep r) = Some (t, String sep r).
Proof.
  intros Hd Ht Hsep.
  destruct Ht as [->|[Hlt ->]]; destruct Hsep as [->| ->];
    one_to_thirty_one d H ltac:(first [lia | reflexivity]).
Qed.

Lemma day_taken_last (d : Z) (t : string) :
  1 <= d <= 31 -> written d t ->
  first_taking (alternatives Dd) t = Some (t, EmptyString).
Proof.
  intros Hd Ht.
  destruct Ht as [->|[Hlt ->]];
    one_to_thirty_one d H ltac:(first [lia | reflexivity]).
Qed.

(** [strptime] on a date written month first. *)
Lemma strptime_mdY (sep : ascii) (m d a b c e : Z) (tm td : string) :
  sep = "/"%char \/ sep = "-"%char ->
  1 <= m <= 12 -> 1 <= d <= 31 ->
  0 <= a <= 9 -> 0 <= b <= 9 -> 0 <= c <= 9 -> 0 <= e <= 9 ->
  written m tm -> written d td ->
  strptime (tm ++ String sep (td ++ String sep (four_digits a b c e)))
    (fmt_mdY sep)
  = make_date (year_of a b c e) m d.
Proof.
  intros Hsep Hm Hd Ha Hb Hc He Htm Htd.
  assert (Hmatch :
    format_match (fmt_mdY sep) no_groups
      (tm ++ String sep (td ++ String sep (four_digits a b c e)))
    = Some (mkGroups (Some (four_digits a b c e)) (Some tm) (Some td),
            EmptyString)).
  { unfold fmt_mdY.
    apply (format_match_taking Dm _ _ _ tm
             (String sep (td ++ String sep (four_digits a b c e))));
      [apply (month_taken m); assumption|].
    apply (format_match_taking (DLit sep) _ _ _ (String sep EmptyString)
             (td ++ String sep (four_digits a b c e)));
      [apply literal_taken|].
    apply (format_match_taking Dd _ _ _ td
             (String sep (four_digits a b c e)));
      [apply (day_taken d); assumption|].
    apply (format_match_taking (DLit sep) _ _ _ (String sep EmptyString)
             (four_digits a b c e)); [apply literal_taken|].
    apply (format_match_taking DY _ _ _ (four_digits a b c e) EmptyString).
    - replace (four_digits a b c e)
        with (four_digits a b c e ++ EmptyString)%string at 1
        by reflexivity.
      apply year_taken; assumption.
    - reflexivity. }
  unfold strptime. rewrite Hmatch. cbn [gY gm gd group_value].
  rewrite (int_of_four_digits a b c e Ha Hb Hc He).
  assert (H31 : 1 <= m <= 31) by lia.
  rewrite (proj1 (written_digits m tm H31 Htm)).
  rewrite (proj1 (written_digits d td Hd Htd)). reflexivity.
Qed.

(** [strptime] on a date written year first. *)
Lemma strptime_Ymd (m d a b c e : Z) (tm td : string) :
  1 <= m <= 12 -> 1 <= d <= 31 ->
  0 <= a <= 9 -> 0 <= b <= 9 -> 0 <= c <= 9 -> 0 <= e <= 9 ->
  written m tm -> written d td ->
  strptime (four_digits a b c e ++ String "-" (tm ++ String "-" td)) fmt_Ymd
  = make_date (year_of a b c e) m d.
Proof.
  intros Hm Hd Ha Hb Hc He Htm Htd.
  assert (Hmatch :
    format_match fmt_Ymd no_groups
      (four_digits a b c e ++ String "-" (tm ++ String "-" td))
    = Some (mkGroups (Some (four_digits a b c e)) (Some tm) (Some td),
            EmptyString)).
  { unfold fmt_Ymd.
    apply (format_match_taking DY _ _ _ (four_digits a b c e)
             (String "-" (tm ++ String "-" td)));
      [apply year_taken; assumption|].
    apply (format_match_taking (DLit "-") _ _ _ (String "-" EmptyString)
             (tm ++ String "-" td)); [apply literal_taken|].
    apply (format_match_taking Dm _ _ _ tm (String "-" td));
      [apply (month_taken m); auto|].
    apply (format_match_taking (DLit "-") _ _ _ (String "-" EmptyString) td);
      [apply literal_taken|].
    apply (format_match_taking Dd _ _ _ td EmptyString);
      [apply (day_taken_last d); assumption | reflexivity]. }
  unfold strptime. rewrite Hmatch. cbn [gY gm gd group_value].
  rewrite (int_of_four_digits a b c e Ha Hb Hc He).
  assert (H31 : 1 <= m <= 31) by lia.
  rewrite (proj1 (written_digits m tm H31 Htm)).
  rewrite (proj1 (written_digits d td Hd Htd)). reflexivity.
Qed.

(** One or two characters of the class, then the continuation. *)
Lemma re_rep_one_or_two (p : ascii -> bool) (k : string -> bool)
    (s : string) :
  re_rep p k 1 2 s = true <->
  (exists a r, s = String a r /\ p a = true /\ k r = true)
  \/ (exists a b r,
        s = String a (String b r) /\ p a = true /\ p b = true
        /\ k r = true).
Proof.
  cbn [re_rep Nat.pred]. split.
  - intros H. rewrite orb_false_r in H.
    destruct s as [|a s]; [discriminate H|].
    destruct (p a) eqn:Ha; [|discriminate H].
    apply orb_true_iff in H. destruct H as [H|H].
    + destruct s as [|b r]; [discriminate H|].
      destruct (p b) eqn:Hb; [|discriminate H].
      right. exists a, b, r. auto.
    + left. exists a, s. auto.
  - intros [(a & r & -> & Ha & Hk)|(a & b & r & -> & Ha & Hb & Hk)].
    + rewrite Ha, Hk. rewrite orb_true_r. reflexivity.
    + rewrite Ha, Hb, Hk. reflexivity.
Qed.

Lemma re_match_char (c : ascii) (rest : list re_item) (s : string) :
  re_match (RChar c :: rest) s = true <->
  exists r, s = String c r /\ re_match rest r = true.
Proof.
  cbn [re_match]. split.
  - destruct s as [|c' r]; [discriminate|]. intros H.
    apply andb_true_iff in H. destruct H as [Hc Hr].
    apply Ascii.eqb_eq in Hc. subst c'. exists r. auto.
  - intros (r & -> & Hr). rewrite Ascii.eqb_refl, Hr. reflexivity.
Qed.

Lemma re_match_class (p : ascii -> bool) (lo hi : nat)
    (rest : list re_item) (s : string) :
  re_match (RClass p lo hi :: rest) s = re_rep p (re_match rest) lo hi s.
Proof. reflexivity. Qed.

(** The guard pattern lets a text through only when its second or its
    third character is the separator. *)
Lemma date_pattern_separator (sep : ascii) (s : string) :
  re_match (date_pattern sep) s = true ->
  (exists a r, s = String a (String sep r))
  \/ (exists a b r, s = String a (String b (String sep r))).
Proof.
  unfold date_pattern. rewrite re_match_class. intros H.
  apply re_rep_one_or_two in H.
  destruct H as [(a & r & -> & _ & Hk)|(a & b & r & -> & _ & _ & Hk)];
    apply (re_match_char sep) in Hk; destruct Hk as (r' & -> & _).
  - left. exists a, r'. reflexivity.
  - right. exists a, b, r'. reflexivity.
Qed.

(** The guard pattern lets a date through that is written month first with
    its separator. *)
Lemma date_pattern_accepts (sep : ascii) (m d a b c e : Z) (tm td : string) :
  1 <= m <= 31 -> 1 <= d <= 31 ->
  0 <= a <= 9 -> 0 <= b <= 9 -> 0 <= c <= 9 -> 0 <= e <= 9 ->
  written m tm -> written d td ->
  re_match (date_pattern sep)
    (tm ++ String sep (td ++ String sep (four_digits a b c e))) = true.
Proof.
  intros Hm Hd Ha Hb Hc He Htm Htd.
  destruct (digit_char_digit a Ha) as [Da _].
  destruct (digit_char_digit b Hb) as [Db _].
  destruct (digit_char_digit c Hc) as [Dc _].
  destruct (digit_char_digit e He) as [De _].
  assert (Hyear : re_match [RClass is_digit 4 4] (four_digits a b c e) = true).
  { unfold four_digits. cbn [re_match re_rep Nat.pred].
    rewrite Da, Db, Dc, De. reflexivity. }
  assert (Hgroup : forall n t rest r,
            1 <= n <= 31 -> written n t ->
            re_match rest r = true ->
            re_match (RClass is_digit 1 2 :: RChar sep :: rest)
              (t ++ String sep r) = true).
  { intros n t rest r Hn Ht Hr. rewrite re_match_class.
    apply re_rep_one_or_two.
    assert (Hk : re_match (RChar sep :: rest) (String sep r) = true).
    { apply re_match_char. exists r. auto. }
    destruct (proj2 (written_digits n t Hn Ht))
      as [(c1 & -> & H1)|(c1 & c2 & -> & H1 & H2)].
    - left. exists c1, (String sep r). auto.
    - right. exists c1, c2, (String sep r). auto. }
  unfold date_pattern.
  apply (Hgroup m tm _ _ Hm Htm). apply (Hgroup d td _ _ Hd Htd). exact Hyear.
Qed.

Lemma digit_not_separator (c sep : ascii) :
  is_digit c = true -> sep = "/"%char \/ sep = "-"%char -> c <> sep.
Proof.
  intros H [->| ->] ->; vm_compute in H; discriminate H.
Qed.

(** The guard pattern of one separator stops a date written with the other
    separator, and a date written year first. *)
Lemma date_pattern_rejects_mdY (sep sep' : ascii) (m d : Z) (tm td r : string) :
  sep = "/"%char \/ sep = "-"%char ->
  sep' <> sep ->
  1 <= m <= 31 -> 1 <= d <= 31 -> written m tm -> written d td ->
  re_match (date_pattern sep) (tm ++ String sep' (td ++ r)) = false.
Proof.
  intros Hsep Hne Hm Hd Htm Htd.
  destruct (re_match (date_pattern sep) (tm ++ String sep' (td ++ r)))
    eqn:H; [exfalso | reflexivity].
  apply date_pattern_separator in H.
  destruct (proj2 (written_digits m tm Hm Htm))
    as [(c1 & -> & H1)|(c1 & c2 & -> & H1 & H2)];
    destruct (proj2 (written_digits d td Hd Htd))
      as [(d1 & -> & G1)|(d1 & d2 & -> & G1 & G2)];
    cbn [append] in H;
    destruct H as [(x & s & Heq)|(x & y & s & Heq)];
    first [ apply Hne; congruence
          | apply (digit_not_separator _ sep G1 Hsep); congruence
          | apply (digit_not_separator _ sep H2 Hsep); congruence ].
Qed.

Lemma date_pattern_rejects_Ymd (sep : ascii) (a b c e : Z) (r : string) :
  sep = "/"%char \/ sep = "-"%char ->
  0 <= b <= 9 -> 0 <= c <= 9 ->
  re_match (date_pattern sep) (four_digits a b c e ++ r) = false.
Proof.
  intros Hsep Hb Hc.
  destruct (re_match (date_pattern sep) (four_digits a b c e ++ r))
    eqn:H; [exfalso | reflexivity].
  apply date_pattern_separator in H. unfold four_digits in H.
  cbn [append] in H.
  destruct (digit_char_digit b Hb) as [Db _].
  destruct (digit_char_digit c Hc) as [Dc _].
  destruct H as [(x & s & Heq)|(x & y & s & Heq)].
  - apply (digit_not_separator _ sep Db Hsep). congruence.
  - apply (digit_not_separator _ sep Dc Hsep). congruence.
Qed.

(** X18: A date written in one of the three ways, with one or two digits for
    the month and for the day and four for the year, is read as
    [datetime.date(year, month, day)]: accepted with these three numbers
    when they are a date of the calendar, [ValueError] otherwise. *)
Theorem written_dates_are_read (m d a b c e : Z) (tm td : string) :
  1 <= m <= 12 -> 1 <= d <= 31 ->
  0 <= a <= 9 -> 0 <= b <= 9 -> 0 <= c <= 9 -> 0 <= e <= 9 ->
  written m tm -> written d td ->
  parse_date
    (VStr (tm ++ String "/" (td ++ String "/" (four_digits a b c e))))
    = make_date (year_of a b c e) m d
  /\ parse_date
       (VStr (tm ++ String "-" (td ++ String "-" (four_digits a b c e))))
     = make_date (year_of a b c e) m d
  /\ parse_date
       (VStr (four_digits a b c e ++ String "-" (tm ++ String "-" td)))
     = make_date (year_of a b c e) m d.
Proof.
  intros Hm Hd Ha Hb Hc He Htm Htd.
  assert (Hm31 : 1 <= m <= 31) by lia.
  split; [|split]; unfold parse_date.
  - rewrite (date_pattern_accepts "/" m d a b c e tm td) by assumption.
    apply strptime_mdY; auto.
  - rewrite (date_pattern_rejects_mdY "/" "-" m d tm td) by
      (first [assumption | discriminate | left; reflexivity]).
    rewrite (date_pattern_accepts "-" m d a b c e tm td) by assumption.
    apply strptime_mdY; auto.
  - rewrite !date_pattern_rejects_Ymd by auto.
    apply strptime_Ymd; assumption.
Qed.

Lemma written_dates_are_read_witness :
  parse_date (VStr ("3" ++ String "/" ("15" ++ String "/" "2019")))
    = make_date 2019 3 15
  /\ parse_date (VStr ("3" ++ String "-" ("15" ++ String "-" "2019")))
     = make_date 2019 3 15
  /\ parse_date (VStr ("2019" ++ String "-" ("3" ++ String "-" "15")))
     = make_date 2019 3 15.
Proof.
  apply (written_dates_are_read 3 15 2 0 1 9 "3" "15"); try lia.
  - right. split; [lia | reflexivity].
  - left. reflexivity.
Defined.

(** ** Amounts written as text *)



(** ** One renewal in a pass *)

(** X20: A subscription that is not tentative is matched to no row for the rest
    of the pass: after the row that renews it, or that makes it, a later
    payment of the same customer in the same file is not booked on it. *)
Theorem renewed_at_most_once (E : env) (st st1 : state) (rows : list row)
    (r : row) (i : nat) (k : string) (s : subscription) :
  process_rows E st rows = Ok st1 ->
  nth_error (subscriptions st) i = Some (k, s) ->
  s_status s <> tentative ->
  match_subscription r (subscriptions st1) <> Some i.
Proof.
  intros Hrun Hi Hs Hmatch.
  destruct (match_subscription_Some r _ i Hmatch) as (k1 & p1 & Hi1 & Ht).
  pose proof (process_rows_tentative E rows i k1 p1 st st1 Hrun Hi1 Ht) as H0.
  rewrite Hi in H0. injection H0 as _ ->. contradiction.
Qed.

Lemma renewed_at_most_once_witness :
  match_subscription (payment "2/16/2019" 10 "USD" "a@x.com")
    (t_subscriptions after_february) <> Some O.
Proof.
  apply (renewed_at_most_once offline
           (mkState (t_subscriptions after_february) (VStr "USD") O 1 0
              (VFloat 10))
           (mkState (t_subscriptions after_february) (VStr "USD") O 1 0
              (VFloat 10))
           [] (payment "2/16/2019" 10 "USD" "a@x.com") O "a@x.com_1"
           (mkSubscription "a@x.com_1" (VStr "Ann") (VStr "a@x.com")
              (mkDate 2019 1 15) (mkDate 2019 2 15) 2 (VStr "USD")
              (VFloat 20) (VStr "USD") (VFloat 10) active)).
  - reflexivity.
  - reflexivity.
  - discriminate.
Defined.

(** ** The three formats, one after the other *)

(** The guard pattern lets a text through only when it begins with one or
    two digits and the separator. *)
Lemma date_pattern_digits (sep : ascii) (s : string) :
  re_match (date_pattern sep) s = true ->
  (exists a r, s = String a (String sep r) /\ is_digit a = true)
  \/ (exists a b r,
        s = String a (String b (String sep r))
        /\ is_digit a = true /\ is_digit b = true).
Proof.
  unfold date_pattern. rewrite re_match_class. intros H.
  apply re_rep_one_or_two in H.
  destruct H as [(a & r & -> & Ha & Hk)|(a & b & r & -> & Ha & Hb & Hk)];
    apply (re_match_char sep) in Hk; destruct Hk as (r' & -> & _).
  - left. exists a, r'. auto.
  - right. exists a, b, r'. auto.
Qed.

(** A text that [strptime] reads with dashes does not pass the guard of the
    format with slashes. *)
Lemma dashes_not_guarded_as_slashes (s : string) (d : date) :
  strptime s (fmt_mdY "-") = Ok d ->
  re_match (date_pattern "/") s = false.
Proof.
  intros H. apply strptime_Ok in H. destruct H as (x & H).
  apply format_match_mdY in H.
  destruct (re_match (date_pattern "/") s) eqn:Hg; [exfalso | reflexivity].
  apply date_pattern_digits in Hg.
  destruct H as [(a & r & ->)|(a & b & r & -> & Hb)];
    destruct Hg as [(a' & r' & Heq & Ha')|(a' & b' & r' & Heq & Ha' & Hb')];
    try discriminate Heq.
  - injection Heq as _ <- _. discriminate Hb'.
  - injection Heq as _ -> _. discriminate Hb.
Qed.

(** A text that [strptime] reads year first passes neither guard. *)
Lemma Ymd_not_guarded (sep : ascii) (s : string) (d : date) :
  is_digit sep = false ->
  strptime s fmt_Ymd = Ok d ->
  re_match (date_pattern sep) s = false.
Proof.
  intros Hsep H. apply strptime_Ok in H. destruct H as (x & H).
  unfold fmt_Ymd in H. apply format_match_year in H.
  destruct H as (a & b & c & r & -> & Hb & Hc).
  destruct (re_match (date_pattern sep) (String a (String b (String c r))))
    eqn:Hg; [exfalso | reflexivity].
  apply date_pattern_separator in Hg.
  destruct Hg as [(a' & r' & Heq)|(a' & b' & r' & Heq)]; congruence.
Qed.

Lemma days_in_month_at_most (y m : Z) : days_in_month y m <= 31.
Proof.
  unfold days_in_month.
  destruct (m =? 2); [destruct (is_leap y); lia|].
  destruct ((m =? 4) || (m =? 6) || (m =? 9) || (m =? 11)); lia.
Qed.

Lemma make_date_Ok (y m d : Z) :
  1 <= y <= 9999 -> 1 <= m <= 12 -> 1 <= d <= days_in_month y m ->
  make_date y m d = Ok (mkDate y m d).
Proof.
  intros Hy Hm Hd. unfold make_date.
  replace (1 <=? y) with true by (symmetry; apply Z.leb_le; lia).
  replace (y <=? 9999) with true by (symmetry; apply Z.leb_le; lia).
  replace (1 <=? m) with true by (symmetry; apply Z.leb_le; lia).
  replace (m <=? 12) with true by (symmetry; apply Z.leb_le; lia).
  replace (1 <=? d) with true by (symmetry; apply Z.leb_le; lia).
  replace (d <=? days_in_month y m) with true
    by (symmetry; apply Z.leb_le; lia).
  reflexivity.
Qed.

(** C6: [parse_date] tries the formats %m/%d/%Y, %m-%d-%Y, %Y-%m-%d in
    that order.
    - A date that it accepts is the date [strptime] reads in the first of
      the three formats that the text is in.
    - A text that is in none of the three raises [ValueError].
    - A consumed row whose date raises makes the run raise, whichever file
      it is in and whatever rows surround it.
    - It accepts a text, with the date [d], exactly when the text passes
      the guard of the first format and [strptime] reads [d] in it, or
      passes the guard of the second and [strptime] reads [d] in it, or
      [strptime] reads [d] in the third.
    - A calendar date written month/day/year, month-day-year or
      year-month-day, with one or two digits for the month and for the day
      and four for the year, is accepted with its year, month and day. *)
Theorem date_formats_in_order_or_error :
  (forall s d, parse_date (VStr s) = Ok d -> first_format s = Ok d)
  /\ (forall s,
        raises (strptime s (fmt_mdY "/")) ->
        raises (strptime s (fmt_mdY "-")) ->
        raises (strptime s fmt_Ymd) ->
        parse_date (VStr s) = Raise ValueError)
  /\ (forall E infiles f r fy fm rc ps,
        In f infiles -> In r (data f) ->
        is_subscription_payment r = true ->
        raises (parse_date (Date r)) ->
        raises (parse_msr_files E infiles fy fm rc ps))
  /\ (forall s d,
        parse_date (VStr s) = Ok d <->
        (re_match (date_pattern "/") s = true
         /\ strptime s (fmt_mdY "/") = Ok d)
        \/ (re_match (date_pattern "-") s = true
            /\ strptime s (fmt_mdY "-") = Ok d)
        \/ strptime s fmt_Ymd = Ok d)
  /\ (forall m d a b c e tm td,
        0 <= a <= 9 -> 0 <= b <= 9 -> 0 <= c <= 9 -> 0 <= e <= 9 ->
        1 <= year_of a b c e ->
        1 <= m <= 12 ->
        1 <= d <= days_in_month (year_of a b c e) m ->
        written m tm -> written d td ->
        parse_date
          (VStr (tm ++ String "/" (td ++ String "/" (four_digits a b c e))))
          = Ok (mkDate (year_of a b c e) m d)
        /\ parse_date
             (VStr (tm ++ String "-" (td ++ String "-" (four_digits a b c e))))
           = Ok (mkDate (year_of a b c e) m d)
        /\ parse_date
             (VStr (four_digits a b c e ++ String "-" (tm ++ String "-" td)))
           = Ok (mkDate (year_of a b c e) m d)).
Proof.
  split; [|split; [|split; [|split]]].
  - intros s d H. unfold parse_date in H. unfold first_format.
    destruct (re_match (date_pattern "/") s).
    + rewrite H. reflexivity.
    + destruct (re_match (date_pattern "-") s).
      * rewrite (dashes_exclude_slashes s d H), H. reflexivity.
      * rewrite (Ymd_excludes_mdY "/" s d eq_refl H).
        rewrite (Ymd_excludes_mdY "-" s d eq_refl H). exact H.
  - intros s [e1 H1] [e2 H2] [e3 H3]. unfold parse_date.
    destruct (re_match (date_pattern "/") s);
      [rewrite H1; f_equal; apply (strptime_Raise _ _ _ H1)|].
    destruct (re_match (date_pattern "-") s);
      [rewrite H2; f_equal; apply (strptime_Raise _ _ _ H2)|].
    rewrite H3; f_equal; apply (strptime_Raise _ _ _ H3).
  - intros E infiles f r fy fm rc ps Hf Hr Hpay Hbad.
    unfold parse_msr_files.
    destruct (process_files_raises E fy fm ps (sort_files infiles) f
                (proj2 (In_sort_files f infiles) Hf)
                (process_rows_bad_date E (data f) r Hr Hpay Hbad)
                (mkTables [] [] rc O)) as [e He].
    rewrite He. exists e. reflexivity.
  - intros s d. unfold parse_date. split.
    + intros H.
      destruct (re_match (date_pattern "/") s); [left; auto|].
      destruct (re_match (date_pattern "-") s); [right; left; auto|].
      right. right. exact H.
    + intros [[Hg H]|[[Hg H]|H]].
      * rewrite Hg. exact H.
      * rewrite (dashes_not_guarded_as_slashes s d H), Hg. exact H.
      * rewrite (Ymd_not_guarded "/" s d eq_refl H).
        rewrite (Ymd_not_guarded "-" s d eq_refl H). exact H.
  - intros m d a b c e tm td Ha Hb Hc He Hy Hm Hd Htm Htd.
    pose proof (days_in_month_at_most (year_of a b c e) m) as Hmax.
    assert (Hd31 : 1 <= d <= 31) by lia.
    assert (Hm31 : 1 <= m <= 31) by lia.
    assert (Hdate : make_date (year_of a b c e) m d
                    = Ok (mkDate (year_of a b c e) m d)).
    { apply make_date_Ok; [unfold year_of in *; lia | exact Hm | exact Hd]. }
    rewrite <- Hdate. unfold parse_date. split; [|split].
    + rewrite (date_pattern_accepts "/" m d a b c e tm td) by assumption.
      apply strptime_mdY; auto.
    + rewrite (date_pattern_rejects_mdY "/" "-" m d tm td) by
        (first [assumption | discriminate | left; reflexivity]).
      rewrite (date_pattern_accepts "-" m d a b c e tm td) by assumption.
      apply strptime_mdY; auto.
    + rewrite !date_pattern_rejects_Ymd by auto.
      apply strptime_Ymd; assumption.
Qed.

Lemma date_formats_in_order_or_error_witness :
  raises (parse_msr_files offline [february; january_dotted] default_year
            default_month (VBool false) true)
  /\ parse_date (VStr "2019-01-15") = Ok (mkDate 2019 1 15)
  /\ parse_date (VStr ("1" ++ String "/" ("15" ++ String "/" "2019")))
     = Ok (mkDate 2019 1 15)
  /\ parse_date (VStr ("01" ++ String "-" ("15" ++ String "-" "2019")))
     = Ok (mkDate 2019 1 15).
Proof.
  split; [|split; [|split]].
  - apply (proj1 (proj2 (proj2 date_formats_in_order_or_error)) offline
             [february; january_dotted] january_dotted
             (payment "15.01.2019" 10 "USD" "a@x.com")).
    + simpl. auto.
    + simpl. auto.
    + reflexivity.
    + exists ValueError. vm_compute. reflexivity.
  - apply (proj2 (proj1 (proj2 (proj2 (proj2 date_formats_in_order_or_error)))
                    "2019-01-15"%string (mkDate 2019 1 15))).
    right. right. vm_compute. reflexivity.
  - refine (proj1 (proj2 (proj2 (proj2 (proj2 date_formats_in_order_or_error)))
                     1 15 2 0 1 9 "1"%string "15"%string _ _ _ _ _ _ _ _ _));
      try lia.
    + vm_compute. discriminate.
    + vm_compute. split; discriminate.
    + right. split; [lia | reflexivity].
    + left. reflexivity.
  - refine (proj1 (proj2 (proj2 (proj2 (proj2 (proj2
                     date_formats_in_order_or_error)))
                     1 15 2 0 1 9 "01"%string "15"%string _ _ _ _ _ _ _ _ _)));
      try lia.
    + vm_compute. discriminate.
    + vm_compute. split; discriminate.
    + left. reflexivity.
    + left. reflexivity.
Defined.
